(** * super-backend: landing pages, lead ingestion, access grants, login

    A shallow embedding of the Express/Mongoose route handlers of the
    repository, and the properties proved about them.

    Conventions of the embedding
    - A JSON request body or query object is a [gmap string Js.Val]; a
      property that is absent reads as [None] (JavaScript [undefined]).
    - JavaScript strings are [string]s, one character per code unit; the
      model covers code units below 256.  JSON numbers are integers [Z].
    - A JavaScript exception ([TypeError], a Mongoose validation error,
      a duplicate-key error) is [Throw]; route handlers run in a monad
      with three outcomes: go on, [return res.status(..).json(..)], throw.
    - Collections are lists of documents in insertion order.
    - What the libraries decide (express-validator's checks, Mongoose's
      casts, update validators and aggregation, the password hash) is a
      [Variable] of the section that holds the route, or an argument of
      the handler ([errors] is [validationResult(req)]).
    - Definitions come first (sections 1 to 6j), the lemmas and theorems
      follow (section 7 onwards).

    Where the sources are
    - routes/leads.js: second document of src/routes/superAdmin.js
      (ingestion at lines 675-771, list at lines 778-868, single lead at
      lines 873-913, status update at lines 918-973, delete at lines
      1057-1071, statistics at lines 1076-1146);
    - routes/superAdmin.js: first document of src/routes/superAdmin.js
      (delete landing page at lines 187-213, update sub-admin at lines
      375-480, delete sub-admin at lines 485-517);
    - routes/landingPages.js: src/routes/landingPages.js (create at lines
      15-56, update at lines 136-200, delete at lines 205-232,
      form-fields at lines 311-381, test-form at lines 410-468);
    - routes/admin.js: src/unnamed/part_000 (approve-user at lines 34-68,
      reject-user at lines 73-117, grant-access at lines 176-247,
      revoke-access at lines 252-279);
    - routes/accessRequests.js: src/routes/accessRequests.js (create at
      lines 18-72, approve at lines 148-207, reject at lines 212-256,
      delete at lines 261-285);
    - routes/auth.js: src/routes/auth.js (login at lines 71-128);
    - routes/subAdmin.js: second document of src/README.md (leads at
      lines 391-481);
    - models: src/models/Lead.js, src/models/AdminAccess.js,
      src/unnamed/part_007 (LandingPage), src/unnamed/part_008
      (AccessRequest). *)

From Stdlib Require Import ZArith Ascii String List Bool Lia.
From stdpp Require Import base option list gmap fin_maps strings pretty.

Local Open Scope string_scope.
Local Open Scope list_scope.
Set Warnings "-register-all".

(* ===================================================================== *)
(** * 1. JavaScript values and the string operations the routes use       *)
(* ===================================================================== *)

Module Js.

(** Errors a handler can throw; Express hands them to the error
    middleware of api/index.js, which answers 500. *)
Inductive Error : Type :=
| TypeError
| ValidationError (path : string)
| CastError
| DuplicateKeyError.

(** Result of an expression that may throw. *)
Inductive Res (A : Type) : Type :=
| Ok (a : A)
| Throw (e : Error).
Arguments Ok {A} a.
Arguments Throw {A} e.

#[global] Instance Res_ret : MRet Res := fun A a => Ok a.
#[global] Instance Res_bind : MBind Res := fun A B f m =>
  match m with
  | Ok a => f a
  | Throw e => Throw e
  end.

(** Values: what [JSON.parse] (or the urlencoded parser) can put in a
    request body, plus [undefined] (the value of an unset document path)
    and the functions inherited from [Object.prototype], which a computed
    lookup [obj[name]] can return. *)
Inductive Val : Type :=
| VUndefined
| VNull
| VBool (b : bool)
| VNum (n : Z)
| VStr (s : string)
| VArr (elems : list Val)
| VObj (props : list (string * Val))
| VFun (name : string).

(** [!v] is [negb (truthy v)]; an absent property is [undefined]. *)
Definition truthy (v : option Val) : bool :=
  match v with
  | None => false
  | Some VUndefined => false
  | Some VNull => false
  | Some (VBool b) => b
  | Some (VNum n) => negb (n =? 0)%Z
  | Some (VStr s) => negb (String.eqb s "")
  | Some (VArr _) => true
  | Some (VObj _) => true
  | Some (VFun _) => true
  end.

Definition has_own (k : string) (props : list (string * Val)) : bool :=
  existsb (fun kv => String.eqb (fst kv) k) props.

(** [String(v)] / [v.toString()].  An array joins its elements with a
    comma, [null] elements giving the empty string; a plain object gives
    "[object Object]" unless it carries an own (hence non-callable)
    [toString] property, in which case the call throws. *)
Fixpoint toString (v : Val) : Res string :=
  match v with
  | VUndefined => Ok "undefined"
  | VNull => Ok "null"
  | VBool true => Ok "true"
  | VBool false => Ok "false"
  | VNum n => Ok (pretty n)
  | VStr s => Ok s
  | VArr elems =>
      (fix join (l : list Val) : Res string :=
         match l with
         | [] => Ok ""
         | x :: rest =>
             let elem :=
               match x with
               | VUndefined | VNull => Ok ""
               | _ => toString x
               end in
             match rest with
             | [] => elem
             | _ :: _ =>
                 match elem with
                 | Throw e => Throw e
                 | Ok s =>
                     match join rest with
                     | Throw e => Throw e
                     | Ok r => Ok (s +:+ "," +:+ r)
                     end
                 end
             end
         end) elems
  | VObj props =>
      if has_own "toString" props then Throw TypeError
      else Ok "[object Object]"
  | VFun name => Ok ("function " +:+ name +:+ "() { [native code] }")
  end.

(** White space of [String.prototype.trim] and of the regex class [\s],
    among the code units below 256: TAB, LF, VT, FF, CR, SP, NBSP. *)
Definition is_space (c : ascii) : bool :=
  let n := nat_of_ascii c in
  ((9 <=? n)%nat && (n <=? 13)%nat) || (n =? 32)%nat || (n =? 160)%nat.

Fixpoint trimStart (s : string) : string :=
  match s with
  | EmptyString => EmptyString
  | String c s' => if is_space c then trimStart s' else s
  end.

Fixpoint trimEnd (s : string) : string :=
  match s with
  | EmptyString => EmptyString
  | String c s' =>
      match trimEnd s' with
      | EmptyString => if is_space c then EmptyString else String c EmptyString
      | t => String c t
      end
  end.

Definition trim (s : string) : string := trimEnd (trimStart s).

(** [v.trim()]: only strings have the method. *)
Definition call_trim (v : Val) : Res string :=
  match v with
  | VStr s => Ok (trim s)
  | _ => Throw TypeError
  end.

Definition lower_char (c : ascii) : ascii :=
  let n := nat_of_ascii c in
  if ((65 <=? n)%nat && (n <=? 90)%nat)
     || ((192 <=? n)%nat && (n <=? 222)%nat && negb (n =? 215)%nat)
  then ascii_of_nat (n + 32) else c.

Fixpoint lower (s : string) : string :=
  match s with
  | EmptyString => EmptyString
  | String c s' => String (lower_char c) (lower s')
  end.

(** [v.toLowerCase()]: only strings have the method. *)
Definition call_toLowerCase (v : Val) : Res string :=
  match v with
  | VStr s => Ok (lower s)
  | _ => Throw TypeError
  end.

(** ** Regular expressions, matched by derivatives *)

Inductive Regex : Type :=
| ReVoid
| ReEps
| ReClass (p : ascii -> bool)
| ReSeq (r1 r2 : Regex)
| ReAlt (r1 r2 : Regex)
| ReStar (r : Regex).

Definition RePlus (r : Regex) : Regex := ReSeq r (ReStar r).
Definition ReChar (c : ascii) : Regex := ReClass (Ascii.eqb c).

Fixpoint nullable (r : Regex) : bool :=
  match r with
  | ReVoid => false
  | ReEps => true
  | ReClass _ => false
  | ReSeq r1 r2 => nullable r1 && nullable r2
  | ReAlt r1 r2 => nullable r1 || nullable r2
  | ReStar _ => true
  end.

Fixpoint deriv (c : ascii) (r : Regex) : Regex :=
  match r with
  | ReVoid => ReVoid
  | ReEps => ReVoid
  | ReClass p => if p c then ReEps else ReVoid
  | ReSeq r1 r2 =>
      if nullable r1
      then ReAlt (ReSeq (deriv c r1) r2) (deriv c r2)
      else ReSeq (deriv c r1) r2
  | ReAlt r1 r2 => ReAlt (deriv c r1) (deriv c r2)
  | ReStar r' => ReSeq (deriv c r') (ReStar r')
  end.

(** Whole-string match, i.e. a pattern written between [^] and [$]. *)
Fixpoint re_match (r : Regex) (s : string) : bool :=
  match s with
  | EmptyString => nullable r
  | String c s' => re_match (deriv c r) s'
  end.

(** [[^\s@]] *)
Definition not_space_or_at (c : ascii) : bool :=
  negb (is_space c) && negb (Ascii.eqb c "@").

(** [/^[^\s@]+@[^\s@]+\.[^\s@]+$/] *)
Definition email_regex : Regex :=
  ReSeq (RePlus (ReClass not_space_or_at))
    (ReSeq (ReChar "@")
       (ReSeq (RePlus (ReClass not_space_or_at))
          (ReSeq (ReChar ".") (RePlus (ReClass not_space_or_at))))).

(** [regex.test(v)] converts its argument with [String(v)]. *)
Definition regex_test (r : Regex) (v : Val) : Res bool :=
  s ← toString v; mret (re_match r s).

(** Names every object inherits from [Object.prototype]. *)
Definition object_prototype_keys : list string :=
  [ "constructor"; "hasOwnProperty"; "isPrototypeOf"; "propertyIsEnumerable";
    "toLocaleString"; "toString"; "valueOf";
    "__defineGetter__"; "__defineSetter__"; "__lookupGetter__";
    "__lookupSetter__" ].

(** Computed property read [obj[k]] on a parsed body: the own property,
    else what the prototype chain supplies. *)
Definition get_computed (obj : gmap string Val) (k : string) : option Val :=
  match obj !! k with
  | Some v => Some v
  | None =>
      if bool_decide (k ∈ object_prototype_keys) then Some (VFun k)
      else if bool_decide (k = "__proto__") then Some (VObj [])
      else None
  end.

(** [parseInt(v, 10)] on a query-string value: leading white space, an
    optional sign, then the longest run of decimal digits; [None] is NaN. *)
Definition digit_of (c : ascii) : option Z :=
  let n := nat_of_ascii c in
  if (48 <=? n)%nat && (n <=? 57)%nat then Some (Z.of_nat (n - 48)) else None.

Fixpoint parse_digits (acc : option Z) (s : string) : option Z :=
  match s with
  | EmptyString => acc
  | String c s' =>
      match digit_of c with
      | Some d => parse_digits (Some (10 * default 0%Z acc + d)%Z) s'
      | None => acc
      end
  end.

Definition parseInt10 (v : option Val) : Res (option Z) :=
  match v with
  | None => Ok None
  | Some v =>
      s ← toString v;
      mret (match trimStart s with
            | String "-" s' => Z.opp <$> parse_digits None s'
            | String "+" s' => parse_digits None s'
            | s' => parse_digits None s'
            end)
  end.

(** [n || d] for a number that may be NaN or 0. *)
Definition num_or (n : option Z) (d : Z) : Z :=
  match n with
  | Some k => if (k =? 0)%Z then d else k
  | None => d
  end.

End Js.

(* ===================================================================== *)
(** * 2. The route-handler monad                                          *)
(* ===================================================================== *)

(** A handler body is a sequence of statements, each of which goes on
    with a value ([Next]), answers the request and stops
    ([return res.status(..).json(..)], [Return]) or throws ([Raise]). *)
Inductive Step (R A : Type) : Type :=
| Next (a : A)
| Return (r : R)
| Raise (e : Js.Error).
Arguments Next {R A} a.
Arguments Return {R A} r.
Arguments Raise {R A} e.

#[global] Instance Step_ret {R} : MRet (Step R) := fun A a => Next a.
#[global] Instance Step_bind {R} : MBind (Step R) := fun A B f m =>
  match m with
  | Next a => f a
  | Return r => Return r
  | Raise e => Raise e
  end.

(** An expression that may throw, used as a statement. *)
Definition try {R A} (m : Js.Res A) : Step R A :=
  match m with
  | Js.Ok a => Next a
  | Js.Throw e => Raise e
  end.

(** What asyncHandler sees when the body is done: a response, or an
    error passed to [next]. *)
Definition run {R} (m : Step R R) : Js.Res R :=
  match m with
  | Next r => Js.Ok r
  | Return r => Js.Ok r
  | Raise e => Js.Throw e
  end.

(* ===================================================================== *)
(** * 3. The Mongoose models                                              *)
(* ===================================================================== *)

Definition ObjectId : Type := string.

(** Form field definitions of models/LandingPage.js ([formFieldSchema]);
    [placeholder], [options] and [validation] are read by none of the
    routes below and are left out. *)
Module FormField.
Inductive FieldType : Type :=
| text | email | phone | textarea | select | checkbox | radio
| number | date | url.

Record t : Type := mk {
  name : string;
  label : string;
  type : FieldType;
  required : bool;
  order : Z
}.
End FormField.

(** [includeDefaultFields] of models/LandingPage.js. *)
Module DefaultFields.
Record t : Type := mk {
  firstName : bool;
  lastName : bool;
  email : bool;
  phone : bool;
  company : bool;
  message : bool
}.

(** The schema defaults. *)
Definition default : t := mk true true true false false false.
End DefaultFields.

Module LandingPage.
Inductive Status : Type := active | inactive.

Record t : Type := mk {
  _id : ObjectId;
  name : string;
  url : string;
  status : Status;
  formFields : list FormField.t;
  includeDefaultFields : DefaultFields.t
}.

Definition is_active (p : t) : bool :=
  match status p with active => true | inactive => false end.

(** [LandingPage.findById(id)]. *)
Definition findById (id : ObjectId) (coll : list t) : option t :=
  List.find (fun p => String.eqb (_id p) id) coll.
End LandingPage.

(** models/Lead.js.  [Data] is the plain object the ingestion route hands
    to [Lead.create]; [t] is the stored document.  [_id] and the
    timestamps are left out. *)
Module Lead.
Inductive Status : Type := new | contacted | qualified | converted | lost.

Record Data : Type := mkData {
  d_landingPage : ObjectId;
  d_ipAddress : option string;
  d_userAgent : option string;
  d_dynamicFields : gmap string Js.Val;
  d_firstName : option string;
  d_lastName : option string;
  d_email : option string;
  d_phone : option string;
  d_company : option string;
  d_message : option string
}.

Record t : Type := mk {
  firstName : string;
  lastName : string;
  email : string;
  phone : option string;
  company : option string;
  message : option string;
  dynamicFields : gmap string Js.Val;
  landingPage : ObjectId;
  status : Status;
  source : string;
  ipAddress : option string;
  userAgent : option string
}.

(** [required: [true, ..]] on a String path, checked after the path's
    setters ran: unset and the empty string both fail. *)
Definition required (path : string) (v : option string) : Js.Res string :=
  match v with
  | Some s =>
      if String.eqb s "" then Js.Throw (Js.ValidationError path) else Js.Ok s
  | None => Js.Throw (Js.ValidationError path)
  end.

(** [Lead.create(leadData)]: the setters ([trim: true],
    [lowercase: true]), the required paths, the defaults of [status]
    and [source]. *)
Definition create (d : Data) : Js.Res t :=
  fn ← required "firstName" (Js.trim <$> d_firstName d);
  ln ← required "lastName" (Js.trim <$> d_lastName d);
  em ← required "email" (Js.lower <$> d_email d);
  mret {| firstName := fn;
          lastName := ln;
          email := em;
          phone := Js.trim <$> d_phone d;
          company := Js.trim <$> d_company d;
          message := Js.trim <$> d_message d;
          dynamicFields := d_dynamicFields d;
          landingPage := d_landingPage d;
          status := new;
          source := "landing_page";
          ipAddress := d_ipAddress d;
          userAgent := d_userAgent d |}.

Definition str_or_undefined (v : option string) : Js.Val :=
  match v with
  | Some s => Js.VStr s
  | None => Js.VUndefined
  end.

(** The object literal that opens the [allFormData] getter. *)
Definition fixedAttributes (l : t) : gmap string Js.Val :=
  <["message" := str_or_undefined (message l)]>
  (<["company" := str_or_undefined (company l)]>
  (<["phone" := str_or_undefined (phone l)]>
  (<["email" := Js.VStr (email l)]>
  (<["lastName" := Js.VStr (lastName l)]>
  (<["firstName" := Js.VStr (firstName l)]> ∅))))).

(** [leadSchema.virtual('allFormData').get]: start from the six fixed
    attributes, then [dynamicFields.forEach((value, key) => data[key] =
    value)]. *)
Definition allFormData (l : t) : gmap string Js.Val :=
  map_fold (fun key value data => <[key := value]> data)
           (fixedAttributes l) (dynamicFields l).
End Lead.

(** models/AdminAccess.js.  [_id] numbers the documents in creation
    order; it stands for the ObjectId the driver generates. *)
Module AdminAccess.
Inductive Status : Type := active | inactive | revoked.

#[global] Instance Status_eq_dec : EqDecision Status.
Proof. solve_decision. Defined.

Record t : Type := mk {
  _id : nat;
  subAdmin : ObjectId;
  landingPage : ObjectId;
  grantedBy : ObjectId;
  status : Status;
  grantedAt : Z;
  revokedAt : option Z;
  revokedBy : option ObjectId
}.

(** A filter on the two indexed paths. *)
Definition same_pair (s p : ObjectId) (a : t) : bool :=
  bool_decide (subAdmin a = s) && bool_decide (landingPage a = p).

(** [AdminAccess.findOne({subAdmin, landingPage})]. *)
Definition findOne (s p : ObjectId) (coll : list t) : option t :=
  List.find (same_pair s p) coll.

(** [AdminAccess.findById(id)]. *)
Definition findById (id : nat) (coll : list t) : option t :=
  List.find (fun a => Nat.eqb (_id a) id) coll.

(** [AdminAccess.find({subAdmin, status: 'active'})]. *)
Definition find_active (s : ObjectId) (coll : list t) : list t :=
  List.filter (fun a => bool_decide (subAdmin a = s)
                        && bool_decide (status a = active)) coll.

(** [doc.save()] of a document that was read from the collection. *)
Definition save (doc : t) (coll : list t) : list t :=
  List.map (fun a => if Nat.eqb (_id a) (_id doc) then doc else a) coll.

Definition fresh_id (coll : list t) : nat :=
  S (list_max (List.map _id coll)).

(** [AdminAccess.create({subAdmin, landingPage, grantedBy})]: the
    schema defaults, and the unique index on (subAdmin, landingPage). *)
Definition create (s p by_ : ObjectId) (now : Z) (coll : list t)
  : Js.Res (t * list t) :=
  if existsb (same_pair s p) coll then Js.Throw Js.DuplicateKeyError
  else
    let doc := {| _id := fresh_id coll; subAdmin := s; landingPage := p;
                  grantedBy := by_; status := active; grantedAt := now;
                  revokedAt := None; revokedBy := None |} in
    Js.Ok (doc, coll ++ [doc]).
End AdminAccess.

(** The paths of the User model that the routes read. *)
Module User.
Inductive Role : Type := super_admin | sub_admin.
Inductive Status : Type := pending | approved | rejected.

#[global] Instance Role_eq_dec : EqDecision Role.
Proof. solve_decision. Defined.
#[global] Instance Status_eq_dec : EqDecision Status.
Proof. solve_decision. Defined.

Record t : Type := mk {
  _id : ObjectId;
  name : string;
  email : string;
  password : string;
  role : Role;
  status : Status;
  companyName : string
}.

(** [User.findById(id)]. *)
Definition findById (id : ObjectId) (coll : list t) : option t :=
  List.find (fun u => String.eqb (_id u) id) coll.

(** [User.findOne({email})]. *)
Definition findOne_email (e : string) (coll : list t) : option t :=
  List.find (fun u => String.eqb (email u) e) coll.
End User.

(* ===================================================================== *)
(** * 4. routes/leads.js: lead ingestion and the lead list                *)
(* ===================================================================== *)

(** The JSON envelope [{success, message, errors, data}] with its HTTP
    status; a key the handler does not write is [None]. *)
Record Reply (D : Type) : Type := mkReply {
  status : nat;
  success : bool;
  message : option string;
  errors : option (list string);
  data : option D
}.
Arguments mkReply {D} _ _ _ _ _.
Arguments status {D} _.
Arguments success {D} _.
Arguments message {D} _.
Arguments errors {D} _.
Arguments data {D} _.

(** [res.status(code).json({ success: false, message: msg })] *)
Definition failure {D} (code : nat) (msg : string) : Reply D :=
  mkReply code false (Some msg) None None.

Module LeadRoutes.

Record Request : Type := mkRequest {
  body : gmap string Js.Val;
  ip : option string;
  userAgent : option string
}.

(** [v.trim()] where [v] was read from a property. *)
Definition call_trim (v : option Js.Val) : Js.Res string :=
  match v with
  | Some x => Js.call_trim x
  | None => Js.Throw Js.TypeError
  end.

Definition call_toLowerCase (v : option Js.Val) : Js.Res string :=
  match v with
  | Some x => Js.call_toLowerCase x
  | None => Js.Throw Js.TypeError
  end.

(** [v.toString()]: [undefined] and [null] have no properties. *)
Definition call_toString (v : Js.Val) : Js.Res string :=
  match v with
  | Js.VUndefined | Js.VNull => Js.Throw Js.TypeError
  | _ => Js.toString v
  end.

(** [!v || v.trim().length < 2] *)
Definition name_invalid (v : option Js.Val) : Js.Res bool :=
  if negb (Js.truthy v) then Js.Ok true
  else t ← call_trim v; mret (String.length t <? 2)%nat.

(** [!v || !/^[^\s@]+@[^\s@]+\.[^\s@]+$/.test(v)] *)
Definition email_invalid (v : option Js.Val) : Js.Res bool :=
  if negb (Js.truthy v) then Js.Ok true
  else ok ← Js.regex_test Js.email_regex (default Js.VUndefined v);
       mret (negb ok).

(** [!v || v.toString().trim() === ''] *)
Definition blank (v : option Js.Val) : Js.Res bool :=
  if negb (Js.truthy v) then Js.Ok true
  else s ← call_toString (default Js.VUndefined v);
       mret (String.eqb (Js.trim s) "").

Definition set_firstName (s : string) (d : Lead.Data) : Lead.Data :=
  Lead.mkData (Lead.d_landingPage d) (Lead.d_ipAddress d) (Lead.d_userAgent d)
    (Lead.d_dynamicFields d) (Some s) (Lead.d_lastName d) (Lead.d_email d)
    (Lead.d_phone d) (Lead.d_company d) (Lead.d_message d).
Definition set_lastName (s : string) (d : Lead.Data) : Lead.Data :=
  Lead.mkData (Lead.d_landingPage d) (Lead.d_ipAddress d) (Lead.d_userAgent d)
    (Lead.d_dynamicFields d) (Lead.d_firstName d) (Some s) (Lead.d_email d)
    (Lead.d_phone d) (Lead.d_company d) (Lead.d_message d).
Definition set_email (s : string) (d : Lead.Data) : Lead.Data :=
  Lead.mkData (Lead.d_landingPage d) (Lead.d_ipAddress d) (Lead.d_userAgent d)
    (Lead.d_dynamicFields d) (Lead.d_firstName d) (Lead.d_lastName d) (Some s)
    (Lead.d_phone d) (Lead.d_company d) (Lead.d_message d).
Definition set_phone (s : string) (d : Lead.Data) : Lead.Data :=
  Lead.mkData (Lead.d_landingPage d) (Lead.d_ipAddress d) (Lead.d_userAgent d)
    (Lead.d_dynamicFields d) (Lead.d_firstName d) (Lead.d_lastName d)
    (Lead.d_email d) (Some s) (Lead.d_company d) (Lead.d_message d).
Definition set_company (s : string) (d : Lead.Data) : Lead.Data :=
  Lead.mkData (Lead.d_landingPage d) (Lead.d_ipAddress d) (Lead.d_userAgent d)
    (Lead.d_dynamicFields d) (Lead.d_firstName d) (Lead.d_lastName d)
    (Lead.d_email d) (Lead.d_phone d) (Some s) (Lead.d_message d).
Definition set_message (s : string) (d : Lead.Data) : Lead.Data :=
  Lead.mkData (Lead.d_landingPage d) (Lead.d_ipAddress d) (Lead.d_userAgent d)
    (Lead.d_dynamicFields d) (Lead.d_firstName d) (Lead.d_lastName d)
    (Lead.d_email d) (Lead.d_phone d) (Lead.d_company d) (Some s).
(** [leadData.dynamicFields.set(key, value)] *)
Definition set_dynamic (key : string) (value : Js.Val) (d : Lead.Data)
  : Lead.Data :=
  Lead.mkData (Lead.d_landingPage d) (Lead.d_ipAddress d) (Lead.d_userAgent d)
    (<[key := value]> (Lead.d_dynamicFields d)) (Lead.d_firstName d)
    (Lead.d_lastName d) (Lead.d_email d) (Lead.d_phone d) (Lead.d_company d)
    (Lead.d_message d).

Definition enabled (page : LandingPage.t) (f : DefaultFields.t -> bool) : bool :=
  f (LandingPage.includeDefaultFields page).

(** [if (landingPage.includeDefaultFields.firstName) { .. }] *)
Definition step_firstName (page : LandingPage.t) (formData : gmap string Js.Val)
    (leadData : Lead.Data) : Step (Reply Lead.t) Lead.Data :=
  if enabled page DefaultFields.firstName then
    bad ← try (name_invalid (formData !! "firstName"));
    if bad : bool then
      Return (failure 400
        "First name is required and must be at least 2 characters")
    else
      t ← try (call_trim (formData !! "firstName"));
      mret (set_firstName t leadData)
  else mret leadData.

(** [if (landingPage.includeDefaultFields.lastName) { .. }] *)
Definition step_lastName (page : LandingPage.t) (formData : gmap string Js.Val)
    (leadData : Lead.Data) : Step (Reply Lead.t) Lead.Data :=
  if enabled page DefaultFields.lastName then
    bad ← try (name_invalid (formData !! "lastName"));
    if bad : bool then
      Return (failure 400
        "Last name is required and must be at least 2 characters")
    else
      t ← try (call_trim (formData !! "lastName"));
      mret (set_lastName t leadData)
  else mret leadData.

(** [if (landingPage.includeDefaultFields.email) { .. }] *)
Definition step_email (page : LandingPage.t) (formData : gmap string Js.Val)
    (leadData : Lead.Data) : Step (Reply Lead.t) Lead.Data :=
  if enabled page DefaultFields.email then
    bad ← try (email_invalid (formData !! "email"));
    if bad : bool then Return (failure 400 "Valid email is required")
    else
      l ← try (call_toLowerCase (formData !! "email"));
      mret (set_email (Js.trim l) leadData)
  else mret leadData.

(** [if (formData.phone) { leadData.phone = formData.phone.trim(); }] *)
Definition step_phone (formData : gmap string Js.Val)
    (leadData : Lead.Data) : Step (Reply Lead.t) Lead.Data :=
  if Js.truthy (formData !! "phone") then
    t ← try (call_trim (formData !! "phone"));
    mret (set_phone t leadData)
  else mret leadData.

(** [if (landingPage.includeDefaultFields.company && formData.company)] *)
Definition step_company (page : LandingPage.t) (formData : gmap string Js.Val)
    (leadData : Lead.Data) : Step (Reply Lead.t) Lead.Data :=
  if enabled page DefaultFields.company && Js.truthy (formData !! "company") then
    t ← try (call_trim (formData !! "company"));
    mret (set_company t leadData)
  else mret leadData.

(** [if (landingPage.includeDefaultFields.message && formData.message)] *)
Definition step_message (page : LandingPage.t) (formData : gmap string Js.Val)
    (leadData : Lead.Data) : Step (Reply Lead.t) Lead.Data :=
  if enabled page DefaultFields.message && Js.truthy (formData !! "message") then
    t ← try (call_trim (formData !! "message"));
    mret (set_message t leadData)
  else mret leadData.

(** "Define standard field names that should not be stored in
    dynamicFields" *)
Definition standardFields : list string :=
  ["firstName"; "lastName"; "email"; "phone"; "landingPageId"].

(** [standardFields.includes(fieldName)] *)
Definition includes (l : list string) (k : string) : bool :=
  existsb (String.eqb k) l.

(** [landingPage.formFields?.find(field => field.name === fieldName)] *)
Definition configured (page : LandingPage.t) (fieldName : string)
  : option FormField.t :=
  List.find (fun field => String.eqb (FormField.name field) fieldName)
            (LandingPage.formFields page).

(** One turn of [for (const [fieldName, fieldValue] of
    Object.entries(formData))]; [None] is [continue]. *)
Definition dynamic_entry (page : LandingPage.t) (fieldName : string)
    (fieldValue : Js.Val) : Step (Reply Lead.t) (option Js.Val) :=
  skip ← (if includes standardFields fieldName then mret true
          else try (blank (Some fieldValue)));
  if skip : bool then mret None
  else
    let configuredField := configured page fieldName in
    missing ← match configuredField with
              | Some field =>
                  if FormField.required field
                  then try (blank (Some fieldValue))
                  else mret false
              | None => mret false
              end;
    match configuredField, missing with
    | Some field, true =>
        Return (failure 400 (FormField.label field +:+ " is required"))
    | _, _ =>
        s ← try (call_toString fieldValue);
        mret (Some (Js.VStr (Js.trim s)))
    end.

Fixpoint step_dynamic (page : LandingPage.t)
    (entries : list (string * Js.Val)) (leadData : Lead.Data)
  : Step (Reply Lead.t) Lead.Data :=
  match entries with
  | [] => mret leadData
  | (fieldName, fieldValue) :: rest =>
      stored ← dynamic_entry page fieldName fieldValue;
      match stored with
      | Some value =>
          step_dynamic page rest (set_dynamic fieldName value leadData)
      | None => step_dynamic page rest leadData
      end
  end.

(** The object the handler starts from; [landingPage: landingPageId] is
    the id under which [findById] found the page. *)
Definition initial_leadData (page : LandingPage.t) (req : Request) : Lead.Data :=
  Lead.mkData (LandingPage._id page) (ip req) (userAgent req) ∅
              None None None None None None.

(** The statements of the handler between the landing-page check and
    [Lead.create]. *)
Definition build_leadData (page : LandingPage.t) (req : Request)
  : Step (Reply Lead.t) Lead.Data :=
  let formData := delete "landingPageId" (body req) in
  leadData ← step_firstName page formData (initial_leadData page req);
  leadData ← step_lastName page formData leadData;
  leadData ← step_email page formData leadData;
  leadData ← step_phone formData leadData;
  leadData ← step_company page formData leadData;
  leadData ← step_message page formData leadData;
  step_dynamic page (map_to_list formData) leadData.

(** [router.post('/')], POST /api/leads.  [landingPage] is what
    [LandingPage.findById(landingPageId)] returned. *)
Definition createLead (landingPage : option LandingPage.t) (req : Request)
  : Js.Res (Reply Lead.t) :=
  run (
    page ← match landingPage with
           | Some p =>
               if LandingPage.is_active p then mret p
               else Return (failure 400 "Invalid landing page")
           | None => Return (failure 400 "Invalid landing page")
           end;
    leadData ← build_leadData page req;
    lead ← try (Lead.create leadData);
    mret (mkReply 201 true (Some "Lead created successfully") None
                   (Some lead))).

End LeadRoutes.

(** [router.get('/')], GET /api/leads. *)
Module LeadList.

(** The filter object handed to Mongoose. *)
Inductive PageFilter : Type :=
| PageIn (ids : list ObjectId)      (* { $in: landingPageIds } *)
| PageIs (v : Js.Val).              (* req.query.landingPage *)

Record LeadQuery : Type := mkQuery {
  qLandingPage : option PageFilter;
  qStatus : option Js.Val;
  qCreatedAt : option (option Js.Val * option Js.Val);   (* $gte, $lte *)
  qSearch : option Js.Val                                (* $or of $regex *)
}.

Record PageRef : Type := mkPageRef { page : Z; limit : Z }.

Record Pagination : Type := mkPagination {
  next : option PageRef;
  prev : option PageRef
}.

(** [{success, count, pagination, total, data}]; a key the handler does
    not write is [None]. *)
Record ListReply : Type := mkListReply {
  l_status : nat;
  l_success : bool;
  l_count : nat;
  l_pagination : option Pagination;
  l_total : option nat;
  l_data : list Lead.t
}.

(** Calls made on the Lead collection, in order. *)
Inductive LeadOp : Type :=
| CountDocuments (q : LeadQuery)
| Find (q : LeadQuery) (skip lim : Z).

Record Traced (A : Type) : Type := mkTraced {
  leadOps : list LeadOp;
  result : A
}.
Arguments mkTraced {A} _ _.
Arguments leadOps {A} _.
Arguments result {A} _.

Section Storage.
(** Query execution belongs to the storage engine:
    [Lead.countDocuments(query)] and
    [Lead.find(query).populate(..).sort({createdAt: -1}).skip(s).limit(l)]. *)
Variable countDocuments : LeadQuery -> Js.Res nat.
Variable find : LeadQuery -> Z -> Z -> Js.Res (list Lead.t).

(** [if (v) { .. = v }] *)
Definition if_given (v : option Js.Val) : option Js.Val :=
  if Js.truthy v then v else None.

Definition build_query (scope : option PageFilter)
    (query : gmap string Js.Val) : LeadQuery :=
  {| qLandingPage :=
       match if_given (query !! "landingPage") with
       | Some v => Some (PageIs v)
       | None => scope
       end;
     qStatus := if_given (query !! "status");
     qCreatedAt :=
       if Js.truthy (query !! "startDate") || Js.truthy (query !! "endDate")
       then Some (if_given (query !! "startDate"),
                  if_given (query !! "endDate"))
       else None;
     qSearch := if_given (query !! "search") |}.

(** [parseInt(req.query.page, 10) || 1] *)
Definition page_of (query : gmap string Js.Val) : Js.Res Z :=
  n ← Js.parseInt10 (query !! "page"); mret (Js.num_or n 1).

(** [parseInt(req.query.limit, 10) || 10] *)
Definition limit_of (query : gmap string Js.Val) : Js.Res Z :=
  n ← Js.parseInt10 (query !! "limit"); mret (Js.num_or n 10).

(** "Pagination result" *)
Definition paginate (page limit : Z) (total : nat) : Pagination :=
  let startIndex := ((page - 1) * limit)%Z in
  let endIndex := (startIndex + limit)%Z in
  {| next := if (endIndex <? Z.of_nat total)%Z
             then Some (mkPageRef (page + 1) limit) else None;
     prev := if (0 <? startIndex)%Z
             then Some (mkPageRef (page - 1) limit) else None |}.

(** The part of the handler after the role scoping. *)
Definition run_query (scope : option PageFilter)
    (query : gmap string Js.Val) : Traced (Js.Res ListReply) :=
  let q := build_query scope query in
  match page_of query with
  | Js.Throw e => mkTraced [] (Js.Throw e)
  | Js.Ok page =>
  match limit_of query with
  | Js.Throw e => mkTraced [] (Js.Throw e)
  | Js.Ok limit =>
      let startIndex := ((page - 1) * limit)%Z in
      match countDocuments q with
      | Js.Throw e => mkTraced [CountDocuments q] (Js.Throw e)
      | Js.Ok total =>
          let ops := [CountDocuments q; Find q startIndex limit] in
          match find q startIndex limit with
          | Js.Throw e => mkTraced ops (Js.Throw e)
          | Js.Ok leads =>
              mkTraced ops
                (Js.Ok (mkListReply 200 true (length leads)
                          (Some (paginate page limit total)) (Some total)
                          leads))
          end
      end
  end
  end.

(** The handler; [accessColl] is the AdminAccess collection, [user] is
    [req.user], [query] is [req.query]. *)
Definition getLeads (accessColl : list AdminAccess.t) (user : User.t)
    (query : gmap string Js.Val) : Traced (Js.Res ListReply) :=
  if bool_decide (User.role user = User.sub_admin) then
    let accessRecords := AdminAccess.find_active (User._id user) accessColl in
    let landingPageIds := List.map AdminAccess.landingPage accessRecords in
    if (length landingPageIds =? 0)%nat then
      mkTraced [] (Js.Ok (mkListReply 200 true 0 None None []))
    else run_query (Some (PageIn landingPageIds)) query
  else run_query None query.
End Storage.

(** The short-circuit of the sibling route GET /api/sub-admin/leads
    (routes/subAdmin.js, src/README.md lines 409-416):
    [{success: true, count: 0, data: [], total: 0}]. *)
Definition subAdmin_leads_empty : ListReply :=
  mkListReply 200 true 0 None (Some 0%nat) [].

End LeadList.

(* ===================================================================== *)
(** * 5. routes/landingPages.js: the test-form dry run                    *)
(* ===================================================================== *)

Module LandingPageRoutes.

(** "Validate default fields": the three [if]s that push on
    [validationErrors].  The conditions are the expressions of the
    ingestion route. *)
Definition default_errors (page : LandingPage.t)
    (formData : gmap string Js.Val) : Js.Res (list string) :=
  e1 ← (if LeadRoutes.enabled page DefaultFields.firstName then
          bad ← LeadRoutes.name_invalid (formData !! "firstName");
          mret (if bad : bool
                then ["First name is required and must be at least 2 characters"]
                else [])
        else mret []);
  e2 ← (if LeadRoutes.enabled page DefaultFields.lastName then
          bad ← LeadRoutes.name_invalid (formData !! "lastName");
          mret (if bad : bool
                then ["Last name is required and must be at least 2 characters"]
                else [])
        else mret []);
  e3 ← (if LeadRoutes.enabled page DefaultFields.email then
          bad ← LeadRoutes.email_invalid (formData !! "email");
          mret (if bad : bool then ["Valid email is required"] else [])
        else mret []);
  mret (e1 ++ e2 ++ e3).

(** "Validate dynamic fields": [for (const field of
    landingPage.formFields)] with [fieldValue = formData[field.name]]. *)
Fixpoint field_errors (fields : list FormField.t)
    (formData : gmap string Js.Val) : Js.Res (list string) :=
  match fields with
  | [] => mret []
  | field :: rest =>
      bad ← (if FormField.required field
             then LeadRoutes.blank (Js.get_computed formData (FormField.name field))
             else mret false);
      errs ← field_errors rest formData;
      mret ((if bad : bool
             then [FormField.label field +:+ " is required"]
             else []) ++ errs)
  end.

Record FormConfig : Type := mkFormConfig {
  c_formFields : list FormField.t;
  c_includeDefaultFields : DefaultFields.t
}.

(** [router.post('/:id/test-form')]; [landingPage] is what
    [LandingPage.findById(req.params.id)] returned, [formData] is
    [req.body.formData]. *)
Definition testForm (landingPage : option LandingPage.t)
    (formData : gmap string Js.Val)
  : Js.Res (Reply (gmap string Js.Val * FormConfig)) :=
  match landingPage with
  | None => Js.Ok (failure 404 "Landing page not found")
  | Some page =>
      e1 ← default_errors page formData;
      e2 ← field_errors (LandingPage.formFields page) formData;
      let validationErrors := e1 ++ e2 in
      if (0 <? length validationErrors)%nat then
        mret (mkReply 400 false (Some "Form validation failed")
                      (Some validationErrors) None)
      else
        mret (mkReply 200 true (Some "Form validation passed") None
                (Some (formData,
                       mkFormConfig (LandingPage.formFields page)
                                    (LandingPage.includeDefaultFields page))))
  end.

End LandingPageRoutes.

(* ===================================================================== *)
(** * 6. routes/admin.js and routes/auth.js                               *)
(* ===================================================================== *)

Module AdminRoutes.

(** The id Mongoose makes of a value handed to [findById] or to a
    filter: a string is taken as it is, anything else fails to cast. *)
Definition as_id (v : option Js.Val) : Js.Res ObjectId :=
  match v with
  | Some (Js.VStr s) => Js.Ok s
  | _ => Js.Throw Js.CastError
  end.

Section Grant.
(** External collaborator: the express-validator check
    [body(field).isMongoId()]. *)
Variable isMongoId : option Js.Val -> bool.

Definition validation_errors (body : gmap string Js.Val) : list string :=
  (if isMongoId (body !! "subAdminId") then []
   else ["Please provide valid sub admin ID"])
  ++ (if isMongoId (body !! "landingPageId") then []
      else ["Please provide valid landing page ID"]).

(** "Reactivate access" *)
Definition reactivate (a : AdminAccess.t) : AdminAccess.t :=
  {| AdminAccess._id := AdminAccess._id a;
     AdminAccess.subAdmin := AdminAccess.subAdmin a;
     AdminAccess.landingPage := AdminAccess.landingPage a;
     AdminAccess.grantedBy := AdminAccess.grantedBy a;
     AdminAccess.status := AdminAccess.active;
     AdminAccess.grantedAt := AdminAccess.grantedAt a;
     AdminAccess.revokedAt := None;
     AdminAccess.revokedBy := None |}.

Definition revoke (by_ : ObjectId) (now : Z) (a : AdminAccess.t)
  : AdminAccess.t :=
  {| AdminAccess._id := AdminAccess._id a;
     AdminAccess.subAdmin := AdminAccess.subAdmin a;
     AdminAccess.landingPage := AdminAccess.landingPage a;
     AdminAccess.grantedBy := AdminAccess.grantedBy a;
     AdminAccess.status := AdminAccess.revoked;
     AdminAccess.grantedAt := AdminAccess.grantedAt a;
     AdminAccess.revokedAt := Some now;
     AdminAccess.revokedBy := Some by_ |}.

(** A handler's answer together with the AdminAccess collection it
    leaves behind. *)
Definition Outcome : Type := (Reply AdminAccess.t * list AdminAccess.t)%type.

(** [router.post('/grant-access')], POST /api/admin/grant-access.
    [me] is [req.user.id], [now] is [Date.now()]. *)
Definition grantAccess (users : list User.t) (pages : list LandingPage.t)
    (coll : list AdminAccess.t) (me : ObjectId) (now : Z)
    (body : gmap string Js.Val) : Js.Res Outcome :=
  run (
    let errs := validation_errors body in
    _ ← (if (0 <? length errs)%nat
         then Return (mkReply 400 false None (Some errs) None, coll)
         else mret tt);
    subAdminId ← try (as_id (body !! "subAdminId"));
    landingPageId ← try (as_id (body !! "landingPageId"));
    _ ← match User.findById subAdminId users with
        | Some subAdmin =>
            if bool_decide (User.role subAdmin ≠ User.sub_admin)
               || bool_decide (User.status subAdmin ≠ User.approved)
            then Return (failure 400 "Invalid sub admin or not approved", coll)
            else mret tt
        | None => Return (failure 400 "Invalid sub admin or not approved", coll)
        end;
    _ ← match LandingPage.findById landingPageId pages with
        | Some _ => mret tt
        | None => Return (failure 400 "Landing page not found", coll)
        end;
    match AdminAccess.findOne subAdminId landingPageId coll with
    | Some existingAccess =>
        if bool_decide (AdminAccess.status existingAccess = AdminAccess.active)
        then Return (failure 400 "Access already granted", coll)
        else
          let existingAccess := reactivate existingAccess in
          mret (mkReply 200 true (Some "Access reactivated successfully")
                        None (Some existingAccess),
                AdminAccess.save existingAccess coll)
    | None =>
        '(adminAccess, coll') ←
          try (AdminAccess.create subAdminId landingPageId me now coll);
        mret (mkReply 201 true (Some "Access granted successfully") None
                      (Some adminAccess),
              coll')
    end).

End Grant.

(** [router.put('/revoke-access/:id')]. *)
Definition revokeAccess (coll : list AdminAccess.t) (me : ObjectId)
    (now : Z) (id : nat) : Js.Res Outcome :=
  run (
    match AdminAccess.findById id coll with
    | None => Return (failure 404 "Access record not found", coll)
    | Some adminAccess =>
        if bool_decide (AdminAccess.status adminAccess = AdminAccess.revoked)
        then Return (failure 400 "Access is already revoked", coll)
        else
          let adminAccess := revoke me now adminAccess in
          mret (mkReply 200 true (Some "Access revoked successfully") None
                        (Some adminAccess),
                AdminAccess.save adminAccess coll)
    end).

End AdminRoutes.

Module AuthRoutes.

(** The [user] object of the login answer. *)
Record UserView : Type := mkUserView {
  id : ObjectId;
  name : string;
  email : string;
  role : User.Role;
  status : User.Status;
  companyName : string
}.

(** The keys [token] and [user] of the login answer. *)
Record LoginData : Type := mkLoginData {
  token : string;
  user : UserView
}.

Section Login.
(** External collaborators: the express-validator checks
    [isEmail()] and [normalizeEmail()], the password hash comparison
    [user.matchPassword] and the token issuer
    [user.getSignedJwtToken]. *)
Variable isEmail : option Js.Val -> bool.
Variable normalizeEmail : option Js.Val -> string.
Variable matchPassword : User.t -> Js.Val -> Js.Res bool.
Variable getSignedJwtToken : User.t -> string.

Definition validation_errors (body : gmap string Js.Val) : list string :=
  (if isEmail (body !! "email") then []
   else ["Please provide a valid email"])
  ++ (match body !! "password" with
      | Some _ => []
      | None => ["Please provide a password"]
      end).

(** [router.post('/login')], POST /api/auth/login. *)
Definition login (users : list User.t) (body : gmap string Js.Val)
  : Js.Res (Reply LoginData) :=
  run (
    let errs := validation_errors body in
    _ ← (if (0 <? length errs)%nat
         then Return (mkReply 400 false None (Some errs) None)
         else mret tt);
    let email := normalizeEmail (body !! "email") in
    let password := default Js.VUndefined (body !! "password") in
    match User.findOne_email email users with
    | None => Return (failure 401 "Invalid credentials")
    | Some user =>
        isMatch ← try (matchPassword user password);
        if negb isMatch then Return (failure 401 "Invalid credentials")
        else if bool_decide (User.role user = User.sub_admin)
                && bool_decide (User.status user ≠ User.approved)
        then Return (failure 403
               "Your account is pending approval or has been rejected")
        else
          let token := getSignedJwtToken user in
          mret (mkReply 200 true (Some "Login successful") None
                  (Some (mkLoginData token
                           (mkUserView (User._id user) (User.name user)
                              (User.email user) (User.role user)
                              (User.status user) (User.companyName user)))))
    end).
End Login.

End AuthRoutes.

(* ===================================================================== *)
(** * 6b. Vocabulary of the statements, and sample data                   *)
(* ===================================================================== *)

Module Spec.
Import Js LeadRoutes.


(** What the handler leaves in a name attribute ([firstName],
    [lastName]) whose toggle is [flag], given the submitted value [v]. *)
Definition name_stored (flag : bool) (v : option Val) (stored : option string)
  : Prop :=
  if flag then
    exists s, v = Some (VStr s) /\ (2 <= String.length (trim s))%nat
              /\ stored = Some (trim s)
  else stored = None.

Definition email_stored (flag : bool) (v : option Val) (stored : option string)
  : Prop :=
  if flag then
    exists s, v = Some (VStr s) /\ re_match email_regex s = true
              /\ stored = Some (trim (lower s))
  else stored = None.

(** What the handler leaves in [phone] ([flag] is [true]: the statement
    has no toggle), [company] and [message]. *)
Definition optional_stored (flag : bool) (v : option Val)
    (stored : option string) : Prop :=
  if flag && truthy v then
    exists s, v = Some (VStr s) /\ s <> EmptyString /\ stored = Some (trim s)
  else stored = None.

(** The fixed part of the object handed to [Lead.create]. *)
Definition fixed_part (page : LandingPage.t) (req : Request)
    (leadData : Lead.Data) : Prop :=
  let formData := delete "landingPageId" (body req) in
  Lead.d_landingPage leadData = LandingPage._id page
  /\ Lead.d_ipAddress leadData = ip req
  /\ Lead.d_userAgent leadData = userAgent req
  /\ name_stored (enabled page DefaultFields.firstName)
        (formData !! "firstName") (Lead.d_firstName leadData)
  /\ name_stored (enabled page DefaultFields.lastName)
        (formData !! "lastName") (Lead.d_lastName leadData)
  /\ email_stored (enabled page DefaultFields.email)
        (formData !! "email") (Lead.d_email leadData)
  /\ optional_stored true (formData !! "phone") (Lead.d_phone leadData)
  /\ optional_stored (enabled page DefaultFields.company)
        (formData !! "company") (Lead.d_company leadData)
  /\ optional_stored (enabled page DefaultFields.message)
        (formData !! "message") (Lead.d_message leadData).

(** C4 as the claim states it: a fixed attribute is present on the
    stored lead only if the page enabled it. *)
Definition fixed_only_if_enabled (page : LandingPage.t) (lead : Lead.t)
  : Prop :=
  enabled page DefaultFields.firstName = true
  /\ enabled page DefaultFields.lastName = true
  /\ enabled page DefaultFields.email = true
  /\ (is_Some (Lead.phone lead) -> enabled page DefaultFields.phone = true)
  /\ (is_Some (Lead.company lead) -> enabled page DefaultFields.company = true)
  /\ (is_Some (Lead.message lead) -> enabled page DefaultFields.message = true).

(** C5 as the claim states it: the stored value is the submitted value
    as a trimmed string, an array being stored as an array. *)
Definition stored_as_claimed (submitted stored : Val) : Prop :=
  match submitted with
  | VArr elems => stored = VArr elems
  | _ => exists s, toString submitted = Ok s /\ stored = VStr (trim s)
  end.

Definition dynamic_values_as_claimed (req : Request) (lead : Lead.t) : Prop :=
  forall k stored,
    Lead.dynamicFields lead !! k = Some stored ->
    exists submitted,
      body req !! k = Some submitted /\ stored_as_claimed submitted stored.

(** The indexed pair of an access record. *)
Definition pair_of (a : AdminAccess.t) : ObjectId * ObjectId :=
  (AdminAccess.subAdmin a, AdminAccess.landingPage a).

(** Number of AdminAccess records of a (subAdmin, landingPage) pair. *)
Definition count_pair (s p : ObjectId) (coll : list AdminAccess.t) : nat :=
  length (List.filter (AdminAccess.same_pair s p) coll).

(** A collection as MongoDB keeps it: distinct [_id]s, and the unique
    index on (subAdmin, landingPage). *)
Definition well_formed (coll : list AdminAccess.t) : Prop :=
  NoDup (List.map AdminAccess._id coll) /\ NoDup (List.map pair_of coll).

(** A grant request that passes every check before the lookup of the
    existing record: two well-shaped ids, an approved sub-admin, an
    existing landing page. *)
Definition valid_grant (isMongoId : option Val -> bool)
    (users : list User.t) (pages : list LandingPage.t)
    (body : gmap string Val) (s p : ObjectId) : Prop :=
  body !! "subAdminId" = Some (VStr s)
  /\ body !! "landingPageId" = Some (VStr p)
  /\ isMongoId (Some (VStr s)) = true
  /\ isMongoId (Some (VStr p)) = true
  /\ match User.findById s users with
     | Some u => User.role u = User.sub_admin /\ User.status u = User.approved
     | None => False
     end
  /\ is_Some (LandingPage.findById p pages).



(** Every value of the payload is a string, as an HTML form posts it. *)
Definition is_string (v : Val) : bool :=
  match v with
  | VStr _ => true
  | _ => false
  end.

Definition all_strings (m : gmap string Val) : Prop :=
  map_Forall (fun _ v => is_string v = true) m.

#[global] Instance all_strings_dec m : Decision (all_strings m).
Proof. unfold all_strings. apply _. Defined.


End Spec.

(** Sample data: the landing page of the dynamic-form documentation
    with one required select field, and a few submissions. *)
Module Sample.
Import Js LeadRoutes.

Definition budget : FormField.t :=
  FormField.mk "budget" "Budget" FormField.select true 0.

Definition pageId : ObjectId := "68b5f4c17bc70a85ef0e3d36".

(** firstName, lastName and email enabled; phone, company and message
    disabled (the schema defaults). *)
Definition pageX : LandingPage.t :=
  LandingPage.mk pageId "X" "https://x.com" LandingPage.active [budget]
                 DefaultFields.default.


Definition page_company : LandingPage.t :=
  LandingPage.mk pageId "X" "https://x.com" LandingPage.active [budget]
                 (DefaultFields.mk true true true false true true).

Definition base_fields : list (string * Val) :=
  [("landingPageId", VStr pageId); ("firstName", VStr "John");
   ("lastName", VStr "Doe"); ("email", VStr "j@d.com")].

Definition request (fields : list (string * Val)) : Request :=
  mkRequest (list_to_map fields) (Some "203.0.113.7") (Some "curl/8.5").

(** The required field [budget] is left out. *)
Definition req_no_budget : Request := request base_fields.

(** The payload of the specification's scenario, first name of length 1. *)
Definition req_scenario : Request :=
  request [("landingPageId", VStr pageId); ("firstName", VStr "J");
           ("lastName", VStr "D"); ("email", VStr "j@d.com")].


Definition req_phone : Request :=
  request (base_fields ++ [("budget", VStr "10k_25k");
                           ("phone", VStr " 555-0100 ")]).

Definition req_interests : Request :=
  request (base_fields ++ [("budget", VStr "10k_25k");
                           ("interests", VArr [VStr "seo"; VStr "ads"])]).

Definition req_company : Request :=
  request (base_fields ++ [("budget", VStr "10k_25k");
                           ("company", VStr " Acme ");
                           ("message", VStr "call me")]).

Definition lead_with (phone company : option string)
    (dynamicFields : gmap string Val) : Lead.t :=
  {| Lead.firstName := "John"; Lead.lastName := "Doe";
     Lead.email := "j@d.com"; Lead.phone := phone; Lead.company := company;
     Lead.message := None; Lead.dynamicFields := dynamicFields;
     Lead.landingPage := pageId; Lead.status := Lead.new;
     Lead.source := "landing_page"; Lead.ipAddress := Some "203.0.113.7";
     Lead.userAgent := Some "curl/8.5" |}.

(** What ingestion stores for [req_company] on [page_company]. *)
Definition lead_company : Lead.t :=
  {| Lead.firstName := "John"; Lead.lastName := "Doe";
     Lead.email := "j@d.com"; Lead.phone := None;
     Lead.company := Some "Acme"; Lead.message := Some "call me";
     Lead.dynamicFields :=
       {[ "budget" := VStr "10k_25k"; "company" := VStr "Acme";
          "message" := VStr "call me" ]};
     Lead.landingPage := pageId; Lead.status := Lead.new;
     Lead.source := "landing_page"; Lead.ipAddress := Some "203.0.113.7";
     Lead.userAgent := Some "curl/8.5" |}.

(** A sub-admin whose only access record is revoked, a query with
    every filter set, and a storage that would find leads. *)
Definition subAdminId : ObjectId := "68b5f4c17bc70a85ef0e3d01".

Definition sub_user : User.t :=
  User.mk subAdminId "Sam" "sam@example.com" "hash:secret1" User.sub_admin
          User.approved "Acme".

Definition revoked_access : AdminAccess.t :=
  AdminAccess.mk 1 subAdminId pageId "68b5f4c17bc70a85ef0e3d00"
                 AdminAccess.revoked 1000 (Some 2000%Z)
                 (Some "68b5f4c17bc70a85ef0e3d00").

Definition query_all_filters : gmap string Val :=
  list_to_map [("status", VStr "new"); ("landingPage", VStr pageId);
               ("search", VStr "john"); ("startDate", VStr "2025-01-01");
               ("endDate", VStr "2025-12-31"); ("page", VStr "2");
               ("limit", VStr "5")].

Definition query_page (page limit : string) : gmap string Val :=
  list_to_map [("page", VStr page); ("limit", VStr limit)].

Definition stored_leads (n : nat) : list Lead.t :=
  replicate n (lead_with None None ∅).

(** A storage with 23 matching leads whatever the filter; [find]
    applies skip and limit. *)
Definition count23 (q : LeadList.LeadQuery) : Res nat := Ok 23%nat.
Definition find23 (q : LeadList.LeadQuery) (skip lim : Z) : Res (list Lead.t) :=
  Ok (take (Z.to_nat lim) (drop (Z.to_nat skip) (stored_leads 23))).

Definition active_access : AdminAccess.t :=
  AdminAccess.mk 1 subAdminId pageId "68b5f4c17bc70a85ef0e3d00"
                 AdminAccess.active 1000 None None.

Definition superAdminId : ObjectId := "68b5f4c17bc70a85ef0e3d00".

Definition grant_body : gmap string Val :=
  list_to_map [("subAdminId", VStr subAdminId);
               ("landingPageId", VStr pageId)].

(** Users: an approved and a pending sub-admin. *)
Definition pending_user : User.t :=
  User.mk "68b5f4c17bc70a85ef0e3d02" "Pat" "pat@example.com" "hash:secret2"
          User.sub_admin User.pending "Globex".

Definition users : list User.t := [sub_user; pending_user].

(** Stand-ins for the external collaborators of the grant and login
    routes. *)
Definition is_hex (c : ascii) : bool :=
  let n := nat_of_ascii c in
  ((48 <=? n)%nat && (n <=? 57)%nat)
  || ((65 <=? n)%nat && (n <=? 70)%nat)
  || ((97 <=? n)%nat && (n <=? 102)%nat).

Fixpoint all_hex (s : string) : bool :=
  match s with
  | EmptyString => true
  | String c s' => is_hex c && all_hex s'
  end.

(** 24 hexadecimal characters. *)
Definition isMongoId (v : option Val) : bool :=
  match v with
  | Some (VStr s) => all_hex s && (String.length s =? 24)%nat
  | _ => false
  end.

Definition isEmail (v : option Val) : bool :=
  match v with
  | Some (VStr s) => re_match email_regex s
  | _ => false
  end.

Definition normalizeEmail (v : option Val) : string :=
  match v with
  | Some (VStr s) => lower s
  | _ => EmptyString
  end.
Definition matchPassword (u : User.t) (entered : Val) : Res bool :=
  match entered with
  | VStr s => Ok (String.eqb ("hash:" +:+ s) (User.password u))
  | _ => Throw TypeError
  end.
Definition getSignedJwtToken (u : User.t) : string := "jwt." +:+ User._id u.

Definition credentials (email password : string) : gmap string Val :=
  list_to_map [("email", VStr email); ("password", VStr password)].

(** A lead whose extension map has an entry under the name of a fixed
    attribute, with another value. *)
Definition lead_collision : Lead.t :=
  lead_with None (Some "Acme") {[ "company" := VStr "Globex" ]}.

End Sample.

(* ===================================================================== *)
(** * 6c. Vocabulary for the further properties                           *)
(* ===================================================================== *)

Module SpecMore.
Import Js.

(** The filter object a call on the Lead collection was given. *)
Definition op_query (op : LeadList.LeadOp) : LeadList.LeadQuery :=
  match op with
  | LeadList.CountDocuments q => q
  | LeadList.Find q _ _ => q
  end.

(** The landing pages of a sub-admin's active access records, as the
    lead list computes them. *)
Definition scope_of (coll : list AdminAccess.t) (user : User.t)
  : list ObjectId :=
  List.map AdminAccess.landingPage
           (AdminAccess.find_active (User._id user) coll).

End SpecMore.

Module SampleMore.
Import Js.

(** A second landing page, one the sample sub-admin was never granted. *)
Definition other_page : ObjectId := "68b5f4c17bc70a85ef0e3d99".

Definition query_other_page : gmap string Val :=
  list_to_map [("landingPage", VStr other_page)].

End SampleMore.

(* ===================================================================== *)
(** * 6d. routes/leads.js: single leads and the statistics;
      deleting a landing page or a sub-admin                              *)
(* ===================================================================== *)

(** A stored Lead document: its [_id] and the paths of models/Lead.js. *)
Module LeadDoc.
Record t : Type := mk {
  _id : ObjectId;
  fields : Lead.t
}.

Definition landingPage (d : t) : ObjectId := Lead.landingPage (fields d).

(** [Lead.findById(id)]. *)
Definition findById (id : ObjectId) (coll : list t) : option t :=
  List.find (fun d => String.eqb (_id d) id) coll.

(** [Lead.countDocuments({landingPage: id})]. *)
Definition countDocuments_page (page : ObjectId) (coll : list t) : nat :=
  length (List.filter (fun d => String.eqb (landingPage d) page) coll).

(** [Lead.countDocuments({landingPage: {$in: pages}})]. *)
Definition countDocuments_in (pages : list ObjectId) (coll : list t) : nat :=
  length (List.filter
            (fun d => existsb (String.eqb (landingPage d)) pages) coll).

(** [Lead.findByIdAndUpdate(id, update, {new: true})]: the document
    with the id is replaced by its updated version, which is returned. *)
Fixpoint findByIdAndUpdate (id : ObjectId) (update : t -> t) (coll : list t)
  : option (t * list t) :=
  match coll with
  | [] => None
  | d :: rest =>
      if String.eqb (_id d) id then Some (update d, update d :: rest)
      else match findByIdAndUpdate id update rest with
           | Some (d', rest') => Some (d', d :: rest')
           | None => None
           end
  end.

(** [Lead.findByIdAndDelete(id)]. *)
Fixpoint findByIdAndDelete (id : ObjectId) (coll : list t)
  : option (t * list t) :=
  match coll with
  | [] => None
  | d :: rest =>
      if String.eqb (_id d) id then Some (d, rest)
      else match findByIdAndDelete id rest with
           | Some (d', rest') => Some (d', d :: rest')
           | None => None
           end
  end.

(** The update [{status: st}]. *)
Definition set_status (st : Lead.Status) (d : t) : t :=
  let l := fields d in
  mk (_id d)
     {| Lead.firstName := Lead.firstName l;
        Lead.lastName := Lead.lastName l;
        Lead.email := Lead.email l;
        Lead.phone := Lead.phone l;
        Lead.company := Lead.company l;
        Lead.message := Lead.message l;
        Lead.dynamicFields := Lead.dynamicFields l;
        Lead.landingPage := Lead.landingPage l;
        Lead.status := st;
        Lead.source := Lead.source l;
        Lead.ipAddress := Lead.ipAddress l;
        Lead.userAgent := Lead.userAgent l |}.
End LeadDoc.

Module LeadItem.

(** A lead after [populate('landingPage')]: the path holds the page
    document, or [null] when no page has the stored id. *)
Record Populated : Type := mkPopulated {
  lead : LeadDoc.t;
  page : option LandingPage.t
}.

Definition populate (pages : list LandingPage.t) (d : LeadDoc.t) : Populated :=
  mkPopulated d (LandingPage.findById (LeadDoc.landingPage d) pages).

(** [AdminAccess.findOne({subAdmin, landingPage, status: 'active'})]. *)
Definition hasAccess (s p : ObjectId) (coll : list AdminAccess.t)
  : option AdminAccess.t :=
  List.find (fun a => AdminAccess.same_pair s p a
                      && bool_decide (AdminAccess.status a = AdminAccess.active))
            coll.

Section Items.
(** External collaborators: Mongoose's cast of [req.params.id] to an
    ObjectId, and its cast and enum validation ([runValidators]) of the
    [status] of an update. *)
Variable isValidObjectId : string -> bool.
Variable castStatus : option Js.Val -> Js.Res Lead.Status.

Definition cast_id (id : string) : Js.Res ObjectId :=
  if isValidObjectId id then Js.Ok id else Js.Throw Js.CastError.

(** The block "If sub admin, check if they have access to this lead's
    landing page" that opens the handlers; [denied] is its 403 message,
    [answer] makes the handler's result of a response. *)
Definition check_access {D R} (answer : Reply D -> R) (denied : string)
    (pages : list LandingPage.t) (leads : list LeadDoc.t)
    (access : list AdminAccess.t) (user : User.t) (id : string)
  : Step R unit :=
  if bool_decide (User.role user = User.sub_admin) then
    oid ← try (cast_id id);
    match LeadDoc.findById oid leads with
    | None => Return (answer (failure 404 "Lead not found"))
    | Some lead =>
        match page (populate pages lead) with
        | None => Raise Js.TypeError          (* lead.landingPage._id *)
        | Some landingPage =>
            match hasAccess (User._id user) (LandingPage._id landingPage)
                            access with
            | None => Return (answer (failure 403 denied))
            | Some _ => mret tt
            end
        end
    end
  else mret tt.

(** [router.get('/:id')], GET /api/leads/:id. *)
Definition getLead (pages : list LandingPage.t) (leads : list LeadDoc.t)
    (access : list AdminAccess.t) (user : User.t) (id : string)
  : Js.Res (Reply Populated) :=
  run (
    _ ← check_access (fun r => r) "Not authorized to access this lead"
          pages leads access user id;
    oid ← try (cast_id id);
    match LeadDoc.findById oid leads with
    | None => Return (failure 404 "Lead not found")
    | Some lead =>
        mret (mkReply 200 true None None (Some (populate pages lead)))
    end).

(** [router.put('/:id/status')], PUT /api/leads/:id/status.  [errors] is
    [validationResult(req)]; the result carries the Lead collection the
    handler leaves behind. *)
Definition updateStatus (pages : list LandingPage.t) (leads : list LeadDoc.t)
    (access : list AdminAccess.t) (user : User.t) (id : string)
    (errors : list string) (body : gmap string Js.Val)
  : Js.Res (Reply Populated * list LeadDoc.t) :=
  run (
    _ ← (if (0 <? length errors)%nat
         then Return (mkReply 400 false None (Some errors) None, leads)
         else mret tt);
    _ ← check_access (fun r => (r, leads)) "Not authorized to update this lead"
          pages leads access user id;
    oid ← try (cast_id id);
    status ← try (castStatus (body !! "status"));
    match LeadDoc.findByIdAndUpdate oid (LeadDoc.set_status status) leads with
    | None => Return (failure 404 "Lead not found", leads)
    | Some (lead, leads') =>
        mret (mkReply 200 true (Some "Lead status updated successfully") None
                      (Some (populate pages lead)),
              leads')
    end).

(** [router.delete('/:id')], DELETE /api/leads/:id. *)
Definition deleteLead (leads : list LeadDoc.t) (id : string)
  : Js.Res (Reply unit * list LeadDoc.t) :=
  run (
    oid ← try (cast_id id);
    match LeadDoc.findByIdAndDelete oid leads with
    | None => Return (failure 404 "Lead not found", leads)
    | Some (_, leads') =>
        mret (mkReply 200 true (Some "Lead deleted successfully") None None,
              leads')
    end).

End Items.
End LeadItem.

Module LeadStats.

(** A group of the pipeline [{$group: {_id: '$status', count: {$sum: 1}}}]. *)
Record Stat : Type := mkStat {
  _id : Js.Val;
  count : Z
}.

(** The [$match] stage. *)
Record MatchQuery : Type := mkMatch {
  mLandingPage : option (list ObjectId);                  (* $in *)
  mCreatedAt : option (option Js.Val * option Js.Val)     (* $gte, $lte *)
}.

(** The answer, and the [$match] stages [Lead.aggregate] was called
    with. *)
Record Run : Type := mkRun {
  aggregated : list MatchQuery;
  answer : Js.Res (Reply (gmap string Z))
}.

(** The object the counters start from. *)
Definition zero : gmap string Z :=
  list_to_map [("totalLeads", 0%Z); ("newLeads", 0%Z);
               ("contactedLeads", 0%Z); ("qualifiedLeads", 0%Z);
               ("convertedLeads", 0%Z); ("lostLeads", 0%Z)].

(** The body of [stats.forEach]. *)
Definition tally (result : gmap string Z) (stat : Stat)
  : Js.Res (gmap string Z) :=
  let result :=
    <["totalLeads" := ((result !!! "totalLeads") + count stat)%Z]> result in
  if Js.truthy (Some (_id stat)) then
    name ← Js.toString (_id stat);
    mret (<[name +:+ "Leads" := count stat]> result)
  else mret result.

Fixpoint forEach (stats : list Stat) (result : gmap string Z)
  : Js.Res (gmap string Z) :=
  match stats with
  | [] => Js.Ok result
  | stat :: rest => result ← tally result stat; forEach rest result
  end.

Section Storage.
(** External collaborator: [Lead.aggregate([{$match}, {$group}])]. *)
Variable aggregate : MatchQuery -> Js.Res (list Stat).

Definition match_query (scope : option (list ObjectId))
    (query : gmap string Js.Val) : MatchQuery :=
  {| mLandingPage := scope;
     mCreatedAt :=
       if Js.truthy (query !! "startDate") || Js.truthy (query !! "endDate")
       then Some (LeadList.if_given (query !! "startDate"),
                  LeadList.if_given (query !! "endDate"))
       else None |}.

(** The part of the handler after the role scoping. *)
Definition run_stats (scope : option (list ObjectId))
    (query : gmap string Js.Val) : Run :=
  let matchQuery := match_query scope query in
  mkRun [matchQuery]
    (stats ← aggregate matchQuery;
     result ← forEach stats zero;
     mret (mkReply 200 true None None (Some result))).

(** [router.get('/stats/overview')], GET /api/leads/stats/overview. *)
Definition overview (accessColl : list AdminAccess.t) (user : User.t)
    (query : gmap string Js.Val) : Run :=
  if bool_decide (User.role user = User.sub_admin) then
    let accessRecords := AdminAccess.find_active (User._id user) accessColl in
    let landingPageIds := List.map AdminAccess.landingPage accessRecords in
    if (length landingPageIds =? 0)%nat then
      mkRun [] (Js.Ok (mkReply 200 true None None (Some zero)))
    else run_stats (Some landingPageIds) query
  else run_stats None query.
End Storage.
End LeadStats.

(** The two routes that delete a landing page
    (DELETE /api/landing-pages/:id and
    DELETE /api/super-admin/landing-pages/:id, the same body) and the
    route that deletes a sub-admin. *)
Module DeleteRoutes.
Section Delete.
Variable isValidObjectId : string -> bool.

Definition cast_id (id : string) : Js.Res ObjectId :=
  if isValidObjectId id then Js.Ok id else Js.Throw Js.CastError.

(** [LandingPage.findByIdAndDelete(id)]. *)
Fixpoint findByIdAndDelete (id : ObjectId) (coll : list LandingPage.t)
  : list LandingPage.t :=
  match coll with
  | [] => []
  | p :: rest =>
      if String.eqb (LandingPage._id p) id then rest
      else p :: findByIdAndDelete id rest
  end.

(** [router.delete('/:id')] of routes/landingPages.js and
    [router.delete('/landing-pages/:id')] of routes/superAdmin.js. *)
Definition deleteLandingPage (pages : list LandingPage.t)
    (leads : list LeadDoc.t) (id : string)
  : Js.Res (Reply unit * list LandingPage.t) :=
  run (
    oid ← try (cast_id id);
    match LandingPage.findById oid pages with
    | None => Return (failure 404 "Landing page not found", pages)
    | Some _ =>
        let leadCount := LeadDoc.countDocuments_page oid leads in
        if (0 <? leadCount)%nat then
          Return (failure 400
                    ("Cannot delete landing page. There are "
                     +:+ pretty leadCount +:+ " leads associated with it."),
                  pages)
        else
          mret (mkReply 200 true (Some "Landing page deleted successfully")
                        None None,
                findByIdAndDelete oid pages)
    end).

(** [AdminAccess.distinct('landingPage', {subAdmin: id})]. *)
Definition distinct_pages (s : ObjectId) (coll : list AdminAccess.t)
  : list ObjectId :=
  remove_dups
    (List.map AdminAccess.landingPage
       (List.filter (fun a => bool_decide (AdminAccess.subAdmin a = s)) coll)).

(** [AdminAccess.deleteMany({subAdmin: id})]. *)
Definition deleteMany (s : ObjectId) (coll : list AdminAccess.t)
  : list AdminAccess.t :=
  List.filter (fun a => negb (bool_decide (AdminAccess.subAdmin a = s))) coll.

(** [User.findByIdAndDelete(id)]. *)
Fixpoint deleteUser (id : ObjectId) (coll : list User.t) : list User.t :=
  match coll with
  | [] => []
  | u :: rest =>
      if String.eqb (User._id u) id then rest else u :: deleteUser id rest
  end.

(** [router.delete('/sub-admins/:id')],
    DELETE /api/super-admin/sub-admins/:id; the result carries the User
    and the AdminAccess collection the handler leaves behind. *)
Definition deleteSubAdmin (users : list User.t) (access : list AdminAccess.t)
    (leads : list LeadDoc.t) (id : string)
  : Js.Res (Reply unit * list User.t * list AdminAccess.t) :=
  run (
    oid ← try (cast_id id);
    _ ← match User.findById oid users with
        | Some user =>
            if bool_decide (User.role user ≠ User.sub_admin)
            then Return (failure 404 "Sub admin not found", users, access)
            else mret tt
        | None => Return (failure 404 "Sub admin not found", users, access)
        end;
    let leadCount :=
      LeadDoc.countDocuments_in (distinct_pages oid access) leads in
    if (0 <? leadCount)%nat then
      Return (failure 400
                ("Cannot delete sub admin. There are " +:+ pretty leadCount
                 +:+ " leads associated with their landing pages."),
              users, access)
    else
      mret (mkReply 200 true (Some "Sub admin deleted successfully") None None,
            deleteUser oid users, deleteMany oid access)).
End Delete.
End DeleteRoutes.

(** Vocabulary and sample data for the statements about single leads,
    the statistics and the delete routes. *)
Module LeadSpec.
Import Js.

(** Every lead refers to a landing page that exists. *)
Definition refs_ok (leads : list LeadDoc.t) (pages : list LandingPage.t)
  : Prop :=
  Forall (fun d => is_Some (LandingPage.findById (LeadDoc.landingPage d) pages))
         leads.

(** The enum of the [status] path of models/Lead.js. *)
Definition status_name (st : Lead.Status) : string :=
  match st with
  | Lead.new => "new"
  | Lead.contacted => "contacted"
  | Lead.qualified => "qualified"
  | Lead.converted => "converted"
  | Lead.lost => "lost"
  end.

#[global] Instance Lead_Status_eq_dec : EqDecision Lead.Status.
Proof. solve_decision. Defined.

(** The counter of a status in the statistics object. *)
Definition status_key (st : Lead.Status) : string :=
  status_name st +:+ "Leads".

Definition id_is (name : string) (v : Val) : bool :=
  match v with
  | VStr s => String.eqb s name
  | _ => false
  end.

(** The group ids [$group] by status yields over leads whose status is
    one of the enum or is not set. *)
Definition group_id_ok (v : Val) : Prop :=
  v = VNull \/ exists st, v = VStr (status_name st).

(** Sum of the counts of all groups. *)
Definition total_count (stats : list LeadStats.Stat) : Z :=
  foldr (fun s acc => (LeadStats.count s + acc)%Z) 0%Z stats.

(** Count of the group of a status, 0 without such a group. *)
Definition bucket (st : Lead.Status) (stats : list LeadStats.Stat) : Z :=
  match List.find (fun s => id_is (status_name st) (LeadStats._id s)) stats with
  | Some s => LeadStats.count s
  | None => 0%Z
  end.

(** Sum of the counts of the groups without a status. *)
Definition unlabelled (stats : list LeadStats.Stat) : Z :=
  total_count
    (List.filter (fun s => negb (truthy (Some (LeadStats._id s)))) stats).

(** The pages the statistics are restricted to: the granted pages for a
    sub-admin, no restriction otherwise. *)
Definition stats_scope (access : list AdminAccess.t) (user : User.t)
  : option (list ObjectId) :=
  if bool_decide (User.role user = User.sub_admin)
  then Some (SpecMore.scope_of access user) else None.

End LeadSpec.

Module SampleLeads.
Import Js.

Definition leadId : ObjectId := "68b5f4c17bc70a85ef0e3e01".
Definition lead2Id : ObjectId := "68b5f4c17bc70a85ef0e3e02".

(** Two leads of page X. *)
Definition lead1 : LeadDoc.t :=
  LeadDoc.mk leadId (Sample.lead_with None None ∅).
Definition lead2 : LeadDoc.t :=
  LeadDoc.mk lead2Id (Sample.lead_with (Some "555-0100") None ∅).
Definition leads : list LeadDoc.t := [lead1; lead2].

(** A page without leads. *)
Definition pageY : LandingPage.t :=
  LandingPage.mk SampleMore.other_page "Y" "https://y.com" LandingPage.active
                 [] DefaultFields.default.
Definition pages : list LandingPage.t := [Sample.pageX; pageY].

Definition isValidObjectId (id : string) : bool :=
  (String.length id =? 24)%nat && Sample.all_hex id.

(** The String cast and the enum validator of the [status] path, on
    strings. *)
Definition castStatus (v : option Val) : Res Lead.Status :=
  match v with
  | Some (VStr "new") => Ok Lead.new
  | Some (VStr "contacted") => Ok Lead.contacted
  | Some (VStr "qualified") => Ok Lead.qualified
  | Some (VStr "converted") => Ok Lead.converted
  | Some (VStr "lost") => Ok Lead.lost
  | _ => Throw (ValidationError "status")
  end.

Definition status_body (s : string) : gmap string Val :=
  {[ "status" := VStr s ]}.

(** Groups of 23 leads, two of them without a status. *)
Definition stats23 : list LeadStats.Stat :=
  [LeadStats.mkStat (VStr "contacted") 6; LeadStats.mkStat VNull 2;
   LeadStats.mkStat (VStr "new") 12; LeadStats.mkStat (VStr "lost") 3].
Definition aggregate23 (q : LeadStats.MatchQuery)
  : Res (list LeadStats.Stat) := Ok stats23.

End SampleLeads.

(* ===================================================================== *)
(** * 6e. routes/accessRequests.js: requests for access                   *)
(* ===================================================================== *)

(** models/AccessRequest.js, without the timestamps.  [_id] numbers the
    documents in creation order, as for AdminAccess. *)
Module AccessRequest.
Inductive Status : Type := pending | approved | rejected.

#[global] Instance Status_eq_dec : EqDecision Status.
Proof. solve_decision. Defined.

Record t : Type := mk {
  _id : nat;
  subAdmin : ObjectId;
  landingPage : ObjectId;
  status : Status;
  message : option string;
  approvedBy : option ObjectId;
  approvedAt : option Z;
  rejectedBy : option ObjectId;
  rejectedAt : option Z;
  rejectionReason : option string
}.

(** [AccessRequest.findById(id)]. *)
Definition findById (id : nat) (coll : list t) : option t :=
  List.find (fun r => Nat.eqb (_id r) id) coll.

(** The filter [{subAdmin, landingPage, status: {$in: ['pending',
    'approved']}}]. *)
Definition is_open (s p : ObjectId) (r : t) : bool :=
  bool_decide (subAdmin r = s) && bool_decide (landingPage r = p)
  && (bool_decide (status r = pending) || bool_decide (status r = approved)).

(** [AccessRequest.findOne] with that filter. *)
Definition findOne_open (s p : ObjectId) (coll : list t) : option t :=
  List.find (is_open s p) coll.

(** [doc.save()] of a document that was read from the collection. *)
Definition save (doc : t) (coll : list t) : list t :=
  List.map (fun r => if Nat.eqb (_id r) (_id doc) then doc else r) coll.

Definition fresh_id (coll : list t) : nat :=
  S (list_max (List.map _id coll)).

(** [AccessRequest.create({subAdmin, landingPage, message})]: the schema
    default of [status] and the [trim] setter of [message]. *)
Definition create (s p : ObjectId) (msg : option string) (coll : list t)
  : t * list t :=
  let doc := {| _id := fresh_id coll; subAdmin := s; landingPage := p;
                status := pending; message := Js.trim <$> msg;
                approvedBy := None; approvedAt := None;
                rejectedBy := None; rejectedAt := None;
                rejectionReason := None |} in
  (doc, coll ++ [doc]).

(** [AccessRequest.findByIdAndDelete(id)]. *)
Fixpoint findByIdAndDelete (id : nat) (coll : list t) : list t :=
  match coll with
  | [] => []
  | r :: rest =>
      if Nat.eqb (_id r) id then rest else r :: findByIdAndDelete id rest
  end.
End AccessRequest.

Module AccessRequestRoutes.

(** What a handler leaves behind: its answer (or the error it threw) and
    the two collections. *)
Record Outcome : Type := mkOutcome {
  answer : Js.Res (Reply AccessRequest.t);
  requests : list AccessRequest.t;
  access : list AdminAccess.t
}.

(** The assignments of the approve route. *)
Definition approve (by_ : ObjectId) (now : Z) (r : AccessRequest.t)
  : AccessRequest.t :=
  {| AccessRequest._id := AccessRequest._id r;
     AccessRequest.subAdmin := AccessRequest.subAdmin r;
     AccessRequest.landingPage := AccessRequest.landingPage r;
     AccessRequest.status := AccessRequest.approved;
     AccessRequest.message := AccessRequest.message r;
     AccessRequest.approvedBy := Some by_;
     AccessRequest.approvedAt := Some now;
     AccessRequest.rejectedBy := AccessRequest.rejectedBy r;
     AccessRequest.rejectedAt := AccessRequest.rejectedAt r;
     AccessRequest.rejectionReason := AccessRequest.rejectionReason r |}.

(** The assignments of the reject route; [rejectionReason] has the
    [trim] setter. *)
Definition reject (by_ : ObjectId) (now : Z) (reason : string)
    (r : AccessRequest.t) : AccessRequest.t :=
  {| AccessRequest._id := AccessRequest._id r;
     AccessRequest.subAdmin := AccessRequest.subAdmin r;
     AccessRequest.landingPage := AccessRequest.landingPage r;
     AccessRequest.status := AccessRequest.rejected;
     AccessRequest.message := AccessRequest.message r;
     AccessRequest.approvedBy := AccessRequest.approvedBy r;
     AccessRequest.approvedAt := AccessRequest.approvedAt r;
     AccessRequest.rejectedBy := Some by_;
     AccessRequest.rejectedAt := Some now;
     AccessRequest.rejectionReason := Some (Js.trim reason) |}.

(** [router.post('/')], POST /api/access-requests.  [errors] is
    [validationResult(req)], [message] is [req.body.message] (a string
    once the [trim] sanitizer ran, or not given). *)
Definition createRequest (pages : list LandingPage.t)
    (requests : list AccessRequest.t) (user : User.t)
    (errors : list string) (body : gmap string Js.Val)
    (message : option string)
  : Js.Res (Reply AccessRequest.t * list AccessRequest.t) :=
  run (
    _ ← (if (0 <? length errors)%nat
         then Return (mkReply 400 false None (Some errors) None, requests)
         else mret tt);
    landingPageId ← try (AdminRoutes.as_id (body !! "landingPageId"));
    _ ← match LandingPage.findById landingPageId pages with
        | Some landingPage =>
            if LandingPage.is_active landingPage then mret tt
            else Return (failure 400 "Invalid landing page", requests)
        | None => Return (failure 400 "Invalid landing page", requests)
        end;
    match AccessRequest.findOne_open (User._id user) landingPageId requests with
    | Some existingRequest =>
        Return (failure 400
                  (if bool_decide (AccessRequest.status existingRequest
                                   = AccessRequest.approved)
                   then "You already have access to this landing page"
                   else "You already have a pending request for this landing page"),
                requests)
    | None =>
        let '(accessRequest, requests') :=
          AccessRequest.create (User._id user) landingPageId message requests in
        mret (mkReply 201 true (Some "Access request created successfully")
                      None (Some accessRequest),
              requests')
    end).

(** [router.put('/:id/approve')], PUT /api/access-requests/:id/approve.
    [me] is [req.user.id], [now] is [Date.now()]. *)
Definition approveRequest (pages : list LandingPage.t)
    (requests : list AccessRequest.t) (access : list AdminAccess.t)
    (me : ObjectId) (now : Z) (id : nat) (errors : list string)
    (body : gmap string Js.Val) : Outcome :=
  let stop r := mkOutcome r requests access in
  if (0 <? length errors)%nat
  then stop (Js.Ok (mkReply 400 false None (Some errors) None))
  else
    match AccessRequest.findById id requests with
    | None => stop (Js.Ok (failure 404 "Access request not found"))
    | Some accessRequest =>
        if bool_decide (AccessRequest.status accessRequest
                        ≠ AccessRequest.pending)
        then stop (Js.Ok (failure 400 "Access request is not pending"))
        else
          match AdminRoutes.as_id (body !! "landingPageId") with
          | Js.Throw e => stop (Js.Throw e)
          | Js.Ok landingPageId =>
              match LandingPage.findById landingPageId pages with
              | None => stop (Js.Ok (failure 400 "Landing page not found"))
              | Some _ =>
                  let accessRequest := approve me now accessRequest in
                  let requests' := AccessRequest.save accessRequest requests in
                  match AdminAccess.create
                          (AccessRequest.subAdmin accessRequest)
                          landingPageId me now access with
                  | Js.Throw e => mkOutcome (Js.Throw e) requests' access
                  | Js.Ok (_, access') =>
                      mkOutcome
                        (Js.Ok (mkReply 200 true
                                  (Some "Access request approved successfully")
                                  None (Some accessRequest)))
                        requests' access'
                  end
              end
          end
    end.

(** [router.put('/:id/reject')], PUT /api/access-requests/:id/reject.
    [reason] is [req.body.reason] after the [trim] sanitizer. *)
Definition rejectRequest (requests : list AccessRequest.t) (me : ObjectId)
    (now : Z) (id : nat) (errors : list string) (reason : string)
  : Js.Res (Reply AccessRequest.t * list AccessRequest.t) :=
  run (
    _ ← (if (0 <? length errors)%nat
         then Return (mkReply 400 false None (Some errors) None, requests)
         else mret tt);
    match AccessRequest.findById id requests with
    | None => Return (failure 404 "Access request not found", requests)
    | Some accessRequest =>
        if bool_decide (AccessRequest.status accessRequest
                        ≠ AccessRequest.pending)
        then Return (failure 400 "Access request is not pending", requests)
        else
          let accessRequest := reject me now reason accessRequest in
          mret (mkReply 200 true (Some "Access request rejected successfully")
                        None (Some accessRequest),
                AccessRequest.save accessRequest requests)
    end).

(** [router.delete('/:id')], DELETE /api/access-requests/:id. *)
Definition deleteRequest (requests : list AccessRequest.t) (user : User.t)
    (id : nat) : Js.Res (Reply AccessRequest.t * list AccessRequest.t) :=
  run (
    match AccessRequest.findById id requests with
    | None => Return (failure 404 "Access request not found", requests)
    | Some accessRequest =>
        if bool_decide (User.role user ≠ User.super_admin)
           && negb (String.eqb (AccessRequest.subAdmin accessRequest)
                               (User._id user))
        then Return (failure 403 "Not authorized to delete this access request",
                     requests)
        else
          mret (mkReply 200 true (Some "Access request deleted successfully")
                        None None,
                AccessRequest.findByIdAndDelete id requests)
    end).

End AccessRequestRoutes.

Module RequestSpec.

(** Number of pending or approved requests of a sub-admin for a page. *)
Definition count_open (s p : ObjectId) (requests : list AccessRequest.t)
  : nat :=
  length (List.filter (AccessRequest.is_open s p) requests).

(** The requests as the routes keep them: distinct [_id]s, and no
    sub-admin with two pending or approved requests for one page. *)
Definition one_open (requests : list AccessRequest.t) : Prop :=
  NoDup (List.map AccessRequest._id requests)
  /\ forall s p, (count_open s p requests <= 1)%nat.

End RequestSpec.

Module SampleRequests.
Import Js.

(** The sample sub-admin asks for page X. *)
Definition request1 : AccessRequest.t :=
  AccessRequest.mk 1 Sample.subAdminId Sample.pageId AccessRequest.pending
                   (Some "please") None None None None None.

Definition approve_body : gmap string Val :=
  {[ "landingPageId" := VStr Sample.pageId ]}.

End SampleRequests.

(* ===================================================================== *)
(** * 6f. routes/admin.js: approving and rejecting sub-admin accounts     *)
(* ===================================================================== *)

(** A User document with the two paths the approval routes write besides
    [status]. *)
Module Account.
Record t : Type := mk {
  user : User.t;
  approvedBy : option ObjectId;
  approvedAt : option Z
}.

Definition _id (a : t) : ObjectId := User._id (user a).

(** [User.findById(id)]. *)
Definition findById (id : ObjectId) (coll : list t) : option t :=
  List.find (fun a => String.eqb (_id a) id) coll.

(** [user.save()] of a document that was read from the collection. *)
Definition save (doc : t) (coll : list t) : list t :=
  List.map (fun a => if String.eqb (_id a) (_id doc) then doc else a) coll.
End Account.

Module UserApproval.
Section Routes.
(** External collaborator: Mongoose's cast of [req.params.id]. *)
Variable isValidObjectId : string -> bool.

Definition cast_id (id : string) : Js.Res ObjectId :=
  if isValidObjectId id then Js.Ok id else Js.Throw Js.CastError.

(** The three assignments [user.status = ..; user.approvedBy =
    req.user.id; user.approvedAt = Date.now()], which both routes make. *)
Definition decide_on (st : User.Status) (by_ : ObjectId) (now : Z)
    (a : Account.t) : Account.t :=
  let u := Account.user a in
  {| Account.user :=
       {| User._id := User._id u; User.name := User.name u;
          User.email := User.email u; User.password := User.password u;
          User.role := User.role u; User.status := st;
          User.companyName := User.companyName u |};
     Account.approvedBy := Some by_;
     Account.approvedAt := Some now |}.

(** [router.put('/approve-user/:id')], PUT /api/admin/approve-user/:id.
    [me] is [req.user.id], [now] is [Date.now()]. *)
Definition approveUser (accounts : list Account.t) (me : ObjectId) (now : Z)
    (id : string) : Js.Res (Reply Account.t * list Account.t) :=
  run (
    oid ← try (cast_id id);
    match Account.findById oid accounts with
    | None => Return (failure 404 "User not found", accounts)
    | Some user =>
        if bool_decide (User.role (Account.user user) ≠ User.sub_admin)
        then Return (failure 400 "Can only approve sub admin users", accounts)
        else if bool_decide (User.status (Account.user user) = User.approved)
        then Return (failure 400 "User is already approved", accounts)
        else
          let user := decide_on User.approved me now user in
          mret (mkReply 200 true (Some "User approved successfully") None
                        (Some user),
                Account.save user accounts)
    end).

(** [router.put('/reject-user/:id')], PUT /api/admin/reject-user/:id.
    [errors] is [validationResult(req)]; the reason is validated and
    not used. *)
Definition rejectUser (accounts : list Account.t) (me : ObjectId) (now : Z)
    (id : string) (errors : list string)
  : Js.Res (Reply Account.t * list Account.t) :=
  run (
    _ ← (if (0 <? length errors)%nat
         then Return (mkReply 400 false None (Some errors) None, accounts)
         else mret tt);
    oid ← try (cast_id id);
    match Account.findById oid accounts with
    | None => Return (failure 404 "User not found", accounts)
    | Some user =>
        if bool_decide (User.role (Account.user user) ≠ User.sub_admin)
        then Return (failure 400 "Can only reject sub admin users", accounts)
        else if bool_decide (User.status (Account.user user) = User.rejected)
        then Return (failure 400 "User is already rejected", accounts)
        else
          let user := decide_on User.rejected me now user in
          mret (mkReply 200 true (Some "User rejected successfully") None
                        (Some user),
                Account.save user accounts)
    end).
End Routes.
End UserApproval.

Module SampleAccounts.

Definition accounts : list Account.t :=
  [Account.mk Sample.sub_user (Some Sample.superAdminId) (Some 500%Z);
   Account.mk Sample.pending_user None None].

Definition pendingId : ObjectId := User._id Sample.pending_user.

End SampleAccounts.

(* ===================================================================== *)
(** * 6g. routes/landingPages.js: creating and renaming landing pages     *)
(* ===================================================================== *)

(** A LandingPage document with the two paths of models/LandingPage.js
    that [LandingPage.t] leaves out. *)
Module PageDoc.
Record t : Type := mk {
  page : LandingPage.t;
  description : option string;
  createdBy : ObjectId
}.

Definition _id (d : t) : ObjectId := LandingPage._id (page d).
Definition name (d : t) : string := LandingPage.name (page d).
Definition url (d : t) : string := LandingPage.url (page d).

(** [LandingPage.findById(id)]. *)
Definition findById (id : ObjectId) (coll : list t) : option t :=
  List.find (fun d => String.eqb (_id d) id) coll.

(** [LandingPage.create({name, url, description, createdBy})]: the
    [trim] setters, the required paths, the schema defaults, and the
    unique indexes on [name] and on [url].  [newId] is the ObjectId the
    driver generates. *)
Definition create (name_ url_ : string) (description_ : option string)
    (createdBy_ newId : ObjectId) (coll : list t) : Js.Res (t * list t) :=
  let name_ := Js.trim name_ in
  if String.eqb name_ "" then Js.Throw (Js.ValidationError "name")
  else if String.eqb url_ "" then Js.Throw (Js.ValidationError "url")
  else if existsb (fun d => String.eqb (name d) name_
                            || String.eqb (url d) url_) coll
  then Js.Throw Js.DuplicateKeyError
  else
    let doc := {| page := {| LandingPage._id := newId;
                             LandingPage.name := name_;
                             LandingPage.url := url_;
                             LandingPage.status := LandingPage.active;
                             LandingPage.formFields := [];
                             LandingPage.includeDefaultFields :=
                               DefaultFields.default |};
                  description := Js.trim <$> description_;
                  createdBy := createdBy_ |} in
    Js.Ok (doc, coll ++ [doc]).
End PageDoc.

Module LandingPageCrud.

(** The update object of PUT /api/landing-pages/:id once the undefined
    fields are removed. *)
Record Patch : Type := mkPatch {
  p_name : option string;
  p_url : option string;
  p_description : option string;
  p_status : option LandingPage.Status
}.

(** [if (name)] on a string that may be absent. *)
Definition given (v : option string) : bool :=
  match v with
  | Some s => negb (String.eqb s "")
  | None => false
  end.

(** The filter [{_id: {$ne: id}, name?, url?}] of the duplicate check. *)
Definition duplicateQuery (id : ObjectId) (name url : option string)
    (d : PageDoc.t) : bool :=
  negb (String.eqb (PageDoc._id d) id)
  && (if given name then bool_decide (Some (PageDoc.name d) = name) else true)
  && (if given url then bool_decide (Some (PageDoc.url d) = url) else true).

(** [router.post('/')], POST /api/landing-pages.  [errors] is
    [validationResult(req)]; [name], [url] and [description] are the
    body's values (strings once the request passed the validators);
    [me] is [req.user.id]. *)
Definition createLandingPage (pages : list PageDoc.t) (me newId : ObjectId)
    (errors : list string) (name url : string) (description : option string)
  : Js.Res (Reply PageDoc.t * list PageDoc.t) :=
  run (
    _ ← (if (0 <? length errors)%nat
         then Return (mkReply 400 false None (Some errors) None, pages)
         else mret tt);
    match List.find (fun d => String.eqb (PageDoc.name d) name
                              || String.eqb (PageDoc.url d) url) pages with
    | Some _ =>
        Return (failure 400
                  "Landing page with this name or URL already exists", pages)
    | None =>
        '(landingPage, pages') ←
          try (PageDoc.create name url description me newId pages);
        mret (mkReply 201 true (Some "Landing page created successfully")
                      None (Some landingPage),
              pages')
    end).

Section Update.
(** External collaborators: Mongoose's cast of [req.params.id], and
    [LandingPage.findByIdAndUpdate(id, fieldsToUpdate, {new: true,
    runValidators: true})] with its setters, validators and unique
    indexes. *)
Variable isValidObjectId : string -> bool.
Variable findByIdAndUpdate :
  ObjectId -> Patch -> list PageDoc.t ->
  Js.Res (option PageDoc.t * list PageDoc.t).

Definition cast_id (id : string) : Js.Res ObjectId :=
  if isValidObjectId id then Js.Ok id else Js.Throw Js.CastError.

(** [router.put('/:id')], PUT /api/landing-pages/:id. *)
Definition updateLandingPage (pages : list PageDoc.t) (id : string)
    (errors : list string) (name url description : option string)
    (status : option LandingPage.Status)
  : Js.Res (Reply (option PageDoc.t) * list PageDoc.t) :=
  run (
    _ ← (if (0 <? length errors)%nat
         then Return (mkReply 400 false None (Some errors) None, pages)
         else mret tt);
    oid ← try (cast_id id);
    _ ← match PageDoc.findById oid pages with
        | Some _ => mret tt
        | None => Return (failure 404 "Landing page not found", pages)
        end;
    _ ← (if given name || given url then
           match List.find (duplicateQuery oid name url) pages with
           | Some _ =>
               Return (failure 400
                         "Landing page with this name or URL already exists",
                       pages)
           | None => mret tt
           end
         else mret tt);
    '(landingPage, pages') ←
      try (findByIdAndUpdate oid (mkPatch name url description status) pages);
    mret (mkReply 200 true (Some "Landing page updated successfully") None
                  (Some landingPage),
          pages')).
End Update.
End LandingPageCrud.

Module PageSpec.

(** The landing pages as the unique indexes keep them. *)
Definition unique_pages (pages : list PageDoc.t) : Prop :=
  NoDup (List.map PageDoc._id pages)
  /\ NoDup (List.map PageDoc.name pages)
  /\ NoDup (List.map PageDoc.url pages).

End PageSpec.

Module SamplePages.

Definition thirdId : ObjectId := "68b5f4c17bc70a85ef0e3d55".

Definition docX : PageDoc.t := PageDoc.mk Sample.pageX None Sample.superAdminId.
Definition docY : PageDoc.t :=
  PageDoc.mk SampleLeads.pageY (Some "second") Sample.superAdminId.
Definition docZ : PageDoc.t :=
  PageDoc.mk (LandingPage.mk thirdId "Z" "https://z.com" LandingPage.active []
                DefaultFields.default)
             None Sample.superAdminId.
Definition docs : list PageDoc.t := [docX; docY; docZ].

Definition fourthId : ObjectId := "68b5f4c17bc70a85ef0e3d56".

(** A storage that enforces the unique indexes on [name] and on [url];
    it answers with the page as it is otherwise, which is enough for the
    examples. *)
Definition findByIdAndUpdate (id : ObjectId) (patch : LandingPageCrud.Patch)
    (pages : list PageDoc.t) : Js.Res (option PageDoc.t * list PageDoc.t) :=
  if existsb (fun d => negb (String.eqb (PageDoc._id d) id)
                       && (bool_decide (Some (PageDoc.name d)
                                        = LandingPageCrud.p_name patch)
                           || bool_decide (Some (PageDoc.url d)
                                           = LandingPageCrud.p_url patch)))
             pages
  then Js.Throw Js.DuplicateKeyError
  else Js.Ok (PageDoc.findById id pages, pages).

End SamplePages.

(* ===================================================================== *)
(** * 6h. routes/landingPages.js: configuring the form of a page          *)
(* ===================================================================== *)

Module FormFieldsRoute.

(** The own property [k] of an object given by its property list (each
    key once). *)
Definition own (props : list (string * Js.Val)) (k : string)
  : option Js.Val :=
  snd <$> List.find (fun kv => String.eqb (fst kv) k) props.

(** The read [field.k] of an element of the [formFields] array, for the
    names the route reads ([name], [label], [type], [order]), which no
    prototype defines except [name] on functions: [null] and [undefined]
    throw, an object gives its own property, any other value gives
    [undefined]. *)
Definition prop (field : Js.Val) (k : string) : Js.Res Js.Val :=
  match field with
  | Js.VUndefined | Js.VNull => Js.Throw Js.TypeError
  | Js.VObj props => Js.Ok (default Js.VUndefined (own props k))
  | Js.VFun f => Js.Ok (if String.eqb k "name" then Js.VStr f
                        else Js.VUndefined)
  | _ => Js.Ok Js.VUndefined
  end.

(** The assignment [field.k = v] on an object: the property is
    overwritten in place, or added after the others. *)
Fixpoint assign (props : list (string * Js.Val)) (k : string) (v : Js.Val)
  : list (string * Js.Val) :=
  match props with
  | [] => [(k, v)]
  | (k', v') :: rest =>
      if String.eqb k' k then (k, v) :: rest else (k', v') :: assign rest k v
  end.

Definition set_prop (field : Js.Val) (k : string) (v : Js.Val) : Js.Val :=
  match field with
  | Js.VObj props => Js.VObj (assign props k v)
  | _ => field
  end.

(** [!field.name || !field.label || !field.type] *)
Definition incomplete (field : Js.Val) : Js.Res bool :=
  name ← prop field "name";
  if negb (Js.truthy (Some name)) then mret true
  else
    label ← prop field "label";
    if negb (Js.truthy (Some label)) then mret true
    else
      type ← prop field "type";
      mret (negb (Js.truthy (Some type))).

(** [field.order === undefined] *)
Definition order_undefined (field : Js.Val) : Js.Res bool :=
  order ← prop field "order";
  mret (match order with Js.VUndefined => true | _ => false end).

(** The loop "Validate form fields structure", from index [i] on; it
    gives the array as the loop leaves it. *)
Fixpoint check_fields {R} (stop : string -> R) (i : nat)
    (formFields : list Js.Val) : Step R (list Js.Val) :=
  match formFields with
  | [] => mret []
  | field :: rest =>
      missing ← try (incomplete field);
      if (missing : bool) then
        Return (stop ("Form field at index " +:+ pretty i
                      +:+ " is missing required properties (name, label, type)"))
      else
        unset ← try (order_undefined field);
        let field :=
          if (unset : bool)
          then set_prop field "order" (Js.VNum (Z.of_nat i)) else field in
        rest ← check_fields stop (S i) rest;
        mret (field :: rest)
  end.

Definition validDefaultFields : list string :=
  ["firstName"; "lastName"; "email"; "phone"; "company"; "message"].

(** The loop "Validate includeDefaultFields" over [Object.keys]. *)
Fixpoint check_defaults {R} (stop : string -> R) (keys : list string)
  : Step R unit :=
  match keys with
  | [] => mret tt
  | field :: rest =>
      if negb (LeadRoutes.includes validDefaultFields field)
      then Return (stop ("Invalid default field: " +:+ field))
      else check_defaults stop rest
  end.

Section Route.
(** External collaborators: Mongoose's cast of [req.params.id], and
    [LandingPage.findByIdAndUpdate(id, {formFields,
    includeDefaultFields}, {new: true, runValidators: true})] with its
    casts and validators. *)
Variable isValidObjectId : string -> bool.
Variable findByIdAndUpdate :
  ObjectId -> list Js.Val -> list (string * Js.Val) -> list LandingPage.t ->
  Js.Res (option LandingPage.t * list LandingPage.t).

Definition cast_id (id : string) : Js.Res ObjectId :=
  if isValidObjectId id then Js.Ok id else Js.Throw Js.CastError.

(** [router.put('/:id/form-fields')],
    PUT /api/landing-pages/:id/form-fields.  [errors] is
    [validationResult(req)]; [formFields] is the array and
    [includeDefaultFields] the object (its properties in the order of
    [Object.keys]) that the validators [isArray] and [isObject] let
    through. *)
Definition updateFormFields (pages : list LandingPage.t) (id : string)
    (errors : list string) (formFields : list Js.Val)
    (includeDefaultFields : list (string * Js.Val))
  : Js.Res (Reply (option LandingPage.t) * list LandingPage.t) :=
  run (
    _ ← (if (0 <? length errors)%nat
         then Return (mkReply 400 false None (Some errors) None, pages)
         else mret tt);
    oid ← try (cast_id id);
    _ ← match LandingPage.findById oid pages with
        | Some _ => mret tt
        | None => Return (failure 404 "Landing page not found", pages)
        end;
    formFields ← check_fields (fun msg => (failure 400 msg, pages)) 0
                   formFields;
    _ ← check_defaults (fun msg => (failure 400 msg, pages))
          (List.map fst includeDefaultFields);
    '(landingPage, pages') ←
      try (findByIdAndUpdate oid formFields includeDefaultFields pages);
    mret (mkReply 200 true
            (Some "Landing page form fields updated successfully") None
            (Some landingPage),
          pages')).
End Route.
End FormFieldsRoute.

Module FormSpec.
Import Js.

(** An element of [formFields] the route lets through: an object with a
    truthy [name], [label] and [type]. *)
Definition complete (field : Val) : Prop :=
  exists props,
    field = VObj props
    /\ truthy (FormFieldsRoute.own props "name") = true
    /\ truthy (FormFieldsRoute.own props "label") = true
    /\ truthy (FormFieldsRoute.own props "type") = true.

(** An element that is neither [null] nor [undefined] and lacks a truthy
    [name], [label] or [type]. *)
Definition lacking (field : Val) : Prop :=
  FormFieldsRoute.incomplete field = Ok true.

(** What the loop makes of a complete element at index [j]. *)
Definition with_order (j : nat) (field : Val) : Val :=
  match FormFieldsRoute.order_undefined field with
  | Ok true => FormFieldsRoute.set_prop field "order" (VNum (Z.of_nat j))
  | _ => field
  end.

End FormSpec.

Module SampleForm.
Import Js.

Definition budget : Val :=
  VObj [("name", VStr "budget"); ("label", VStr "Budget");
        ("type", VStr "select"); ("required", VBool true)].
Definition timeline : Val :=
  VObj [("name", VStr "timeline"); ("label", VStr "Timeline");
        ("type", VStr "text"); ("order", VNum 7)].
Definition unlabelled : Val :=
  VObj [("name", VStr "notes"); ("type", VStr "textarea")].

Definition defaults : list (string * Val) :=
  [("firstName", VBool true); ("phone", VBool true)].

(** A storage that keeps the pages as they are and answers with the
    page; enough for the examples. *)
Definition findByIdAndUpdate (id : ObjectId) (formFields : list Val)
    (includeDefaultFields : list (string * Val)) (pages : list LandingPage.t)
  : Res (option LandingPage.t * list LandingPage.t) :=
  Ok (LandingPage.findById id pages, pages).

End SampleForm.

(* ===================================================================== *)
(** * 6i. routes/superAdmin.js: updating a sub-admin and its landing page *)
(* ===================================================================== *)

Module SubAdminUpdate.

(** The values the route reads from [req.body]; [name], [companyName]
    and [status] are what the validators let through. *)
Record Body : Type := mkBody {
  name : option string;
  companyName : option string;
  status : option User.Status;
  landingPageId : option Js.Val;
  phone : option Js.Val
}.

(** [fieldsToUpdate] once the undefined fields are removed. *)
Record Patch : Type := mkPatch {
  p_name : option string;
  p_companyName : option string;
  p_status : option User.Status;
  p_phone : option string;
  p_approvedBy : option ObjectId;
  p_approvedAt : option Z;
  p_rejectedBy : option ObjectId;
  p_rejectedAt : option Z
}.

(** The [data] of the answer: the updated user, the active access
    records and the landing page of the first of them. *)
Record Data : Type := mkData {
  user : User.t;
  d_access : list AdminAccess.t;
  landingPage : option LandingPage.t
}.

(** What the handler leaves behind: its answer (or the error it threw)
    and the two collections. *)
Record Outcome : Type := mkOutcome {
  answer : Js.Res (Reply Data);
  users : list User.t;
  access : list AdminAccess.t
}.

(** [AdminAccess.deleteMany({subAdmin: id, status: 'active'})]. *)
Definition deleteMany_active (s : ObjectId) (coll : list AdminAccess.t)
  : list AdminAccess.t :=
  List.filter (fun a => negb (bool_decide (AdminAccess.subAdmin a = s)
                              && bool_decide (AdminAccess.status a
                                              = AdminAccess.active)))
              coll.

(** "Only set phone if it's a non-empty string" *)
Definition phone_to_set (phone : option Js.Val) : Js.Res (option string) :=
  if Js.truthy phone then
    t ← LeadRoutes.call_trim phone;
    mret (if negb (String.eqb t "") then Some t else None)
  else mret None.

(** "Update approval info if status is changing" *)
Definition patch_of (body : Body) (phone : option string) (current : User.t)
    (me : ObjectId) (now : Z) : Patch :=
  let changing :=
    match status body with
    | Some st => bool_decide (st ≠ User.status current)
    | None => false
    end in
  let to st := changing && bool_decide (status body = Some st) in
  {| p_name := name body;
     p_companyName := companyName body;
     p_status := status body;
     p_phone := phone;
     p_approvedBy := if to User.approved then Some me else None;
     p_approvedAt := if to User.approved then Some now else None;
     p_rejectedBy := if to User.rejected then Some me else None;
     p_rejectedAt := if to User.rejected then Some now else None |}.

Section Route.
(** External collaborators: Mongoose's cast of [req.params.id], and
    [User.findByIdAndUpdate(id, fieldsToUpdate, {new: true,
    runValidators: true})]. *)
Variable isValidObjectId : string -> bool.
Variable findByIdAndUpdate :
  ObjectId -> Patch -> list User.t -> Js.Res (option User.t * list User.t).

Definition cast_id (id : string) : Js.Res ObjectId :=
  if isValidObjectId id then Js.Ok id else Js.Throw Js.CastError.

(** "Get updated user with access information" and the answer. *)
Definition finish (pages : list LandingPage.t) (updatedUser : option User.t)
    (users : list User.t) (access : list AdminAccess.t) (oid : ObjectId)
  : Outcome :=
  let active := AdminAccess.find_active oid access in
  match updatedUser with
  | None => mkOutcome (Js.Throw Js.TypeError) users access
  | Some u =>
      mkOutcome
        (Js.Ok (mkReply 200 true (Some "Sub admin updated successfully") None
                  (Some (mkData u active
                           (match active with
                            | a :: _ =>
                                LandingPage.findById
                                  (AdminAccess.landingPage a) pages
                            | [] => None
                            end)))))
        users access
  end.

(** "Handle landing page assignment" *)
Definition assign (pages : list LandingPage.t) (updatedUser : option User.t)
    (users : list User.t) (access : list AdminAccess.t) (oid me : ObjectId)
    (now : Z) (landingPageId : option Js.Val) : Outcome :=
  match landingPageId with
  | None | Some Js.VUndefined => finish pages updatedUser users access oid
  | Some v =>
      let access := deleteMany_active oid access in
      if Js.truthy (Some v)
         && negb (match v with Js.VStr "" => true | _ => false end)
      then
        match AdminRoutes.as_id (Some v) with
        | Js.Throw e => mkOutcome (Js.Throw e) users access
        | Js.Ok pid =>
            match LandingPage.findById pid pages with
            | Some landingPage =>
                if LandingPage.is_active landingPage then
                  match AdminAccess.create oid pid me now access with
                  | Js.Throw e => mkOutcome (Js.Throw e) users access
                  | Js.Ok (_, access') =>
                      finish pages updatedUser users access' oid
                  end
                else mkOutcome (Js.Ok (failure 400 "Invalid landing page"))
                               users access
            | None => mkOutcome (Js.Ok (failure 400 "Invalid landing page"))
                                users access
            end
        end
      else finish pages updatedUser users access oid
  end.

(** [router.put('/sub-admins/:id')],
    PUT /api/super-admin/sub-admins/:id.  [errors] is
    [validationResult(req)], [me] is [req.user.id], [now] is
    [Date.now()]. *)
Definition updateSubAdmin (users : list User.t) (pages : list LandingPage.t)
    (access : list AdminAccess.t) (me : ObjectId) (now : Z) (id : string)
    (errors : list string) (body : Body) : Outcome :=
  let stop r := mkOutcome r users access in
  if String.eqb id "" || String.eqb id "undefined"
  then stop (Js.Ok (failure 400 "Sub admin ID is required"))
  else if (0 <? length errors)%nat
  then stop (Js.Ok (mkReply 400 false None (Some errors) None))
  else
    match cast_id id with
    | Js.Throw e => stop (Js.Throw e)
    | Js.Ok oid =>
        match User.findById oid users with
        | None => stop (Js.Ok (failure 404 "Sub admin not found"))
        | Some current =>
            if bool_decide (User.role current ≠ User.sub_admin)
            then stop (Js.Ok (failure 404 "Sub admin not found"))
            else
              match phone_to_set (phone body) with
              | Js.Throw e => stop (Js.Throw e)
              | Js.Ok phone =>
                  match findByIdAndUpdate oid
                          (patch_of body phone current me now) users with
                  | Js.Throw e => stop (Js.Throw e)
                  | Js.Ok (updatedUser, users') =>
                      assign pages updatedUser users' access oid me now
                             (landingPageId body)
                  end
              end
        end
    end.
End Route.
End SubAdminUpdate.

Module SampleUpdate.
Import Js.

(** A storage that sets the name, the company name and the status. *)
Definition patch_user (p : SubAdminUpdate.Patch) (u : User.t) : User.t :=
  {| User._id := User._id u;
     User.name := default (User.name u) (SubAdminUpdate.p_name p);
     User.email := User.email u;
     User.password := User.password u;
     User.role := User.role u;
     User.status := default (User.status u) (SubAdminUpdate.p_status p);
     User.companyName :=
       default (User.companyName u) (SubAdminUpdate.p_companyName p) |}.

Definition findByIdAndUpdate (id : ObjectId) (p : SubAdminUpdate.Patch)
    (users : list User.t) : Res (option User.t * list User.t) :=
  Ok (patch_user p <$> User.findById id users,
      List.map (fun u => if String.eqb (User._id u) id then patch_user p u
                         else u) users).

Definition assign_body (page : ObjectId) : SubAdminUpdate.Body :=
  SubAdminUpdate.mkBody None None None (Some (VStr page)) None.

(** The sample sub-admin holds page X; a page id that no page has. *)
Definition unknown_page : ObjectId := "68b5f4c17bc70a85ef0e3dff".

End SampleUpdate.

(* ===================================================================== *)
(** * 6j. routes/subAdmin.js: the sub-admin's own lead list               *)
(* ===================================================================== *)

Module SubAdminLeads.

(** A number that may be NaN ([None]). *)
Definition Num : Type := option Z.

Definition num_sub (a b : Num) : Num := a ≫= fun x => b ≫= fun y => Some (x - y)%Z.
Definition num_add (a b : Num) : Num := a ≫= fun x => b ≫= fun y => Some (x + y)%Z.
Definition num_mul (a b : Num) : Num := a ≫= fun x => b ≫= fun y => Some (x * y)%Z.
(** [a < b], false when a side is NaN. *)
Definition num_lt (a b : Num) : bool :=
  match a, b with
  | Some x, Some y => (x <? y)%Z
  | _, _ => false
  end.

Record PageRef : Type := mkPageRef { page : Num; limit : Num }.

Record Pagination : Type := mkPagination {
  next : option PageRef;
  prev : option PageRef
}.

(** [{success, count, pagination, total, data}]; a key the handler does
    not write is [None]. *)
Record ListReply : Type := mkListReply {
  l_status : nat;
  l_success : bool;
  l_count : nat;
  l_pagination : option Pagination;
  l_total : option nat;
  l_data : list Lead.t
}.

(** Calls made on the Lead collection, in order. *)
Inductive LeadOp : Type :=
| CountDocuments (q : LeadList.LeadQuery)
| Find (q : LeadList.LeadQuery) (skip lim : Num).

Record Traced (A : Type) : Type := mkTraced {
  leadOps : list LeadOp;
  result : A
}.
Arguments mkTraced {A} _ _.
Arguments leadOps {A} _.
Arguments result {A} _.

(** The default of a destructured query parameter: [{ page = 1 }]. *)
Definition or_default (v : option Js.Val) (d : Z) : Js.Val :=
  match v with
  | None | Some Js.VUndefined => Js.VNum d
  | Some x => x
  end.

Section Storage.
(** Query execution belongs to the storage engine, as for the lead list
    of routes/leads.js; skip and limit may be NaN here. *)
Variable countDocuments : LeadList.LeadQuery -> Js.Res nat.
Variable find : LeadList.LeadQuery -> Num -> Num -> Js.Res (list Lead.t).

Definition build_query (landingPageIds : list ObjectId)
    (query : gmap string Js.Val) : LeadList.LeadQuery :=
  {| LeadList.qLandingPage := Some (LeadList.PageIn landingPageIds);
     LeadList.qStatus := LeadList.if_given (query !! "status");
     LeadList.qCreatedAt :=
       if Js.truthy (query !! "startDate") || Js.truthy (query !! "endDate")
       then Some (LeadList.if_given (query !! "startDate"),
                  LeadList.if_given (query !! "endDate"))
       else None;
     LeadList.qSearch := LeadList.if_given (query !! "search") |}.

(** "Pagination result" *)
Definition paginate (pageNum limitNum : Num) (total : nat) : Pagination :=
  let startIndex := num_mul (num_sub pageNum (Some 1%Z)) limitNum in
  let endIndex := num_add startIndex limitNum in
  {| next := if num_lt endIndex (Some (Z.of_nat total))
             then Some (mkPageRef (num_add pageNum (Some 1%Z)) limitNum)
             else None;
     prev := if num_lt (Some 0%Z) startIndex
             then Some (mkPageRef (num_sub pageNum (Some 1%Z)) limitNum)
             else None |}.

(** [router.get('/leads')], GET /api/sub-admin/leads. *)
Definition getLeads (accessColl : list AdminAccess.t) (user : User.t)
    (query : gmap string Js.Val) : Traced (Js.Res ListReply) :=
  let accessRecords := AdminAccess.find_active (User._id user) accessColl in
  let landingPageIds := List.map AdminAccess.landingPage accessRecords in
  if (length landingPageIds =? 0)%nat then
    mkTraced [] (Js.Ok (mkListReply 200 true 0 None (Some 0%nat) []))
  else
    let q := build_query landingPageIds query in
    match Js.parseInt10 (Some (or_default (query !! "page") 1)) with
    | Js.Throw e => mkTraced [] (Js.Throw e)
    | Js.Ok pageNum =>
    match Js.parseInt10 (Some (or_default (query !! "limit") 10)) with
    | Js.Throw e => mkTraced [] (Js.Throw e)
    | Js.Ok limitNum =>
        let startIndex := num_mul (num_sub pageNum (Some 1%Z)) limitNum in
        match countDocuments q with
        | Js.Throw e => mkTraced [CountDocuments q] (Js.Throw e)
        | Js.Ok total =>
            let ops := [CountDocuments q; Find q startIndex limitNum] in
            match find q startIndex limitNum with
            | Js.Throw e => mkTraced ops (Js.Throw e)
            | Js.Ok leads =>
                mkTraced ops
                  (Js.Ok (mkListReply 200 true (length leads)
                            (Some (paginate pageNum limitNum total))
                            (Some total) leads))
            end
        end
    end
    end.
End Storage.
End SubAdminLeads.

Module SiblingSpec.

(** The filter object a call of the sub-admin's own list was given. *)
Definition op_query (op : SubAdminLeads.LeadOp) : LeadList.LeadQuery :=
  match op with
  | SubAdminLeads.CountDocuments q => q
  | SubAdminLeads.Find q _ _ => q
  end.

(** A call of routes/leads.js as a call of routes/subAdmin.js. *)
Definition as_sibling_op (op : LeadList.LeadOp) : SubAdminLeads.LeadOp :=
  match op with
  | LeadList.CountDocuments q => SubAdminLeads.CountDocuments q
  | LeadList.Find q skip lim => SubAdminLeads.Find q (Some skip) (Some lim)
  end.

Definition as_sibling_ref (r : LeadList.PageRef) : SubAdminLeads.PageRef :=
  SubAdminLeads.mkPageRef (Some (LeadList.page r)) (Some (LeadList.limit r)).

Definition as_sibling_pagination (p : LeadList.Pagination)
  : SubAdminLeads.Pagination :=
  SubAdminLeads.mkPagination (as_sibling_ref <$> LeadList.next p)
                             (as_sibling_ref <$> LeadList.prev p).

(** An answer of routes/leads.js as an answer of routes/subAdmin.js. *)
Definition as_sibling_reply (r : LeadList.ListReply)
  : SubAdminLeads.ListReply :=
  SubAdminLeads.mkListReply (LeadList.l_status r) (LeadList.l_success r)
    (LeadList.l_count r) (as_sibling_pagination <$> LeadList.l_pagination r)
    (LeadList.l_total r) (LeadList.l_data r).

Definition as_sibling_result (r : Js.Res LeadList.ListReply)
  : Js.Res SubAdminLeads.ListReply :=
  match r with
  | Js.Ok x => Js.Ok (as_sibling_reply x)
  | Js.Throw e => Js.Throw e
  end.

(** A storage of routes/leads.js as a storage of routes/subAdmin.js; a
    NaN skip or limit is not a call the former can make. *)
Definition as_sibling_find
    (find : LeadList.LeadQuery -> Z -> Z -> Js.Res (list Lead.t))
    (q : LeadList.LeadQuery) (skip lim : SubAdminLeads.Num)
  : Js.Res (list Lead.t) :=
  match skip, lim with
  | Some s, Some l => find q s l
  | _, _ => Js.Throw Js.CastError
  end.

End SiblingSpec.

(* ===================================================================== *)
(** * 7. Facts about the string operations                                *)
(* ===================================================================== *)

Section StringFacts.
Import Js.

Example trim_inner_space : trim "  a  b  " = "a  b".
Proof. reflexivity. Qed.

Example toString_array :
  toString (VArr [VStr "a"; VNull; VNum 12; VArr [VBool true; VStr "x"]])
  = Ok "a,,12,true,x".
Proof. vm_compute. reflexivity. Qed.

Example email_regex_accepts : re_match email_regex "j@d.com" = true.
Proof. vm_compute. reflexivity. Qed.

Example email_regex_needs_dot : re_match email_regex "j@dcom" = false.
Proof. vm_compute. reflexivity. Qed.

Example parseInt10_prefix : parseInt10 (Some (VStr " 12px")) = Ok (Some 12%Z).
Proof. vm_compute. reflexivity. Qed.

Example parseInt10_NaN : parseInt10 (Some (VStr "abc")) = Ok None.
Proof. vm_compute. reflexivity. Qed.

Lemma trimEnd_head c s :
  is_space c = false -> exists t, trimEnd (String c s) = String c t.
Proof.
  intros Hc. simpl. destruct (trimEnd s) as [|d t].
  - rewrite Hc. by exists EmptyString.
  - by exists (String d t).
Qed.

Lemma trimStart_head s :
  trimStart s = EmptyString
  \/ exists c t, trimStart s = String c t /\ is_space c = false.
Proof.
  induction s as [|c s IH]; simpl; [by left|].
  destruct (is_space c) eqn:Hc; [exact IH|].
  right. by exists c, s.
Qed.

Lemma trimEnd_idemp s : trimEnd (trimEnd s) = trimEnd s.
Proof.
  induction s as [|c s IH]; simpl; [done|].
  destruct (trimEnd s) as [|d t] eqn:Ht.
  - destruct (is_space c) eqn:Hc; simpl; [done|]. by rewrite Hc.
  - change (trimEnd (String c (String d t))) with
      (match trimEnd (String d t) with
       | EmptyString =>
           if is_space c then EmptyString else String c EmptyString
       | u => String c u
       end).
    by rewrite IH.
Qed.

Lemma trim_idemp s : trim (trim s) = trim s.
Proof.
  unfold trim. destruct (trimStart_head s) as [->|(c & t & -> & Hc)]; [done|].
  destruct (trimEnd_head c t Hc) as [u Hu]. rewrite Hu.
  simpl trimStart. rewrite Hc, <- Hu. apply trimEnd_idemp.
Qed.






End StringFacts.

(* ===================================================================== *)
(** * 8. Facts about the ingestion route                                  *)
(* ===================================================================== *)

(** Unfold the monadic plumbing of a handler. *)
Ltac unfold_monad :=
  unfold mbind, mret, Step_bind, Step_ret, Js.Res_bind, Js.Res_ret, try, run in *.

(** Case analysis on every test that decides the outcome named in [H]. *)
Ltac invert_step H :=
  unfold_monad; simpl in H;
  repeat (let E := fresh "E" in case_match eqn:E; simplify_eq; simpl in *);
  try done.

Section IngestionFacts.
Import Js LeadRoutes.

Implicit Types (page : LandingPage.t) (formData : gmap string Val)
  (leadData : Lead.Data) (v : option Val).

Lemma name_invalid_false v :
  name_invalid v = Ok false ->
  exists s, v = Some (VStr s) /\ (2 <= String.length (trim s))%nat
            /\ call_trim v = Ok (trim s).
Proof.
  unfold name_invalid. intros H.
  destruct v as [[]|]; invert_step H.
  apply Nat.ltb_ge in H. by eexists.
Qed.


Lemma email_invalid_false v :
  email_invalid v = Ok false ->
  exists x, v = Some x /\ truthy v = true
            /\ regex_test email_regex x = Ok true.
Proof.
  unfold email_invalid. intros H.
  destruct (truthy v) eqn:Ht; [|done].
  destruct v as [x|]; [|done]. exists x. simpl in H.
  unfold_monad. destruct (regex_test email_regex x) as [[]|]; by simplify_eq.
Qed.


(** ** The default-field statements, read backwards from success *)

Lemma step_firstName_Next page formData leadData leadData' :
  step_firstName page formData leadData = Next leadData' ->
  (enabled page DefaultFields.firstName = false /\ leadData' = leadData)
  \/ (enabled page DefaultFields.firstName = true
      /\ exists s, formData !! "firstName" = Some (VStr s)
                   /\ (2 <= String.length (trim s))%nat
                   /\ leadData' = set_firstName (trim s) leadData).
Proof.
  unfold step_firstName. unfold_monad. intros H.
  destruct (enabled page DefaultFields.firstName); [|left; by simplify_eq].
  right. split; [done|].
  destruct (name_invalid (formData !! "firstName")) as [[]|] eqn:E;
    [done| |done].
  apply name_invalid_false in E as (s & Hs & Hlen & Htrim).
  simpl in H. rewrite Htrim in H. simpl in H. exists s. by simplify_eq.
Qed.

Lemma step_lastName_Next page formData leadData leadData' :
  step_lastName page formData leadData = Next leadData' ->
  (enabled page DefaultFields.lastName = false /\ leadData' = leadData)
  \/ (enabled page DefaultFields.lastName = true
      /\ exists s, formData !! "lastName" = Some (VStr s)
                   /\ (2 <= String.length (trim s))%nat
                   /\ leadData' = set_lastName (trim s) leadData).
Proof.
  unfold step_lastName. unfold_monad. intros H.
  destruct (enabled page DefaultFields.lastName); [|left; by simplify_eq].
  right. split; [done|].
  destruct (name_invalid (formData !! "lastName")) as [[]|] eqn:E;
    [done| |done].
  apply name_invalid_false in E as (s & Hs & Hlen & Htrim).
  simpl in H. rewrite Htrim in H. simpl in H. exists s. by simplify_eq.
Qed.

Lemma step_email_Next page formData leadData leadData' :
  step_email page formData leadData = Next leadData' ->
  (enabled page DefaultFields.email = false /\ leadData' = leadData)
  \/ (enabled page DefaultFields.email = true
      /\ exists s, formData !! "email" = Some (VStr s)
                   /\ re_match email_regex s = true
                   /\ leadData' = set_email (trim (lower s)) leadData).
Proof.
  unfold step_email. unfold_monad. intros H.
  destruct (enabled page DefaultFields.email); [|left; by simplify_eq].
  right. split; [done|].
  destruct (email_invalid (formData !! "email")) as [[]|] eqn:E;
    [done| |done].
  apply email_invalid_false in E as (x & Hx & _ & Hre).
  rewrite Hx in *. simpl in H.
  destruct x; simpl in H; try done.
  exists s. unfold regex_test in Hre. simpl in Hre. unfold_monad.
  by simplify_eq.
Qed.

Lemma step_phone_Next formData leadData leadData' :
  step_phone formData leadData = Next leadData' ->
  (truthy (formData !! "phone") = false /\ leadData' = leadData)
  \/ (exists s, formData !! "phone" = Some (VStr s) /\ s <> EmptyString
                /\ leadData' = set_phone (trim s) leadData).
Proof.
  unfold step_phone. unfold_monad. intros H.
  destruct (truthy (formData !! "phone")) eqn:Ht; [|left; by simplify_eq].
  right. destruct (formData !! "phone") as [[]|]; simpl in H; try done.
  exists s. simplify_eq. split_and!; [done| |done].
  intros ->. done.
Qed.

Lemma step_company_Next page formData leadData leadData' :
  step_company page formData leadData = Next leadData' ->
  (enabled page DefaultFields.company && truthy (formData !! "company") = false
   /\ leadData' = leadData)
  \/ (enabled page DefaultFields.company = true
      /\ exists s, formData !! "company" = Some (VStr s) /\ s <> EmptyString
                   /\ leadData' = set_company (trim s) leadData).
Proof.
  unfold step_company. unfold_monad. intros H.
  destruct (enabled page DefaultFields.company); simpl in *;
    [|left; by simplify_eq].
  destruct (truthy (formData !! "company")) eqn:Ht; [|left; by simplify_eq].
  right. split; [done|].
  destruct (formData !! "company") as [[]|]; simpl in H; try done.
  exists s. simplify_eq. split_and!; [done| |done].
  intros ->. done.
Qed.

Lemma step_message_Next page formData leadData leadData' :
  step_message page formData leadData = Next leadData' ->
  (enabled page DefaultFields.message && truthy (formData !! "message") = false
   /\ leadData' = leadData)
  \/ (enabled page DefaultFields.message = true
      /\ exists s, formData !! "message" = Some (VStr s) /\ s <> EmptyString
                   /\ leadData' = set_message (trim s) leadData).
Proof.
  unfold step_message. unfold_monad. intros H.
  destruct (enabled page DefaultFields.message); simpl in *;
    [|left; by simplify_eq].
  destruct (truthy (formData !! "message")) eqn:Ht; [|left; by simplify_eq].
  right. split; [done|].
  destruct (formData !! "message") as [[]|]; simpl in H; try done.
  exists s. simplify_eq. split_and!; [done| |done].
  intros ->. done.
Qed.

(** ** The loop over the submitted entries *)

(** The loop's own check of required fields comes after the test that
    skips blank values, so it never answers the request. *)
Lemma dynamic_entry_no_Return page fieldName fieldValue r :
  dynamic_entry page fieldName fieldValue <> Return r.
Proof.
  unfold dynamic_entry. unfold_monad. intros H.
  destruct (includes standardFields fieldName); [done|].
  destruct (blank (Some fieldValue)) as [[]|] eqn:Hb; [done| |done].
  destruct (configured page fieldName) as [field|];
    [destruct (FormField.required field)|];
    destruct (call_toString fieldValue); done.
Qed.

Lemma dynamic_entry_Next page fieldName fieldValue o :
  dynamic_entry page fieldName fieldValue = Next o ->
  match o with
  | Some value =>
      includes standardFields fieldName = false
      /\ blank (Some fieldValue) = Ok false
      /\ exists s, call_toString fieldValue = Ok s /\ value = VStr (trim s)
  | None =>
      includes standardFields fieldName = true
      \/ blank (Some fieldValue) = Ok true
  end.
Proof.
  unfold dynamic_entry. unfold_monad. intros H.
  destruct (includes standardFields fieldName); [simplify_eq; by left|].
  destruct (blank (Some fieldValue)) as [[]|] eqn:Hb;
    [simplify_eq; by right| |done].
  destruct (configured page fieldName) as [field|];
    [destruct (FormField.required field)|];
    destruct (call_toString fieldValue) as [s|]; simplify_eq;
    (split_and!; [done..|by exists s]).
Qed.

Lemma dynamic_entry_stored page fieldName fieldValue s :
  includes standardFields fieldName = false ->
  blank (Some fieldValue) = Ok false ->
  call_toString fieldValue = Ok s ->
  dynamic_entry page fieldName fieldValue = Next (Some (VStr (trim s))).
Proof.
  intros Hstd Hb Hs. unfold dynamic_entry. unfold_monad.
  rewrite Hstd, Hb.
  destruct (configured page fieldName) as [field|];
    [destruct (FormField.required field)|];
    by rewrite Hs.
Qed.

Lemma step_dynamic_no_Return page entries leadData r :
  step_dynamic page entries leadData <> Return r.
Proof.
  revert leadData. induction entries as [|[k fv] rest IH]; intros leadData;
    simpl; [done|].
  unfold mbind, Step_bind.
  destruct (dynamic_entry page k fv) as [[value|]| |] eqn:E;
    [apply IH|apply IH| |done].
  by apply dynamic_entry_no_Return in E.
Qed.

(** The loop writes [dynamicFields] only. *)
Lemma step_dynamic_fixed page entries leadData leadData' :
  step_dynamic page entries leadData = Next leadData' ->
  leadData' =
    Lead.mkData (Lead.d_landingPage leadData) (Lead.d_ipAddress leadData)
      (Lead.d_userAgent leadData) (Lead.d_dynamicFields leadData')
      (Lead.d_firstName leadData) (Lead.d_lastName leadData)
      (Lead.d_email leadData) (Lead.d_phone leadData)
      (Lead.d_company leadData) (Lead.d_message leadData).
Proof.
  revert leadData. induction entries as [|[k fv] rest IH]; intros leadData;
    simpl.
  - unfold_monad. intros [= <-]. by destruct leadData.
  - unfold mbind, Step_bind.
    destruct (dynamic_entry page k fv) as [[value|]| |]; [| |done..].
    + intros H%IH. exact H.
    + apply IH.
Qed.

(** What the loop leaves under each key, for entries with distinct
    keys (the entries of an object). *)
Lemma step_dynamic_lookup page entries leadData leadData' :
  NoDup (entries.*1) ->
  step_dynamic page entries leadData = Next leadData' ->
  forall k,
    (forall fv, (k, fv) ∈ entries ->
       exists o, dynamic_entry page k fv = Next o
         /\ Lead.d_dynamicFields leadData' !! k
            = match o with
              | Some value => Some value
              | None => Lead.d_dynamicFields leadData !! k
              end)
    /\ (k ∉ entries.*1 ->
        Lead.d_dynamicFields leadData' !! k
        = Lead.d_dynamicFields leadData !! k).
Proof.
  revert leadData.
  induction entries as [|[k0 v0] rest IH]; intros leadData Hnd Hrun k.
  { simpl in Hrun. unfold_monad. simplify_eq.
    split; [by intros fv ?%elem_of_nil|done]. }
  simpl in Hnd. apply NoDup_cons in Hnd as [Hk0 Hnd].
  simpl in Hrun. unfold mbind, Step_bind in Hrun.
  destruct (dynamic_entry page k0 v0) as [o0| |] eqn:E0; [|done..].
  set (leadData0 := match o0 with
                    | Some value => set_dynamic k0 value leadData
                    | None => leadData
                    end).
  assert (step_dynamic page rest leadData0 = Next leadData') as Hrest.
  { unfold leadData0. by destruct o0. }
  destruct (IH leadData0 Hnd Hrest k) as [IHin IHout].
  split.
  - intros fv [Heq|Hin]%elem_of_cons.
    + simplify_eq. exists o0. split; [done|].
      rewrite IHout by done. unfold leadData0.
      destruct o0; simpl; [by rewrite lookup_insert_eq|done].
    + assert (k <> k0) as Hne.
      { intros ->. apply Hk0. apply list_elem_of_fmap.
        by exists (k0, fv). }
      destruct (IHin fv Hin) as (o & Ho & Hlook). exists o. split; [done|].
      rewrite Hlook. destruct o; [done|]. unfold leadData0.
      destruct o0; simpl; [by rewrite lookup_insert_ne|done].
  - intros Hnotin. simpl in Hnotin.
    apply not_elem_of_cons in Hnotin as [Hne Hnotin].
    rewrite IHout by done. unfold leadData0.
    destruct o0; simpl; [by rewrite lookup_insert_ne|done].
Qed.

(** ** The handler as a whole *)

Lemma build_leadData_Next page req leadData :
  build_leadData page req = Next leadData ->
  Spec.fixed_part page req leadData
  /\ exists leadData0,
       Lead.d_dynamicFields leadData0 = ∅
       /\ step_dynamic page
            (map_to_list (delete "landingPageId" (body req))) leadData0
          = Next leadData.
Proof.
  unfold build_leadData. unfold mbind, Step_bind. intros H.
  set (formData := delete "landingPageId" (body req)) in *.
  destruct (step_firstName page formData _) as [d1| |] eqn:H1; [|done..].
  destruct (step_lastName page formData d1) as [d2| |] eqn:H2; [|done..].
  destruct (step_email page formData d2) as [d3| |] eqn:H3; [|done..].
  destruct (step_phone formData d3) as [d4| |] eqn:H4; [|done..].
  destruct (step_company page formData d4) as [d5| |] eqn:H5; [|done..].
  destruct (step_message page formData d5) as [d6| |] eqn:H6; [|done..].
  pose proof (step_dynamic_fixed _ _ _ _ H) as Hfix.
  apply step_firstName_Next in H1. apply step_lastName_Next in H2.
  apply step_email_Next in H3. apply step_phone_Next in H4.
  apply step_company_Next in H5. apply step_message_Next in H6.
  split.
  - rewrite Hfix. unfold Spec.fixed_part. fold formData.
    unfold Spec.name_stored, Spec.email_stored, Spec.optional_stored.
    simpl.
    destruct H1 as [[-> ->]|(-> & s1 & -> & ? & ->)];
    destruct H2 as [[-> ->]|(-> & s2 & -> & ? & ->)];
    destruct H3 as [[-> ->]|(-> & s3 & -> & ? & ->)];
    destruct H4 as [[-> ->]|(s4 & E4 & ? & ->)];
    destruct H5 as [[-> ->]|(-> & s5 & E5 & ? & ->)];
    destruct H6 as [[-> ->]|(-> & s6 & E6 & ? & ->)];
    simpl;
    repeat match goal with
      | E : formData !! _ = Some (VStr ?s), Hs : ?s <> EmptyString |- _ =>
          rewrite E; simpl;
          let Eb := fresh in
          destruct (String.eqb s "") eqn:Eb;
          [apply String.eqb_eq in Eb; done|]
      end;
    simpl; split_and!; eauto.
  - exists d6. split; [|done].
    destruct H1 as [[_ ->]|(_ & ? & _ & _ & ->)];
    destruct H2 as [[_ ->]|(_ & ? & _ & _ & ->)];
    destruct H3 as [[_ ->]|(_ & ? & _ & _ & ->)];
    destruct H4 as [[_ ->]|(? & _ & _ & ->)];
    destruct H5 as [[_ ->]|(_ & ? & _ & _ & ->)];
    destruct H6 as [[_ ->]|(_ & ? & _ & _ & ->)]; done.
Qed.

(** Reading a successful answer of the ingestion route backwards. *)
Lemma createLead_created landingPage req r lead :
  createLead landingPage req = Ok r ->
  data r = Some lead ->
  exists page leadData,
    landingPage = Some page
    /\ LandingPage.is_active page = true
    /\ build_leadData page req = Next leadData
    /\ Lead.create leadData = Ok lead.
Proof.
  unfold createLead. unfold mbind, Step_bind, run. intros H Hdata.
  destruct landingPage as [page|]; simpl in H;
    [|simplify_eq; simpl in Hdata; done].
  destruct (LandingPage.is_active page) eqn:Hact; simpl in H;
    [|simplify_eq; simpl in Hdata; done].
  destruct (build_leadData page req) as [leadData|r'|] eqn:Hb; simpl in H.
  - destruct (Lead.create leadData) as [lead'|] eqn:Hc; simpl in H; [|done].
    unfold mret, Step_ret in H. simplify_eq. simpl in Hdata. simplify_eq.
    by exists page, leadData.
  - exfalso. simplify_eq. revert Hb. unfold build_leadData.
    unfold mbind, Step_bind.
    repeat (case_match; try done); intros; simplify_eq;
    repeat match goal with
      | E : step_dynamic _ _ _ = Return _ |- _ =>
          by apply step_dynamic_no_Return in E
      | E : _ = Return ?r |- _ =>
          unfold step_firstName, step_lastName, step_email, step_phone,
            step_company, step_message in E;
          unfold_monad; repeat (case_match; simplify_eq); done
      end.
  - done.
Qed.
End IngestionFacts.

(* ===================================================================== *)
(** * 9. Lead ingestion and the allFormData view                          *)
(* ===================================================================== *)

Section IngestionClaims.
Import Js LeadRoutes LandingPageRoutes.

(** The specification's own scenario stops at the first-name rule, the
    submitted first name having one character. *)
Example scenario_budget_omitted :
  createLead (Some Sample.pageX) Sample.req_scenario
  = Ok (failure 400 "First name is required and must be at least 2 characters").
Proof. vm_compute. reflexivity. Qed.

(** C1 (the code departs from the claim).  A submission that satisfies
    the default-field rules but leaves out the required field "Budget" is
    answered 201 with a stored lead, where the claim asks for no lead and
    a validation error naming the label; the test-form route, given the
    same page and payload, does answer "Budget is required". *)
Theorem C1_omitted_required_field_creates_lead :
  createLead (Some Sample.pageX) Sample.req_no_budget
  = Ok (mkReply 201 true (Some "Lead created successfully") None
          (Some (Sample.lead_with None None ∅)))
  /\ testForm (Some Sample.pageX)
       (delete "landingPageId" (body Sample.req_no_budget))
     = Ok (mkReply 400 false (Some "Form validation failed")
             (Some ["Budget is required"]) None).
Proof. split; vm_compute; reflexivity. Qed.

(** The declared form fields have no influence on ingestion at all. *)
Lemma createLead_ignores_formFields page fields req :
  createLead (Some page) req
  = createLead
      (Some (LandingPage.mk (LandingPage._id page) (LandingPage.name page)
               (LandingPage.url page) (LandingPage.status page) fields
               (LandingPage.includeDefaultFields page))) req.
Proof.
  set (page' := LandingPage.mk _ _ _ _ _ _).
  assert (forall entries leadData,
            step_dynamic page entries leadData
            = step_dynamic page' entries leadData) as Hloop.
  { induction entries as [|[k fv] rest IH]; intros leadData; simpl; [done|].
    assert (dynamic_entry page k fv = dynamic_entry page' k fv) as ->.
    { unfold dynamic_entry. unfold_monad.
      destruct (includes standardFields k); [done|].
      destruct (blank (Some fv)) as [[]|]; [done| |done].
      destruct (configured page k) as [f|], (configured page' k) as [f'|];
        repeat (case_match; simplify_eq; try done). }
    unfold mbind, Step_bind.
    destruct (dynamic_entry page' k fv) as [[]| |]; by rewrite ?IH. }
  assert (build_leadData page req = build_leadData page' req) as Hbuild.
  { unfold build_leadData, mbind, Step_bind.
    change (initial_leadData page' req) with (initial_leadData page req).
    change (step_firstName page') with (step_firstName page).
    change (step_lastName page') with (step_lastName page).
    change (step_email page') with (step_email page).
    change (step_company page') with (step_company page).
    change (step_message page') with (step_message page).
    repeat (case_match; try done). }
  unfold createLead, mbind, Step_bind.
  change (LandingPage.is_active page') with (LandingPage.is_active page).
  destruct (LandingPage.is_active page); [|done].
  cbn beta iota. unfold mret at 1 3, Step_ret. by rewrite Hbuild.
Qed.

(** C2, as the claim states it, fails: on a lead whose extension map has
    an entry named like a fixed attribute, the merged view shows the
    extension map's value, not the fixed attribute's. *)
Lemma C2_counterexample :
  Lead.fixedAttributes Sample.lead_collision !! "company" = Some (VStr "Acme")
  /\ Lead.allFormData Sample.lead_collision !! "company" = Some (VStr "Globex")
  /\ Lead.allFormData Sample.lead_collision
     <> Lead.fixedAttributes Sample.lead_collision
        ∪ Lead.dynamicFields Sample.lead_collision.
Proof.
  split_and!; [vm_compute; reflexivity..|].
  intros H. apply (f_equal (fun m => m !! "company")) in H.
  vm_compute in H. done.
Qed.

(** The [forEach] of the getter writes every extension-map entry over
    the object of fixed attributes. *)
Lemma allFormData_fold (l : Lead.t) :
  Lead.allFormData l = Lead.dynamicFields l ∪ Lead.fixedAttributes l.
Proof.
  unfold Lead.allFormData.
  apply (map_fold_weak_ind
           (fun r m => r = m ∪ Lead.fixedAttributes l)).
  - by rewrite (left_id_L ∅ (∪)).
  - intros k v m r _ ->. by rewrite insert_union_l.
Qed.

(** C2 (amended).  The allFormData view of a lead is the union of its
    extension-map entries and its six fixed attributes, an extension-map
    entry taking precedence over the fixed attribute of the same name:
    key by key, the extension map is read first, then the fixed
    attributes, and nothing else appears. *)
Theorem C2_allFormData_union (l : Lead.t) :
  Lead.allFormData l = Lead.dynamicFields l ∪ Lead.fixedAttributes l
  /\ forall k,
       Lead.allFormData l !! k
       = match Lead.dynamicFields l !! k with
         | Some v => Some v
         | None => Lead.fixedAttributes l !! k
         end.
Proof.
  split; [apply allFormData_fold|]. intros k.
  rewrite allFormData_fold, lookup_union.
  destruct (Lead.dynamicFields l !! k), (Lead.fixedAttributes l !! k); done.
Qed.

(** [Lead.create] read backwards. *)
Lemma create_Ok (d : Lead.Data) (lead : Lead.t) :
  Lead.create d = Ok lead ->
  (exists fn, Lead.d_firstName d = Some fn /\ Lead.firstName lead = trim fn)
  /\ (exists ln, Lead.d_lastName d = Some ln /\ Lead.lastName lead = trim ln)
  /\ (exists em, Lead.d_email d = Some em /\ Lead.email lead = lower em)
  /\ Lead.phone lead = trim <$> Lead.d_phone d
  /\ Lead.company lead = trim <$> Lead.d_company d
  /\ Lead.message lead = trim <$> Lead.d_message d
  /\ Lead.dynamicFields lead = Lead.d_dynamicFields d
  /\ Lead.landingPage lead = Lead.d_landingPage d.
Proof.
  unfold Lead.create, Lead.required. unfold_monad. intros H.
  destruct (Lead.d_firstName d) as [fn|]; simpl in H; [|done].
  destruct (String.eqb (trim fn) ""); [done|].
  destruct (Lead.d_lastName d) as [ln|]; simpl in H; [|done].
  destruct (String.eqb (trim ln) ""); [done|].
  destruct (Lead.d_email d) as [em|]; simpl in H; [|done].
  destruct (String.eqb (lower em) ""); [done|].
  simplify_eq. simpl. split_and!; eauto.
Qed.

(** The object built for a created lead, and the loop that filled its
    extension map. *)
Lemma created_lead_inv page req r lead :
  createLead (Some page) req = Ok r ->
  data r = Some lead ->
  exists leadData leadData0,
    LandingPage.is_active page = true
    /\ Spec.fixed_part page req leadData
    /\ Lead.d_dynamicFields leadData0 = ∅
    /\ step_dynamic page (map_to_list (delete "landingPageId" (body req)))
         leadData0 = Next leadData
    /\ Lead.create leadData = Ok lead.
Proof.
  intros H Hdata.
  destruct (createLead_created _ _ _ _ H Hdata)
    as (page' & leadData & [= <-] & Hact & Hb & Hc).
  destruct (build_leadData_Next _ _ _ Hb) as (Hfix & leadData0 & H0 & Hloop).
  by exists leadData, leadData0.
Qed.

(** C4, as the claim states it, fails: a phone number submitted to a page
    whose includeDefaultFields.phone is false is stored in the fixed
    phone attribute of the created lead. *)
Lemma C4_counterexample :
  enabled Sample.pageX DefaultFields.phone = false
  /\ createLead (Some Sample.pageX) Sample.req_phone
     = Ok (mkReply 201 true (Some "Lead created successfully") None
             (Some (Sample.lead_with (Some "555-0100") None
                      {[ "budget" := VStr "10k_25k" ]})))
  /\ ~ Spec.fixed_only_if_enabled Sample.pageX
        (Sample.lead_with (Some "555-0100") None
           {[ "budget" := VStr "10k_25k" ]}).
Proof.
  split_and!; [done|vm_compute; reflexivity|].
  intros (_ & _ & _ & Hphone & _). by specialize (Hphone (mk_is_Some _ _ eq_refl)).
Qed.

(** C4 (amended).  On every lead created by ingestion, firstName,
    lastName and email are enabled on the page (no lead is created
    otherwise), company and message are present only if the page enabled
    them, and phone is the trimmed submitted phone whenever a non-empty
    phone string was submitted, whatever includeDefaultFields.phone
    says. *)
Theorem C4_fixed_attributes page req r lead :
  createLead (Some page) req = Ok r ->
  data r = Some lead ->
  enabled page DefaultFields.firstName = true
  /\ enabled page DefaultFields.lastName = true
  /\ enabled page DefaultFields.email = true
  /\ (is_Some (Lead.company lead) -> enabled page DefaultFields.company = true)
  /\ (is_Some (Lead.message lead) -> enabled page DefaultFields.message = true)
  /\ (forall s, body req !! "phone" = Some (VStr s) -> s <> EmptyString ->
        Lead.phone lead = Some (trim s)).
Proof.
  intros H Hdata.
  destruct (created_lead_inv _ _ _ _ H Hdata)
    as (leadData & _ & _ & Hfix & _ & _ & Hc).
  destruct Hfix as (_ & _ & _ & Hfn & Hln & Hem & Hph & Hco & Hme).
  apply create_Ok in Hc
    as ((fn & Efn & _) & (ln & Eln & _) & (em & Eem & _)
        & Ephone & Ecompany & Emessage & _).
  unfold Spec.name_stored, Spec.email_stored, Spec.optional_stored in *.
  split_and!.
  - destruct (enabled page DefaultFields.firstName); [done|congruence].
  - destruct (enabled page DefaultFields.lastName); [done|congruence].
  - destruct (enabled page DefaultFields.email); [done|congruence].
  - rewrite Ecompany. intros [c Hc].
    destruct (enabled page DefaultFields.company); [done|].
    simpl in Hco. rewrite Hco in Hc. done.
  - rewrite Emessage. intros [c Hc].
    destruct (enabled page DefaultFields.message); [done|].
    simpl in Hme. rewrite Hme in Hc. done.
  - intros s Hs Hne. rewrite lookup_delete_ne in Hph by done.
    rewrite Hs in Hph. simpl in Hph.
    destruct (String.eqb s "") eqn:E; [apply String.eqb_eq in E; done|].
    simpl in Hph. destruct Hph as (s' & [= <-] & _ & Hst).
    rewrite Ephone, Hst. simpl. by rewrite trim_idemp.
Qed.

(** C5, as the claim states it, fails: a submitted array is stored as
    the comma-joined string of its elements, not as an array. *)
Lemma C5_counterexample :
  createLead (Some Sample.pageX) Sample.req_interests
  = Ok (mkReply 201 true (Some "Lead created successfully") None
          (Some (Sample.lead_with None None
                   {[ "budget" := VStr "10k_25k";
                      "interests" := VStr "seo,ads" ]})))
  /\ ~ Spec.dynamic_values_as_claimed Sample.req_interests
        (Sample.lead_with None None
           {[ "budget" := VStr "10k_25k"; "interests" := VStr "seo,ads" ]}).
Proof.
  split; [vm_compute; reflexivity|].
  intros H. destruct (H "interests" (VStr "seo,ads")) as (fv & Hfv & Hst).
  { vm_compute. reflexivity. }
  vm_compute in Hfv. simplify_eq. simpl in Hst. done.
Qed.

(** C5 (amended).  Every value in the extension map of a lead created by
    ingestion is a string: the submitted value converted with
    [toString()] and trimmed, which for an array is the comma-joined text
    of its elements.  Its key is a key of the payload outside the
    standard-field list, and the stored text is not empty. *)
Theorem C5_dynamic_values_are_trimmed_strings page req r lead :
  createLead (Some page) req = Ok r ->
  data r = Some lead ->
  forall k stored,
    Lead.dynamicFields lead !! k = Some stored ->
    exists submitted s,
      body req !! k = Some submitted
      /\ includes standardFields k = false
      /\ call_toString submitted = Ok s
      /\ trim s <> EmptyString
      /\ stored = VStr (trim s).
Proof.
  intros H Hdata k stored Hk.
  destruct (created_lead_inv _ _ _ _ H Hdata)
    as (leadData & leadData0 & _ & _ & H0 & Hloop & Hc).
  apply create_Ok in Hc as (_ & _ & _ & _ & _ & _ & Hdyn & _).
  rewrite Hdyn in Hk.
  set (formData := delete "landingPageId" (body req)) in *.
  destruct (step_dynamic_lookup _ _ _ _
              (NoDup_fst_map_to_list formData) Hloop k) as [Hin Hout].
  destruct (formData !! k) as [fv|] eqn:Efv.
  - destruct (Hin fv) as (o & Ho & Hlook); [by apply elem_of_map_to_list|].
    rewrite Hk in Hlook. destruct o as [value|];
      [|by rewrite H0, lookup_empty in Hlook].
    simplify_eq.
    apply dynamic_entry_Next in Ho as (Hstd & Hb & s & Hs & ->).
    exists fv, s. split_and!; try done.
    + unfold formData in Efv. apply lookup_delete_Some in Efv as [_ ?]. done.
    + unfold blank in Hb. destruct (truthy (Some fv)); [|done].
      simpl in Hb. rewrite Hs in Hb. unfold_monad. simplify_eq.
      intros Ht. rewrite Ht in *. done.
  - rewrite Hout, H0, lookup_empty in Hk; [done|].
    intros ([k' v'] & -> & Hel%elem_of_map_to_list)%list_elem_of_fmap.
    simpl in Efv. congruence.
Qed.

(** A non-blank value that the company or message statement accepted is
    stored by that statement and again by the loop. *)
Lemma stored_twice page req leadData leadData0 (name : string)
    (flag : bool) (stored : option string) (v : Val) :
  includes standardFields name = false ->
  name <> "landingPageId" ->
  Spec.optional_stored flag
    (delete "landingPageId" (body req) !! name) stored ->
  Lead.d_dynamicFields leadData0 = ∅ ->
  step_dynamic page (map_to_list (delete "landingPageId" (body req)))
    leadData0 = Next leadData ->
  flag = true ->
  body req !! name = Some v ->
  blank (Some v) = Ok false ->
  exists s, v = VStr s /\ trim <$> stored = Some (trim s)
            /\ Lead.d_dynamicFields leadData !! name = Some (VStr (trim s)).
Proof.
  intros Hstd Hname Hopt H0 Hloop -> Hv Hb.
  set (formData := delete "landingPageId" (body req)) in *.
  assert (formData !! name = Some v) as Hfd.
  { unfold formData. by rewrite lookup_delete_ne. }
  assert (truthy (Some v) = true) as Ht.
  { unfold blank in Hb. by destruct (truthy (Some v)). }
  unfold Spec.optional_stored in Hopt. rewrite Hfd, Ht in Hopt. simpl in Hopt.
  destruct Hopt as (s & [= ->] & _ & ->). exists s. split_and!; [done|..].
  - simpl. by rewrite trim_idemp.
  - destruct (step_dynamic_lookup _ _ _ _
                (NoDup_fst_map_to_list formData) Hloop name) as [Hin _].
    destruct (Hin (VStr s)) as (o & Ho & Hlook);
      [by apply elem_of_map_to_list|].
    rewrite (dynamic_entry_stored page name (VStr s) s Hstd Hb eq_refl) in Ho.
    by simplify_eq.
Qed.

(** C10.  The list of names kept out of the extension map is firstName,
    lastName, email, phone, landingPageId; company and message are not in
    it.  Hence a lead created from a submission with a non-blank company
    (message) for a page that enables company (message) holds the
    trimmed value twice: in the fixed attribute and under the key
    "company" ("message") of dynamicFields. *)
Theorem C10_company_and_message_stored_twice page req r lead :
  createLead (Some page) req = Ok r ->
  data r = Some lead ->
  standardFields = ["firstName"; "lastName"; "email"; "phone"; "landingPageId"]
  /\ includes standardFields "company" = false
  /\ includes standardFields "message" = false
  /\ (enabled page DefaultFields.company = true ->
      forall v, body req !! "company" = Some v -> blank (Some v) = Ok false ->
      exists s, v = VStr s
        /\ Lead.company lead = Some (trim s)
        /\ Lead.dynamicFields lead !! "company" = Some (VStr (trim s)))
  /\ (enabled page DefaultFields.message = true ->
      forall v, body req !! "message" = Some v -> blank (Some v) = Ok false ->
      exists s, v = VStr s
        /\ Lead.message lead = Some (trim s)
        /\ Lead.dynamicFields lead !! "message" = Some (VStr (trim s))).
Proof.
  intros H Hdata.
  destruct (created_lead_inv _ _ _ _ H Hdata)
    as (leadData & leadData0 & _ & Hfix & H0 & Hloop & Hc).
  destruct Hfix as (_ & _ & _ & _ & _ & _ & _ & Hco & Hme).
  apply create_Ok in Hc
    as (_ & _ & _ & _ & Ecompany & Emessage & Edyn & _).
  split_and!; [done..| |].
  - intros Hen v Hv Hb. rewrite Ecompany, Edyn.
    by eapply (stored_twice page req leadData leadData0 "company").
  - intros Hen v Hv Hb. rewrite Emessage, Edyn.
    by eapply (stored_twice page req leadData leadData0 "message").
Qed.

Lemma C10_witness :
  standardFields = ["firstName"; "lastName"; "email"; "phone"; "landingPageId"]
  /\ includes standardFields "company" = false
  /\ includes standardFields "message" = false
  /\ (enabled Sample.page_company DefaultFields.company = true ->
      forall v, body Sample.req_company !! "company" = Some v ->
      blank (Some v) = Ok false ->
      exists s, v = VStr s
        /\ Lead.company Sample.lead_company = Some (trim s)
        /\ Lead.dynamicFields Sample.lead_company !! "company"
           = Some (VStr (trim s)))
  /\ (enabled Sample.page_company DefaultFields.message = true ->
      forall v, body Sample.req_company !! "message" = Some v ->
      blank (Some v) = Ok false ->
      exists s, v = VStr s
        /\ Lead.message Sample.lead_company = Some (trim s)
        /\ Lead.dynamicFields Sample.lead_company !! "message"
           = Some (VStr (trim s))).
Proof.
  apply (C10_company_and_message_stored_twice Sample.page_company
           Sample.req_company
           (mkReply 201 true (Some "Lead created successfully") None
              (Some Sample.lead_company))
           Sample.lead_company).
  - vm_compute. reflexivity.
  - reflexivity.
Defined.

Lemma C4_witness :
  enabled Sample.pageX DefaultFields.firstName = true
  /\ enabled Sample.pageX DefaultFields.lastName = true
  /\ enabled Sample.pageX DefaultFields.email = true
  /\ (is_Some (Lead.company
                 (Sample.lead_with (Some "555-0100") None
                    {[ "budget" := VStr "10k_25k" ]})) ->
      enabled Sample.pageX DefaultFields.company = true)
  /\ (is_Some (Lead.message
                 (Sample.lead_with (Some "555-0100") None
                    {[ "budget" := VStr "10k_25k" ]})) ->
      enabled Sample.pageX DefaultFields.message = true)
  /\ (forall s, body Sample.req_phone !! "phone" = Some (VStr s) ->
        s <> EmptyString ->
        Lead.phone (Sample.lead_with (Some "555-0100") None
                      {[ "budget" := VStr "10k_25k" ]}) = Some (trim s)).
Proof.
  apply (C4_fixed_attributes Sample.pageX Sample.req_phone
           (mkReply 201 true (Some "Lead created successfully") None
              (Some (Sample.lead_with (Some "555-0100") None
                       {[ "budget" := VStr "10k_25k" ]})))).
  - vm_compute. reflexivity.
  - reflexivity.
Defined.

Lemma C5_witness :
  exists submitted s,
    body Sample.req_interests !! "interests" = Some submitted
    /\ includes standardFields "interests" = false
    /\ call_toString submitted = Ok s
    /\ trim s <> EmptyString
    /\ VStr "seo,ads" = VStr (trim s).
Proof.
  apply (C5_dynamic_values_are_trimmed_strings Sample.pageX
           Sample.req_interests
           (mkReply 201 true (Some "Lead created successfully") None
              (Some (Sample.lead_with None None
                       {[ "budget" := VStr "10k_25k";
                          "interests" := VStr "seo,ads" ]})))
           (Sample.lead_with None None
              {[ "budget" := VStr "10k_25k";
                 "interests" := VStr "seo,ads" ]})).
  - vm_compute. reflexivity.
  - reflexivity.
  - vm_compute. reflexivity.
Defined.
End IngestionClaims.

(* ===================================================================== *)
(** * 10. The test-form dry run against ingestion                         *)
(* ===================================================================== *)

Section TestFormClaims.
Import Js LeadRoutes LandingPageRoutes.

Implicit Types (page : LandingPage.t) (formData : gmap string Val)
  (leadData : Lead.Data).
















End TestFormClaims.

(* ===================================================================== *)
(** * 11. The lead list: scoping and pagination                           *)
(* ===================================================================== *)

Section LeadListClaims.
Import Js LeadList.

Variable countDocuments : LeadQuery -> Res nat.
Variable find : LeadQuery -> Z -> Z -> Res (list Lead.t).






(** C7 (the code departs from the claim on one key).  For a sub-admin
    without any active AdminAccess record, whatever the filters, the lead
    list answers 200 with count 0 and an empty data array, and no call is
    made on the Lead collection; but the answer carries no total key
    (and no pagination), where the claim says total = 0 and the sibling
    route GET /api/sub-admin/leads answers total: 0. *)
Theorem C7_empty_access_short_circuit coll user query :
  User.role user = User.sub_admin ->
  AdminAccess.find_active (User._id user) coll = [] ->
  getLeads countDocuments find coll user query
  = mkTraced [] (Ok (mkListReply 200 true 0 None None []))
  /\ l_total (mkListReply 200 true 0 None None []) = None
  /\ l_total subAdmin_leads_empty = Some 0%nat.
Proof.
  intros Hrole Hnone. unfold getLeads.
  rewrite bool_decide_eq_true_2 by done. rewrite Hnone. done.
Qed.

End LeadListClaims.

Lemma C7_witness :
  LeadList.getLeads Sample.count23 Sample.find23 [Sample.revoked_access]
    Sample.sub_user Sample.query_all_filters
  = LeadList.mkTraced []
      (Js.Ok (LeadList.mkListReply 200 true 0 None None []))
  /\ LeadList.l_total (LeadList.mkListReply 200 true 0 None None []) = None
  /\ LeadList.l_total LeadList.subAdmin_leads_empty = Some 0%nat.
Proof.
  apply (C7_empty_access_short_circuit Sample.count23 Sample.find23
           [Sample.revoked_access] Sample.sub_user Sample.query_all_filters).
  - reflexivity.
  - vm_compute. reflexivity.
Defined.


(* ===================================================================== *)
(** * 12. Login                                                           *)
(* ===================================================================== *)

Section LoginClaims.
Import Js AuthRoutes.

Variable isEmail : option Val -> bool.
Variable normalizeEmail : option Val -> string.
Variable matchPassword : User.t -> Val -> Res bool.
Variable getSignedJwtToken : User.t -> string.

Abbreviation login :=
  (login isEmail normalizeEmail matchPassword getSignedJwtToken).

(** C9.  Once the request passed the validators: an unknown email and a
    known email with a wrong password get the same answer, 401 "Invalid
    credentials"; a sub-admin whose status is not approved and whose
    password matches gets 403 and no token.  (A token is issued exactly
    in the remaining case.) *)
Theorem C9_login_failures users body :
  validation_errors isEmail body = [] ->
  let email := normalizeEmail (body !! "email") in
  let password := default VUndefined (body !! "password") in
  (User.findOne_email email users = None ->
   login users body = Ok (failure 401 "Invalid credentials"))
  /\ (forall u,
        User.findOne_email email users = Some u ->
        matchPassword u password = Ok false ->
        login users body = Ok (failure 401 "Invalid credentials"))
  /\ (forall u,
        User.findOne_email email users = Some u ->
        matchPassword u password = Ok true ->
        User.role u = User.sub_admin ->
        User.status u <> User.approved ->
        login users body
        = Ok (failure 403
                "Your account is pending approval or has been rejected")
        /\ data (failure (D := LoginData) 403
                   "Your account is pending approval or has been rejected")
           = None)
  /\ (forall u,
        User.findOne_email email users = Some u ->
        matchPassword u password = Ok true ->
        (User.role u = User.sub_admin -> User.status u = User.approved) ->
        exists view,
          login users body
          = Ok (mkReply 200 true (Some "Login successful") None
                  (Some (mkLoginData (getSignedJwtToken u) view)))).
Proof.
  intros Hvalid email password. unfold AuthRoutes.login.
  rewrite Hvalid. simpl. fold email password. unfold_monad.
  split_and!.
  - by intros ->.
  - intros u -> ->. done.
  - intros u -> -> Hrole Hstatus. simpl.
    rewrite bool_decide_eq_true_2 by done.
    rewrite bool_decide_eq_true_2 by done. done.
  - intros u -> -> Happroved. simpl.
    destruct (decide (User.role u = User.sub_admin)) as [Hr|Hr].
    + rewrite (bool_decide_eq_false_2 (User.status u <> User.approved));
        [|by intros Hne; apply Hne, Happroved].
      rewrite andb_false_r. by eexists.
    + rewrite (bool_decide_eq_false_2 _ Hr). by eexists.
Qed.
End LoginClaims.

Lemma C9_witness :
  AuthRoutes.login Sample.isEmail Sample.normalizeEmail Sample.matchPassword
    Sample.getSignedJwtToken Sample.users
    (Sample.credentials "nobody@example.com" "secret1")
  = Js.Ok (failure 401 "Invalid credentials")
  /\ AuthRoutes.login Sample.isEmail Sample.normalizeEmail
       Sample.matchPassword Sample.getSignedJwtToken Sample.users
       (Sample.credentials "sam@example.com" "wrong")
     = Js.Ok (failure 401 "Invalid credentials")
  /\ AuthRoutes.login Sample.isEmail Sample.normalizeEmail
       Sample.matchPassword Sample.getSignedJwtToken Sample.users
       (Sample.credentials "pat@example.com" "secret2")
     = Js.Ok (failure 403
                "Your account is pending approval or has been rejected").
Proof.
  split_and!.
  - apply (C9_login_failures Sample.isEmail Sample.normalizeEmail
             Sample.matchPassword Sample.getSignedJwtToken Sample.users
             (Sample.credentials "nobody@example.com" "secret1")).
    + vm_compute. reflexivity.
    + vm_compute. reflexivity.
  - apply (C9_login_failures Sample.isEmail Sample.normalizeEmail
             Sample.matchPassword Sample.getSignedJwtToken Sample.users
             (Sample.credentials "sam@example.com" "wrong")
             ltac:(vm_compute; reflexivity)) with (u := Sample.sub_user).
    + vm_compute. reflexivity.
    + vm_compute. reflexivity.
  - apply (C9_login_failures Sample.isEmail Sample.normalizeEmail
             Sample.matchPassword Sample.getSignedJwtToken Sample.users
             (Sample.credentials "pat@example.com" "secret2")
             ltac:(vm_compute; reflexivity)) with (u := Sample.pending_user).
    + vm_compute. reflexivity.
    + vm_compute. reflexivity.
    + reflexivity.
    + discriminate.
Defined.

(* ===================================================================== *)
(** * 13. Access grants                                                   *)
(* ===================================================================== *)

Section GrantClaims.
Import Js AdminRoutes.

Variable isMongoId : option Val -> bool.

Abbreviation grantAccess := (grantAccess isMongoId).
Abbreviation valid_grant := (Spec.valid_grant isMongoId).

Implicit Types (coll : list AdminAccess.t) (a doc : AdminAccess.t)
  (s p : ObjectId).

Lemma same_pair_iff s p a :
  AdminAccess.same_pair s p a = true <-> Spec.pair_of a = (s, p).
Proof.
  unfold AdminAccess.same_pair, Spec.pair_of.
  rewrite andb_true_iff, !bool_decide_eq_true. split; [by intros [-> ->]|].
  by intros [= -> ->].
Qed.

Lemma findOne_Some s p coll a :
  AdminAccess.findOne s p coll = Some a ->
  a ∈ coll /\ Spec.pair_of a = (s, p).
Proof.
  intros [Hin Hp]%find_some. split; [by apply list_elem_of_In|].
  by apply same_pair_iff.
Qed.

Lemma findOne_None s p coll :
  AdminAccess.findOne s p coll = None ->
  existsb (AdminAccess.same_pair s p) coll = false
  /\ Spec.count_pair s p coll = 0%nat.
Proof.
  unfold AdminAccess.findOne, Spec.count_pair.
  induction coll as [|a coll IH]; simpl; [done|].
  destruct (AdminAccess.same_pair s p a); [done|]. exact IH.
Qed.

(** Under the unique index, the record of a pair is the one [findOne]
    returns, and it is the only one. *)
Lemma unique_pair_found s p coll a :
  NoDup (List.map Spec.pair_of coll) ->
  a ∈ coll -> Spec.pair_of a = (s, p) ->
  AdminAccess.findOne s p coll = Some a /\ Spec.count_pair s p coll = 1%nat.
Proof.
  unfold AdminAccess.findOne, Spec.count_pair.
  induction coll as [|b coll IH]; simpl; intros Hnd Hin Hp;
    [by apply elem_of_nil in Hin|].
  apply NoDup_cons in Hnd as [Hb Hnd].
  destruct (AdminAccess.same_pair s p b) eqn:Eb.
  - apply same_pair_iff in Eb.
    assert (a = b) as ->.
    { apply elem_of_cons in Hin as [?|Hin]; [done|]. exfalso. apply Hb.
      rewrite Eb, <- Hp. apply list_elem_of_In, in_map.
      by apply list_elem_of_In. }
    split; [done|]. simpl. f_equal.
    assert (List.filter (AdminAccess.same_pair s p) coll = []) as ->; [|done].
    clear IH Hnd Hin. induction coll as [|c coll IH]; simpl; [done|].
    destruct (AdminAccess.same_pair s p c) eqn:Ec.
    + exfalso. apply Hb. apply same_pair_iff in Ec. rewrite Eb, <- Ec.
      simpl. by left.
    + apply IH. intros Hin. apply Hb. simpl. by right.
  - apply elem_of_cons in Hin as [->|Hin].
    + apply same_pair_iff in Hp. congruence.
    + by apply IH.
Qed.

Lemma save_ids doc coll :
  List.map AdminAccess._id (AdminAccess.save doc coll)
  = List.map AdminAccess._id coll.
Proof.
  unfold AdminAccess.save. rewrite List.map_map. apply List.map_ext.
  intros a. destruct (Nat.eqb_spec (AdminAccess._id a) (AdminAccess._id doc));
    done.
Qed.

(** Saving a document that was read from the collection and kept its
    pair leaves the pairs as they were. *)
Lemma save_pairs doc a coll :
  NoDup (List.map AdminAccess._id coll) ->
  a ∈ coll ->
  AdminAccess._id doc = AdminAccess._id a ->
  Spec.pair_of doc = Spec.pair_of a ->
  List.map Spec.pair_of (AdminAccess.save doc coll)
  = List.map Spec.pair_of coll.
Proof.
  intros Hnd Hin Hid Hp. unfold AdminAccess.save. rewrite List.map_map.
  apply List.map_ext_in. intros b Hb%list_elem_of_In.
  destruct (Nat.eqb_spec (AdminAccess._id b) (AdminAccess._id doc)) as [E|];
    [|done].
  assert (b = a) as ->; [|done].
  apply list_elem_of_lookup in Hb as [i Hi].
  apply list_elem_of_lookup in Hin as [j Hj].
  assert (i = j) as ->; [|congruence].
  eapply NoDup_lookup; [exact Hnd|..].
  - rewrite list_lookup_fmap, Hi. done.
  - rewrite list_lookup_fmap, Hj. simpl. congruence.
Qed.

Lemma save_elem doc a coll :
  a ∈ coll -> AdminAccess._id doc = AdminAccess._id a ->
  doc ∈ AdminAccess.save doc coll.
Proof.
  intros Hin Hid. unfold AdminAccess.save.
  apply list_elem_of_In, in_map_iff. exists a.
  rewrite <- Hid, Nat.eqb_refl. split; [done|]. by apply list_elem_of_In.
Qed.

Lemma save_well_formed doc a coll :
  Spec.well_formed coll ->
  a ∈ coll ->
  AdminAccess._id doc = AdminAccess._id a ->
  Spec.pair_of doc = Spec.pair_of a ->
  Spec.well_formed (AdminAccess.save doc coll).
Proof.
  intros [Hids Hpairs] Hin Hid Hp. split.
  - by rewrite save_ids.
  - by rewrite (save_pairs doc a).
Qed.

Lemma fresh_id_new coll :
  AdminAccess.fresh_id coll ∉ List.map AdminAccess._id coll.
Proof.
  unfold AdminAccess.fresh_id. intros Hin%list_elem_of_In.
  pose proof (proj1 (List.Forall_forall _ _)
                (proj1 (list_max_le _ _) (le_n _)) _ Hin) as Hle.
  simpl in Hle. lia.
Qed.

Lemma create_well_formed s p by_ now coll doc coll' :
  Spec.well_formed coll ->
  AdminAccess.create s p by_ now coll = Ok (doc, coll') ->
  Spec.well_formed coll' /\ Spec.count_pair s p coll' = 1%nat
  /\ length coll' = S (length coll).
Proof.
  intros [Hids Hpairs]. unfold AdminAccess.create.
  destruct (existsb _ coll) eqn:Eex; [done|]. intros [= <- <-].
  assert ((s, p) ∉ List.map Spec.pair_of coll) as Hnew.
  { intros Hin%list_elem_of_In%in_map_iff. destruct Hin as (b & Hb & Hin).
    assert (existsb (AdminAccess.same_pair s p) coll = true); [|congruence].
    apply existsb_exists. exists b. split; [done|]. by apply same_pair_iff. }
  assert (Spec.well_formed
            (coll ++ [AdminAccess.mk (AdminAccess.fresh_id coll) s p by_
                        AdminAccess.active now None None])) as Hwf.
  { split; rewrite List.map_app; simpl; apply NoDup_app.
    - split_and!; [done| |apply NoDup_singleton].
      intros x Hx ->%list_elem_of_singleton. by apply fresh_id_new in Hx.
    - split_and!; [done| |apply NoDup_singleton].
      intros x Hx ->%list_elem_of_singleton. by apply Hnew. }
  split_and!; [done| |rewrite length_app; simpl; lia].
  destruct Hwf as [_ Hpairs'].
  eapply (unique_pair_found s p _
            (AdminAccess.mk (AdminAccess.fresh_id coll) s p by_
               AdminAccess.active now None None));
    [exact Hpairs'| |reflexivity].
  apply elem_of_app. right. by apply list_elem_of_singleton.
Qed.

Lemma findById_found a coll :
  NoDup (List.map AdminAccess._id coll) -> a ∈ coll ->
  AdminAccess.findById (AdminAccess._id a) coll = Some a.
Proof.
  unfold AdminAccess.findById.
  induction coll as [|b coll IH]; simpl; intros Hnd Hin;
    [by apply elem_of_nil in Hin|].
  apply NoDup_cons in Hnd as [Hb Hnd].
  destruct (Nat.eqb_spec (AdminAccess._id b) (AdminAccess._id a)) as [E|E].
  - apply elem_of_cons in Hin as [->|Hin]; [done|]. exfalso. apply Hb.
    rewrite E. by apply list_elem_of_In, in_map, list_elem_of_In.
  - apply elem_of_cons in Hin as [->|Hin]; [done|]. by apply IH.
Qed.

(** What is left of the grant handler once the request passed the
    checks that come before the lookup of the existing record. *)
Lemma grant_valid users pages coll me now body s p :
  valid_grant users pages body s p ->
  grantAccess users pages coll me now body
  = match AdminAccess.findOne s p coll with
    | Some existingAccess =>
        if bool_decide (AdminAccess.status existingAccess = AdminAccess.active)
        then Ok (failure 400 "Access already granted", coll)
        else Ok (mkReply 200 true (Some "Access reactivated successfully")
                   None (Some (reactivate existingAccess)),
                 AdminAccess.save (reactivate existingAccess) coll)
    | None =>
        match AdminAccess.create s p me now coll with
        | Ok (adminAccess, coll') =>
            Ok (mkReply 201 true (Some "Access granted successfully") None
                  (Some adminAccess), coll')
        | Throw e => Throw e
        end
    end.
Proof.
  intros (Hs & Hp & Hms & Hmp & Hu & [pg Hpg]).
  unfold AdminRoutes.grantAccess, validation_errors.
  rewrite Hs, Hp, Hms, Hmp. simpl.
  unfold_monad. simpl.
  destruct (User.findById s users) as [u|]; [|done].
  destruct Hu as [-> ->]. simpl. rewrite Hpg.
  destruct (AdminAccess.findOne s p coll) as [a|].
  - by destruct (bool_decide _).
  - by destruct (AdminAccess.create s p me now coll) as [[]|].
Qed.

(** Whatever the request, the grant handler leaves a well-formed
    collection well-formed. *)
Lemma grantAccess_well_formed users pages coll me now body reply coll' :
  Spec.well_formed coll ->
  grantAccess users pages coll me now body = Ok (reply, coll') ->
  Spec.well_formed coll'.
Proof.
  intros Hwf. unfold AdminRoutes.grantAccess. unfold_monad.
  destruct (0 <? length (validation_errors isMongoId body))%nat;
    [by intros [= _ <-]|].
  destruct (as_id (body !! "subAdminId")) as [s|]; [|done].
  destruct (as_id (body !! "landingPageId")) as [p|]; [|done].
  destruct (User.findById s users) as [u|]; [|by intros [= _ <-]].
  destruct (_ || _); [by intros [= _ <-]|].
  destruct (LandingPage.findById p pages); [|by intros [= _ <-]].
  destruct (AdminAccess.findOne s p coll) as [a|] eqn:Ef.
  - destruct (bool_decide _); intros [= _ <-]; [done|].
    apply findOne_Some in Ef as [Hin _].
    by apply (save_well_formed _ a).
  - destruct (AdminAccess.create s p me now coll) as [[doc c]|] eqn:Ec;
      [|done].
    intros [= _ <-].
    by apply (create_well_formed _ _ _ _ _ _ _ Hwf) in Ec as [? _].
Qed.

(** C6.  On a collection that holds at most one AdminAccess record per
    (subAdmin, landingPage) pair, and for a grant request that passes the
    checks on the sub-admin and the landing page: the handler leaves such
    a collection behind (whatever the request), with exactly one record
    for the pair; it answers 400 "Access already granted" and changes
    nothing when the pair's record is active; and after a revoke of the
    pair's record it reactivates that same record (status active, revoke
    metadata cleared, same _id) instead of inserting a second one, the
    pair's record count staying 1 and the collection keeping its size. *)
Theorem C6_one_record_per_pair users pages coll me now body s p :
  Spec.well_formed coll ->
  valid_grant users pages body s p ->
  (forall body' reply coll',
     grantAccess users pages coll me now body' = Ok (reply, coll') ->
     Spec.well_formed coll')
  /\ (exists reply coll',
        grantAccess users pages coll me now body = Ok (reply, coll')
        /\ Spec.count_pair s p coll' = 1%nat)
  /\ (forall a,
        a ∈ coll -> Spec.pair_of a = (s, p) ->
        AdminAccess.status a = AdminAccess.active ->
        grantAccess users pages coll me now body
        = Ok (failure 400 "Access already granted", coll))
  /\ (forall a me' now',
        a ∈ coll -> Spec.pair_of a = (s, p) ->
        AdminAccess.status a <> AdminAccess.revoked ->
        let revoked := revoke me' now' a in
        let coll1 := AdminAccess.save revoked coll in
        let again := reactivate revoked in
        revokeAccess coll me' now' (AdminAccess._id a)
        = Ok (mkReply 200 true (Some "Access revoked successfully") None
                (Some revoked), coll1)
        /\ grantAccess users pages coll1 me now body
           = Ok (mkReply 200 true (Some "Access reactivated successfully")
                   None (Some again), AdminAccess.save again coll1)
        /\ AdminAccess._id again = AdminAccess._id a
        /\ AdminAccess.status again = AdminAccess.active
        /\ AdminAccess.revokedAt again = None
        /\ AdminAccess.revokedBy again = None
        /\ Spec.count_pair s p (AdminAccess.save again coll1) = 1%nat
        /\ length (AdminAccess.save again coll1) = length coll).
Proof.
  intros Hwf Hvalid. split_and!.
  - intros body' reply coll'. by apply grantAccess_well_formed.
  - rewrite (grant_valid _ _ _ _ _ _ _ _ Hvalid).
    destruct (AdminAccess.findOne s p coll) as [a|] eqn:Ef.
    + apply findOne_Some in Ef as [Hin Hp].
      case_bool_decide.
      * eexists _, _. split; [done|].
        by apply (unique_pair_found s p coll a); [apply Hwf|..].
      * eexists _, _. split; [done|].
        apply (unique_pair_found s p _ (reactivate a)); [|by eapply save_elem|done].
        by apply (save_well_formed _ a).
    + destruct (AdminAccess.create s p me now coll) as [[doc c]|] eqn:Ec.
      * eexists _, _. split; [done|].
        by apply (create_well_formed _ _ _ _ _ _ _ Hwf) in Ec as (_ & ? & _).
      * exfalso. unfold AdminAccess.create in Ec.
        apply findOne_None in Ef as [Hex _]. by rewrite Hex in Ec.
  - intros a Hin Hp Hact. rewrite (grant_valid _ _ _ _ _ _ _ _ Hvalid).
    destruct (unique_pair_found s p coll a) as [-> _]; [apply Hwf|done..|].
    by rewrite bool_decide_eq_true_2.
  - intros a me' now' Hin Hp Hst revoked coll1 again.
    assert (Spec.well_formed coll1) as Hwf1
      by by apply (save_well_formed _ a).
    assert (revoked ∈ coll1) as Hin1 by by eapply save_elem.
    assert (Spec.well_formed (AdminAccess.save again coll1)) as Hwf2
      by by apply (save_well_formed _ revoked).
    split_and!; try done.
    + unfold revokeAccess. unfold_monad.
      rewrite findById_found by (done || apply Hwf).
      rewrite bool_decide_eq_false_2 by done. reflexivity.
    + rewrite (grant_valid _ _ _ _ _ _ _ _ Hvalid).
      destruct (unique_pair_found s p coll1 revoked) as [-> _];
        [apply Hwf1|done..|].
      rewrite bool_decide_eq_false_2 by done. reflexivity.
    + apply (unique_pair_found s p _ again); [apply Hwf2| |done].
      by apply (save_elem _ revoked).
    + unfold coll1, AdminAccess.save. by rewrite !List.length_map.
Qed.
End GrantClaims.

Lemma C6_witness :
  AdminRoutes.grantAccess Sample.isMongoId Sample.users [Sample.pageX]
    [Sample.active_access]
    Sample.superAdminId 5000 Sample.grant_body
  = Js.Ok (failure 400 "Access already granted", [Sample.active_access])
  /\ Spec.count_pair Sample.subAdminId Sample.pageId
       (AdminAccess.save
          (AdminRoutes.reactivate
             (AdminRoutes.revoke Sample.superAdminId 4000 Sample.active_access))
          (AdminAccess.save
             (AdminRoutes.revoke Sample.superAdminId 4000 Sample.active_access)
             [Sample.active_access]))
     = 1%nat.
Proof.
  destruct (C6_one_record_per_pair Sample.isMongoId Sample.users [Sample.pageX]
              [Sample.active_access] Sample.superAdminId 5000
              Sample.grant_body Sample.subAdminId Sample.pageId)
    as (_ & _ & Hconflict & Hregrant).
  - split; apply (bool_decide_unpack _); vm_compute; reflexivity.
  - unfold Spec.valid_grant. vm_compute.
    split_and!; try reflexivity. eexists. reflexivity.
  - split.
    + apply (Hconflict Sample.active_access);
        [apply list_elem_of_here|reflexivity|reflexivity].
    + destruct (Hregrant Sample.active_access Sample.superAdminId 4000%Z)
        as (_ & _ & _ & _ & _ & _ & Hcount & _);
        [apply list_elem_of_here|reflexivity|discriminate|exact Hcount].
Defined.

(* ===================================================================== *)
(** * 14. Further properties: grants, revocation and the lead list        *)
(* ===================================================================== *)

Section AccessMore.
Import Js AdminRoutes.

Variable isMongoId : option Val -> bool.

Implicit Types (coll : list AdminAccess.t) (a b : AdminAccess.t).

(** X1.  The grant and the revoke handler write the collection only on the
    paths that answer with success: an answer with [success: false]
    leaves every record as it was. *)
Theorem access_failure_changes_nothing users pages coll me now body id :
  (forall reply coll',
     AdminRoutes.grantAccess isMongoId users pages coll me now body
     = Ok (reply, coll') ->
     success reply = false -> coll' = coll)
  /\ (forall reply coll',
        revokeAccess coll me now id = Ok (reply, coll') ->
        success reply = false -> coll' = coll).
Proof.
  split; intros reply coll'.
  - unfold AdminRoutes.grantAccess. unfold_monad.
    repeat (case_match; simplify_eq; simpl in *; try done);
      intros; by simplify_eq.
  - unfold revokeAccess. unfold_monad.
    repeat (case_match; simplify_eq; simpl in *; try done);
      intros; by simplify_eq.
Qed.

(** Saving the revoked version of a record takes it out of the active
    records of every sub-admin and leaves the others in place. *)
Lemma find_active_save_revoked s me now a (l : list AdminAccess.t) :
  (forall b, b ∈ l -> AdminAccess._id b = AdminAccess._id a -> b = a) ->
  AdminAccess.find_active s (AdminAccess.save (revoke me now a) l)
  = List.filter (fun b => negb (Nat.eqb (AdminAccess._id b) (AdminAccess._id a)))
                (AdminAccess.find_active s l).
Proof.
  unfold AdminAccess.find_active, AdminAccess.save.
  change (AdminAccess._id (revoke me now a)) with (AdminAccess._id a).
  induction l as [|b l IH]; intros Huniq; [done|].
  cbn [List.map List.filter].
  rewrite IH by (intros c Hc; apply Huniq; by right).
  destruct (Nat.eqb_spec (AdminAccess._id b) (AdminAccess._id a)) as [E|E].
  - assert (b = a) as -> by (apply Huniq; [by left|done]).
    simpl. rewrite andb_false_r.
    destruct (bool_decide (AdminAccess.subAdmin a = s)
              && bool_decide (AdminAccess.status a = AdminAccess.active));
      [|done].
    simpl. by rewrite Nat.eqb_refl.
  - destruct (bool_decide (AdminAccess.subAdmin b = s)
              && bool_decide (AdminAccess.status b = AdminAccess.active));
      [|done].
    simpl. apply Nat.eqb_neq in E. by rewrite E.
Qed.

Lemma unique_id_in_coll coll a b :
  NoDup (List.map AdminAccess._id coll) ->
  a ∈ coll -> b ∈ coll -> AdminAccess._id b = AdminAccess._id a -> b = a.
Proof.
  intros Hnd Ha Hb E.
  pose proof (findById_found a coll Hnd Ha) as Fa.
  pose proof (findById_found b coll Hnd Hb) as Fb.
  rewrite E in Fb. congruence.
Qed.

(** X2.  Revocation marks one record and deletes nothing: the collection
    keeps its size and its one-record-per-pair shape, the record is kept
    with status revoked, the revoker and the time, every other record is
    untouched, the record leaves the active records of its sub-admin, and
    a second revocation is refused with 400 "Access is already revoked". *)
Theorem revoke_marks_one_record coll me now me2 now2 a :
  Spec.well_formed coll ->
  a ∈ coll ->
  AdminAccess.status a <> AdminAccess.revoked ->
  let coll' := AdminAccess.save (revoke me now a) coll in
  revokeAccess coll me now (AdminAccess._id a)
  = Ok (mkReply 200 true (Some "Access revoked successfully") None
          (Some (revoke me now a)), coll')
  /\ length coll' = length coll
  /\ Spec.well_formed coll'
  /\ revoke me now a ∈ coll'
  /\ (forall b, b ∈ coll -> b <> a -> b ∈ coll')
  /\ (forall s,
        AdminAccess.find_active s coll'
        = List.filter
            (fun b => negb (Nat.eqb (AdminAccess._id b) (AdminAccess._id a)))
            (AdminAccess.find_active s coll))
  /\ revokeAccess coll' me2 now2 (AdminAccess._id a)
     = Ok (failure 400 "Access is already revoked", coll').
Proof.
  intros Hwf Hin Hst coll'.
  assert (Spec.well_formed coll') as Hwf'
    by by apply (save_well_formed _ a).
  assert (revoke me now a ∈ coll') as Hin' by by eapply save_elem.
  split_and!; try done.
  - unfold revokeAccess. unfold_monad.
    rewrite findById_found by (done || apply Hwf).
    rewrite bool_decide_eq_false_2 by done. reflexivity.
  - unfold coll', AdminAccess.save. by rewrite List.length_map.
  - intros b Hb Hne. unfold coll', AdminAccess.save.
    apply list_elem_of_In, in_map_iff. exists b.
    split; [|by apply list_elem_of_In].
    destruct (Nat.eqb_spec (AdminAccess._id b) (AdminAccess._id (revoke me now a)))
      as [E|]; [|done].
    exfalso. apply Hne. by apply (unique_id_in_coll coll); [apply Hwf|..].
  - intros s. apply find_active_save_revoked.
    intros b Hb E. by apply (unique_id_in_coll coll); [apply Hwf|..].
  - unfold revokeAccess. unfold_monad.
    change (AdminAccess._id a) with (AdminAccess._id (revoke me now a)).
    rewrite findById_found by (done || apply Hwf'). simpl. reflexivity.
Qed.
End AccessMore.

Lemma revoke_marks_one_record_witness :
  AdminRoutes.revokeAccess [Sample.active_access] Sample.superAdminId 4000 1
  = Js.Ok (mkReply 200 true (Some "Access revoked successfully") None
             (Some (AdminRoutes.revoke Sample.superAdminId 4000
                      Sample.active_access)),
           [AdminRoutes.revoke Sample.superAdminId 4000 Sample.active_access])
  /\ AdminRoutes.revokeAccess
       [AdminRoutes.revoke Sample.superAdminId 4000 Sample.active_access]
       Sample.superAdminId 4001 1
     = Js.Ok (failure 400 "Access is already revoked",
              [AdminRoutes.revoke Sample.superAdminId 4000
                 Sample.active_access]).
Proof.
  destruct (revoke_marks_one_record [Sample.active_access]
              Sample.superAdminId 4000 Sample.superAdminId 4001
              Sample.active_access)
    as (Hrevoke & _ & _ & _ & _ & _ & Hagain).
  - split; apply (bool_decide_unpack _); vm_compute; reflexivity.
  - apply list_elem_of_here.
  - discriminate.
  - split; [exact Hrevoke|exact Hagain].
Defined.

(* ===================================================================== *)
(** * 15. Further properties: the lead list and its access scope          *)
(* ===================================================================== *)

Section LeadListMore.
Import Js LeadList AdminRoutes.

Variable countDocuments : LeadQuery -> Res nat.
Variable find : LeadQuery -> Z -> Z -> Res (list Lead.t).

Lemma num_or_nonzero n d : d <> 0%Z -> num_or n d <> 0%Z.
Proof.
  unfold num_or. intros Hd. destruct n as [z|]; [|done].
  destruct (Z.eqb_spec z 0); done.
Qed.

Lemma paging_nonzero query p L :
  page_of query = Ok p -> limit_of query = Ok L -> p <> 0%Z /\ L <> 0%Z.
Proof.
  unfold page_of, limit_of. unfold_monad.
  destruct (parseInt10 (query !! "page")); [|done].
  destruct (parseInt10 (query !! "limit")); [|done].
  intros [= <-] [= <-]. split; by apply num_or_nonzero.
Qed.

Lemma run_query_ops scope query op :
  op ∈ leadOps (run_query countDocuments find scope query) ->
  SpecMore.op_query op = build_query scope query.
Proof.
  unfold run_query.
  repeat case_match; simpl; intros Hop;
    repeat (apply elem_of_cons in Hop as [->|Hop]; [done|]);
    by apply elem_of_nil in Hop.
Qed.

Lemma getLeads_sub_admin coll user query :
  User.role user = User.sub_admin ->
  SpecMore.scope_of coll user <> [] ->
  getLeads countDocuments find coll user query
  = run_query countDocuments find
      (Some (PageIn (SpecMore.scope_of coll user))) query.
Proof.
  intros Hrole Hne. unfold getLeads, SpecMore.scope_of in *.
  rewrite bool_decide_eq_true_2 by done.
  destruct (List.map _ _); [done|]. reflexivity.
Qed.

(** X3.  Every call a sub-admin's lead list makes on the Lead collection
    filters on the landing page of the [landingPage] query parameter
    alone when that parameter is given (the pages the sub-admin was
    granted are then no part of the filter), and on the granted pages
    otherwise. *)
Theorem sub_admin_page_filter coll user query op :
  User.role user = User.sub_admin ->
  SpecMore.scope_of coll user <> [] ->
  op ∈ leadOps (getLeads countDocuments find coll user query) ->
  qLandingPage (SpecMore.op_query op)
  = if truthy (query !! "landingPage")
    then PageIs <$> query !! "landingPage"
    else Some (PageIn (SpecMore.scope_of coll user)).
Proof.
  intros Hrole Hne Hop. rewrite getLeads_sub_admin in Hop by done.
  apply run_query_ops in Hop. rewrite Hop. unfold build_query, if_given.
  simpl. destruct (truthy (query !! "landingPage")) eqn:E; [|done].
  destruct (query !! "landingPage"); done.
Qed.

(** X4.  A list answer that carries a total comes from exactly two calls on
    the Lead collection, a count and then a find with the same filter,
    skip [(page - 1) * limit] and the limit; the total is the count, the
    data is what find returned, [count] is its length, and neither the
    page nor the limit is 0. *)
Theorem getLeads_answer_matches_storage coll user query reply N :
  result (getLeads countDocuments find coll user query) = Ok reply ->
  l_total reply = Some N ->
  exists q p L,
    page_of query = Ok p /\ limit_of query = Ok L
    /\ p <> 0%Z /\ L <> 0%Z
    /\ leadOps (getLeads countDocuments find coll user query)
       = [CountDocuments q; Find q ((p - 1) * L) L]
    /\ countDocuments q = Ok N
    /\ find q ((p - 1) * L)%Z L = Ok (l_data reply)
    /\ l_count reply = length (l_data reply)
    /\ l_status reply = 200%nat /\ l_success reply = true.
Proof.
  intros H Htotal.
  assert (exists scope,
    getLeads countDocuments find coll user query
    = run_query countDocuments find scope query) as [scope E].
  { unfold getLeads in *. repeat case_match; simpl in *; simplify_eq;
      try done; by eexists. }
  rewrite E in *. clear E. unfold run_query in *.
  destruct (page_of query) as [p|] eqn:Ep; [|done].
  destruct (limit_of query) as [L|] eqn:EL; [|done].
  destruct (countDocuments _) as [total|] eqn:Ec; [|done].
  destruct (find _ _ _) as [leads|] eqn:Ef; [|done].
  simpl in *. simplify_eq. simpl in *. simplify_eq.
  destruct (paging_nonzero query p L Ep EL).
  exists (build_query scope query), p, L. by split_and!.
Qed.

End LeadListMore.
Section AccessAndList.
Import Js LeadList AdminRoutes.

Variable isMongoId : option Val -> bool.
Variable countDocuments : LeadQuery -> Res nat.
Variable find : LeadQuery -> Z -> Z -> Res (list Lead.t).

(** Whatever a valid grant request is answered (granted, reactivated or
    "already granted"), the pair has an active record afterwards. *)
Lemma grant_leaves_active users pages coll me now body s p reply coll' :
  Spec.valid_grant isMongoId users pages body s p ->
  AdminRoutes.grantAccess isMongoId users pages coll me now body
  = Ok (reply, coll') ->
  exists a, a ∈ coll' /\ AdminAccess.subAdmin a = s
            /\ AdminAccess.landingPage a = p
            /\ AdminAccess.status a = AdminAccess.active.
Proof.
  intros (Hs & Hp & Ms & Mp & Hu & [pg Hpg]).
  unfold AdminRoutes.grantAccess, validation_errors. rewrite Hs, Hp, Ms, Mp.
  unfold_monad. simpl.
  destruct (User.findById s users) as [u|]; [|done]. destruct Hu as [-> ->].
  rewrite Hpg. simpl.
  destruct (AdminAccess.findOne s p coll) as [e|] eqn:Ef.
  - apply findOne_Some in Ef as [Hin [= Es Ep]].
    case_bool_decide as Ea; simpl; intros [= <- <-].
    + by exists e.
    + exists (reactivate e). split; [by eapply save_elem|done].
  - unfold AdminAccess.create.
    destruct (existsb _ _); [done|]. simpl. intros [= <- <-].
    eexists. split; [apply elem_of_app; right; apply list_elem_of_here|done].
Qed.

(** X5.  After a valid grant request was answered (granted, reactivated or
    "already granted"), the page is among the pages the sub-admin's lead
    list is scoped to, and the list is no longer short-circuited. *)
Theorem grant_then_page_in_scope users pages coll me now body s p reply coll'
    user query :
  Spec.valid_grant isMongoId users pages body s p ->
  AdminRoutes.grantAccess isMongoId users pages coll me now body
  = Ok (reply, coll') ->
  User._id user = s -> User.role user = User.sub_admin ->
  p ∈ SpecMore.scope_of coll' user
  /\ getLeads countDocuments find coll' user query
     = run_query countDocuments find
         (Some (PageIn (SpecMore.scope_of coll' user))) query.
Proof.
  intros Hv Hg Hid Hrole.
  destruct (grant_leaves_active _ _ _ _ _ _ _ _ _ _ Hv Hg)
    as (a & Hin & Hs & Hp & Ha).
  assert (p ∈ SpecMore.scope_of coll' user) as Hscope.
  { unfold SpecMore.scope_of, AdminAccess.find_active.
    apply list_elem_of_In, in_map_iff. exists a. split; [done|].
    apply filter_In. split; [by apply list_elem_of_In|].
    rewrite Hid, Hs, Ha. by rewrite !bool_decide_eq_true_2. }
  split; [done|]. apply getLeads_sub_admin; [done|].
  intros E. rewrite E in Hscope. by apply elem_of_nil in Hscope.
Qed.

(** X6.  Revoking the only active access record of a sub-admin succeeds and
    makes the lead list answer its empty short-circuit, with no call on
    the Lead collection, whatever the query. *)
Theorem revoke_then_list_is_empty coll me now a user query :
  Spec.well_formed coll ->
  User.role user = User.sub_admin ->
  AdminAccess.find_active (User._id user) coll = [a] ->
  exists coll',
    revokeAccess coll me now (AdminAccess._id a)
    = Ok (mkReply 200 true (Some "Access revoked successfully") None
            (Some (revoke me now a)), coll')
    /\ getLeads countDocuments find coll' user query
       = mkTraced [] (Ok (mkListReply 200 true 0 None None [])).
Proof.
  intros Hwf Hrole Hact.
  assert (a ∈ coll /\ AdminAccess.status a = AdminAccess.active) as [Hin Hst].
  { assert (In a (AdminAccess.find_active (User._id user) coll)) as Ha
      by (rewrite Hact; by left).
    apply filter_In in Ha as [Ha Hb]. split; [by apply list_elem_of_In|].
    apply andb_true_iff in Hb as [_ Hb]. by apply bool_decide_eq_true in Hb. }
  assert (NoDup (List.map AdminAccess._id coll)) as Hnd by apply Hwf.
  exists (AdminAccess.save (revoke me now a) coll). split.
  - unfold revokeAccess. unfold_monad.
    rewrite findById_found by done.
    rewrite bool_decide_eq_false_2 by (by rewrite Hst). reflexivity.
  - unfold getLeads. rewrite bool_decide_eq_true_2 by done.
    rewrite find_active_save_revoked
      by (intros b Hb E; by apply (unique_id_in_coll coll)).
    rewrite Hact. simpl. by rewrite Nat.eqb_refl.
Qed.
End AccessAndList.

Lemma sub_admin_page_filter_witness :
  LeadList.qLandingPage
    (SpecMore.op_query
       (LeadList.CountDocuments
          (LeadList.build_query (Some (LeadList.PageIn [Sample.pageId]))
             SampleMore.query_other_page)))
  = Some (LeadList.PageIs (Js.VStr SampleMore.other_page)).
Proof.
  apply (sub_admin_page_filter Sample.count23 Sample.find23
           [Sample.active_access] Sample.sub_user
           SampleMore.query_other_page).
  - reflexivity.
  - vm_compute. discriminate.
  - vm_compute. apply list_elem_of_here.
Defined.

Lemma getLeads_answer_matches_storage_witness :
  exists q p L,
    LeadList.page_of (Sample.query_page "2" "5") = Js.Ok p
    /\ LeadList.limit_of (Sample.query_page "2" "5") = Js.Ok L
    /\ p <> 0%Z /\ L <> 0%Z
    /\ LeadList.leadOps
         (LeadList.getLeads Sample.count23 Sample.find23
            [Sample.active_access] Sample.sub_user (Sample.query_page "2" "5"))
       = [LeadList.CountDocuments q; LeadList.Find q ((p - 1) * L) L]
    /\ Sample.count23 q = Js.Ok 23%nat
    /\ Sample.find23 q ((p - 1) * L)%Z L
       = Js.Ok (take 5 (drop 5 (Sample.stored_leads 23)))
    /\ 5%nat = length (take 5 (drop 5 (Sample.stored_leads 23)))
    /\ 200%nat = 200%nat /\ true = true.
Proof.
  apply (getLeads_answer_matches_storage Sample.count23 Sample.find23
           [Sample.active_access] Sample.sub_user (Sample.query_page "2" "5")
           (LeadList.mkListReply 200 true 5
              (Some (LeadList.paginate 2 5 23)) (Some 23%nat)
              (take 5 (drop 5 (Sample.stored_leads 23))))).
  - vm_compute. reflexivity.
  - reflexivity.
Defined.

Lemma grant_then_page_in_scope_witness :
  Sample.pageId
    ∈ SpecMore.scope_of [AdminRoutes.reactivate Sample.revoked_access]
        Sample.sub_user
  /\ LeadList.getLeads Sample.count23 Sample.find23
       [AdminRoutes.reactivate Sample.revoked_access] Sample.sub_user
       (Sample.query_page "2" "5")
     = LeadList.run_query Sample.count23 Sample.find23
         (Some (LeadList.PageIn
                  (SpecMore.scope_of
                     [AdminRoutes.reactivate Sample.revoked_access]
                     Sample.sub_user)))
         (Sample.query_page "2" "5").
Proof.
  apply (grant_then_page_in_scope Sample.isMongoId Sample.count23
           Sample.find23 Sample.users [Sample.pageX] [Sample.revoked_access]
           Sample.superAdminId 3000 Sample.grant_body Sample.subAdminId
           Sample.pageId
           (mkReply 200 true (Some "Access reactivated successfully") None
              (Some (AdminRoutes.reactivate Sample.revoked_access)))).
  - unfold Spec.valid_grant. split_and!; try (vm_compute; reflexivity).
    + vm_compute. split; reflexivity.
    + vm_compute. by eexists.
  - vm_compute. reflexivity.
  - reflexivity.
  - reflexivity.
Defined.

Lemma revoke_then_list_is_empty_witness :
  exists coll',
    AdminRoutes.revokeAccess [Sample.active_access] Sample.superAdminId 4000 1
    = Js.Ok (mkReply 200 true (Some "Access revoked successfully") None
               (Some (AdminRoutes.revoke Sample.superAdminId 4000
                        Sample.active_access)), coll')
    /\ LeadList.getLeads Sample.count23 Sample.find23 coll' Sample.sub_user
         Sample.query_all_filters
       = LeadList.mkTraced []
           (Js.Ok (LeadList.mkListReply 200 true 0 None None [])).
Proof.
  apply (revoke_then_list_is_empty Sample.count23 Sample.find23
           [Sample.active_access] Sample.superAdminId 4000
           Sample.active_access Sample.sub_user Sample.query_all_filters).
  - split; apply (bool_decide_unpack _); vm_compute; reflexivity.
  - reflexivity.
  - vm_compute. reflexivity.
Defined.

(* ===================================================================== *)
(** * 16. Further properties: single leads                                *)
(* ===================================================================== *)

Section LeadItemFacts.
Import Js LeadItem.

Variable isValidObjectId : string -> bool.
Variable castStatus : option Val -> Res Lead.Status.

Implicit Types (pages : list LandingPage.t) (leads : list LeadDoc.t)
  (access : list AdminAccess.t) (user : User.t).

Lemma page_findById_id id pages p :
  LandingPage.findById id pages = Some p -> LandingPage._id p = id.
Proof.
  intros [_ H]%find_some. by apply String.eqb_eq in H.
Qed.

Lemma lead_findById_id id leads d :
  LeadDoc.findById id leads = Some d -> LeadDoc._id d = id /\ d ∈ leads.
Proof.
  intros [Hin H]%find_some. apply String.eqb_eq in H.
  split; [done|]. by apply list_elem_of_In.
Qed.

(** The access test of the single-lead routes agrees with the scope of
    the lead list. *)
Lemma hasAccess_scope access user p :
  is_Some (hasAccess (User._id user) p access)
  <-> p ∈ SpecMore.scope_of access user.
Proof.
  unfold hasAccess, SpecMore.scope_of, AdminAccess.find_active,
    AdminAccess.same_pair.
  induction access as [|a access IH]; simpl.
  - split; [by intros [? ?]|by intros ?%elem_of_nil].
  - destruct (bool_decide (AdminAccess.subAdmin a = User._id user)) eqn:Es;
      simpl; [|done].
    destruct (bool_decide (AdminAccess.status a = AdminAccess.active)) eqn:Ea;
      simpl; [|rewrite andb_false_r; simpl; exact IH].
    rewrite andb_true_r.
    destruct (decide (AdminAccess.landingPage a = p)) as [Ep|Ep].
    + rewrite bool_decide_eq_true_2 by done.
      split; [|by eexists]. intros _. rewrite Ep. apply list_elem_of_here.
    + rewrite bool_decide_eq_false_2 by done.
      rewrite IH. split; [by apply list_elem_of_further|].
      intros [?|?]%elem_of_cons; done.
Qed.

Lemma check_access_granted {D R} (answer : Reply D -> R) denied pages leads
    access user id lead :
  isValidObjectId id = true ->
  LeadDoc.findById id leads = Some lead ->
  is_Some (LandingPage.findById (LeadDoc.landingPage lead) pages) ->
  check_access isValidObjectId answer denied pages leads access user id
  = if bool_decide (User.role user = User.sub_admin)
    then if bool_decide (LeadDoc.landingPage lead
                         ∈ SpecMore.scope_of access user)
         then Next tt else Return (answer (failure 403 denied))
    else Next tt.
Proof.
  intros Hid Hlead [p Hp]. unfold check_access, cast_id, populate.
  rewrite Hid. unfold_monad. rewrite Hlead. simpl. rewrite Hp.
  rewrite (page_findById_id _ _ _ Hp).
  case_bool_decide; [|done].
  case_bool_decide as Hs.
  - apply hasAccess_scope in Hs as [a ->]. done.
  - destruct (hasAccess _ _ _) eqn:E; [|done].
    exfalso. apply Hs, hasAccess_scope. by eexists.
Qed.

Lemma getLead_sub_admin pages leads access user id lead :
  User.role user = User.sub_admin ->
  isValidObjectId id = true ->
  LeadDoc.findById id leads = Some lead ->
  is_Some (LandingPage.findById (LeadDoc.landingPage lead) pages) ->
  getLead isValidObjectId pages leads access user id
  = Ok (if bool_decide (LeadDoc.landingPage lead
                        ∈ SpecMore.scope_of access user)
        then mkReply 200 true None None (Some (populate pages lead))
        else failure 403 "Not authorized to access this lead").
Proof.
  intros Hrole Hid Hlead Hpage. unfold getLead.
  rewrite (check_access_granted _ _ _ _ _ _ _ lead) by done.
  rewrite bool_decide_eq_true_2 by done.
  case_bool_decide; [|done].
  unfold cast_id. rewrite Hid. unfold_monad. by rewrite Hlead.
Qed.

(** X7.  A sub-admin reads a lead, and changes its status, exactly when the
    lead's landing page is among the pages of the sub-admin's active
    access records, the scope of the lead list; otherwise the answer is
    403 and the leads stay as they are. *)
Theorem lead_access_follows_scope pages leads access user id lead :
  User.role user = User.sub_admin ->
  isValidObjectId id = true ->
  LeadDoc.findById id leads = Some lead ->
  is_Some (LandingPage.findById (LeadDoc.landingPage lead) pages) ->
  (LeadDoc.landingPage lead ∈ SpecMore.scope_of access user ->
     getLead isValidObjectId pages leads access user id
     = Ok (mkReply 200 true None None (Some (populate pages lead)))
     /\ forall body st,
          castStatus (body !! "status") = Ok st ->
          exists leads',
            updateStatus isValidObjectId castStatus pages leads access user
              id [] body
            = Ok (mkReply 200 true (Some "Lead status updated successfully")
                    None (Some (populate pages (LeadDoc.set_status st lead))),
                  leads'))
  /\ (LeadDoc.landingPage lead ∉ SpecMore.scope_of access user ->
       getLead isValidObjectId pages leads access user id
       = Ok (failure 403 "Not authorized to access this lead")
       /\ forall body,
            updateStatus isValidObjectId castStatus pages leads access user
              id [] body
            = Ok (failure 403 "Not authorized to update this lead", leads)).
Proof.
  intros Hrole Hid Hlead Hpage. split; intros Hs.
  - split.
    + unfold getLead. rewrite (check_access_granted _ _ _ _ _ _ _ lead)
        by done.
      rewrite !bool_decide_eq_true_2 by done.
      unfold cast_id. rewrite Hid. unfold_monad. by rewrite Hlead.
    + intros body st Hst. unfold updateStatus. simpl.
      rewrite (check_access_granted _ _ _ _ _ _ _ lead) by done.
      rewrite !bool_decide_eq_true_2 by done.
      unfold cast_id. rewrite Hid. unfold_monad. rewrite Hst.
      assert (exists leads',
        LeadDoc.findByIdAndUpdate id (LeadDoc.set_status st) leads
        = Some (LeadDoc.set_status st lead, leads')) as [leads' ->];
        [|by eexists].
      clear -Hlead. unfold LeadDoc.findById in Hlead.
      induction leads as [|d leads IH]; simpl in *; [done|].
      destruct (String.eqb (LeadDoc._id d) id); simplify_eq; [by eexists|].
      destruct (IH Hlead) as [leads' ->]. by eexists.
  - split.
    + unfold getLead. rewrite (check_access_granted _ _ _ _ _ _ _ lead)
        by done.
      rewrite bool_decide_eq_true_2 by done.
      by rewrite bool_decide_eq_false_2 by done.
    + intros body. unfold updateStatus. simpl.
      rewrite (check_access_granted _ _ _ _ _ _ _ lead) by done.
      rewrite bool_decide_eq_true_2 by done.
      by rewrite bool_decide_eq_false_2 by done.
Qed.

Lemma findByIdAndUpdate_Some id f leads d leads' :
  LeadDoc.findByIdAndUpdate id f leads = Some (d, leads') ->
  exists before old after,
    leads = before ++ old :: after
    /\ leads' = before ++ f old :: after
    /\ d = f old /\ LeadDoc._id old = id
    /\ LeadDoc.findById id leads = Some old.
Proof.
  unfold LeadDoc.findById.
  revert leads'. induction leads as [|x leads IH]; simpl; intros leads' H;
    [done|].
  destruct (String.eqb_spec (LeadDoc._id x) id) as [E|E].
  - simplify_eq. by eexists [], _, _.
  - destruct (LeadDoc.findByIdAndUpdate id f leads) as [[d' rest']|];
      [|done].
    simplify_eq. destruct (IH _ eq_refl)
      as (before & old & after & -> & -> & -> & Hid & Hfind).
    by exists (x :: before), old, after.
Qed.

Lemma findByIdAndUpdate_None id f leads :
  LeadDoc.findByIdAndUpdate id f leads = None ->
  LeadDoc.findById id leads = None.
Proof.
  unfold LeadDoc.findById.
  induction leads as [|x leads IH]; simpl; [done|].
  destruct (String.eqb (LeadDoc._id x) id); [done|].
  destruct (LeadDoc.findByIdAndUpdate id f leads) as [[? ?]|]; [done|].
  intros _. by apply IH.
Qed.

(** X8.  A status update either fails and leaves every lead as it was, or
    succeeds and replaces one document, the one with the id, by a copy
    that differs in its status only: no lead is added or removed and no
    other lead changes. *)
Theorem updateStatus_changes_one_status pages leads access user id errors
    body reply leads' :
  updateStatus isValidObjectId castStatus pages leads access user id errors
    body = Ok (reply, leads') ->
  (success reply = false /\ leads' = leads)
  \/ (exists st before old after,
        success reply = true /\ status reply = 200%nat
        /\ errors = []
        /\ castStatus (body !! "status") = Ok st
        /\ leads = before ++ old :: after
        /\ leads' = before ++ LeadDoc.set_status st old :: after
        /\ LeadDoc._id old = id
        /\ LeadDoc.findById id leads = Some old
        /\ data reply = Some (populate pages (LeadDoc.set_status st old))).
Proof.
  unfold updateStatus. unfold_monad.
  destruct errors as [|e errors]; simpl; [|intros [= <- <-]; by left].
  destruct (check_access _ _ _ _ _ _ _ _) as [[]|r|] eqn:Ec; simpl;
    [| |done].
  2:{ intros [= ->]. left. unfold check_access in Ec. unfold_monad.
      repeat (case_match; simplify_eq; simpl in *; try done). }
  destruct (cast_id _ _) as [oid|] eqn:Eid; simpl; [|done].
  assert (oid = id) as ->.
  { unfold cast_id in Eid. by destruct (isValidObjectId id); simplify_eq. }
  destruct (castStatus _) as [st|] eqn:Est; simpl; [|done].
  destruct (LeadDoc.findByIdAndUpdate _ _ _) as [[d rest]|] eqn:Eu; simpl.
  - intros [= <- <-]. right.
    destruct (findByIdAndUpdate_Some _ _ _ _ _ Eu)
      as (before & old & after & -> & -> & -> & Hid & Hfind).
    exists st, before, old, after. by split_and!.
  - intros [= <- <-]. by left.
Qed.

Lemma findByIdAndDelete_Some id leads d leads' :
  LeadDoc.findByIdAndDelete id leads = Some (d, leads') ->
  exists before after,
    leads = before ++ d :: after /\ leads' = before ++ after
    /\ LeadDoc._id d = id
    /\ Forall (fun x => LeadDoc._id x <> id) before.
Proof.
  revert leads'. induction leads as [|x leads IH]; simpl; intros leads' H;
    [done|].
  destruct (String.eqb_spec (LeadDoc._id x) id) as [E|E].
  - simplify_eq. by eexists [], _.
  - destruct (LeadDoc.findByIdAndDelete id leads) as [[d' rest']|]; [|done].
    simplify_eq. destruct (IH _ eq_refl) as (before & after & -> & -> & Hid & Hb).
    exists (x :: before), after. split_and!; try done. by constructor.
Qed.

Lemma findByIdAndDelete_None id leads :
  LeadDoc.findByIdAndDelete id leads = None <->
  Forall (fun x => LeadDoc._id x <> id) leads.
Proof.
  induction leads as [|x leads IH]; simpl; [done|].
  destruct (String.eqb_spec (LeadDoc._id x) id) as [E|E].
  - split; [done|]. by intros [? _]%Forall_cons.
  - destruct (LeadDoc.findByIdAndDelete id leads) as [[? ?]|].
    + split; [done|]. intros [_ H]%Forall_cons. by apply IH in H.
    + split; [|done]. intros _. constructor; [done|]. by apply IH.
Qed.

Lemma lead_findById_None id leads :
  Forall (fun x => LeadDoc._id x <> id) leads ->
  LeadDoc.findById id leads = None.
Proof.
  unfold LeadDoc.findById. induction 1 as [|x l Hx _ IH]; simpl; [done|].
  apply String.eqb_neq in Hx. by rewrite Hx.
Qed.

(** X9.  Deleting a lead removes the one document with the id and nothing
    else; with distinct ids the lead is gone afterwards, so that deleting
    it again answers 404 "Lead not found" and changes nothing. *)
Theorem deleteLead_removes_one leads id reply leads' :
  NoDup (List.map LeadDoc._id leads) ->
  deleteLead isValidObjectId leads id = Ok (reply, leads') ->
  (reply = failure 404 "Lead not found" /\ leads' = leads
   /\ LeadDoc.findById id leads = None)
  \/ (exists before d after,
        status reply = 200%nat /\ success reply = true
        /\ leads = before ++ d :: after /\ leads' = before ++ after
        /\ LeadDoc._id d = id
        /\ LeadDoc.findById id leads' = None
        /\ deleteLead isValidObjectId leads' id
           = Ok (failure 404 "Lead not found", leads')).
Proof.
  intros Hnd. unfold deleteLead, cast_id. unfold_monad.
  destruct (isValidObjectId id); simpl; [|done].
  destruct (LeadDoc.findByIdAndDelete id leads) as [[d rest]|] eqn:Ed; simpl.
  - intros [= <- <-]. right.
    destruct (findByIdAndDelete_Some _ _ _ _ Ed)
      as (before & after & -> & -> & Hid & Hb).
    assert (Forall (fun x => LeadDoc._id x <> id) (before ++ after)) as Hall.
    { apply Forall_app. split; [done|].
      rewrite List.map_app in Hnd. simpl in Hnd.
      apply NoDup_app in Hnd as (_ & _ & Hnd).
      apply NoDup_cons in Hnd as [Hnd _].
      apply Forall_forall. intros x Hx E. apply Hnd. rewrite Hid, <- E.
      apply list_elem_of_In, in_map. by apply list_elem_of_In. }
    exists before, d, after. split_and!; try done.
    + by apply lead_findById_None.
    + apply findByIdAndDelete_None in Hall. by rewrite Hall.
  - intros [= <- <-]. left. split_and!; try done.
    by apply lead_findById_None, findByIdAndDelete_None.
Qed.

(** Under the unique index, a pair has one record. *)
Lemma unique_pair access a b :
  NoDup (List.map Spec.pair_of access) ->
  a ∈ access -> b ∈ access -> Spec.pair_of b = Spec.pair_of a -> b = a.
Proof.
  intros Hnd Ha Hb E.
  destruct (unique_pair_found (AdminAccess.subAdmin a)
              (AdminAccess.landingPage a) access a Hnd Ha eq_refl) as [Fa _].
  destruct (unique_pair_found (AdminAccess.subAdmin a)
              (AdminAccess.landingPage a) access b Hnd Hb E) as [Fb _].
  congruence.
Qed.

(** X10.  Revocation takes effect on the single-lead routes at once: a
    sub-admin who could read a lead through an active access record is
    answered 403 for it after that record was revoked. *)
Theorem revoke_then_lead_refused pages leads access user id lead a me now :
  Spec.well_formed access ->
  a ∈ access ->
  AdminAccess.status a = AdminAccess.active ->
  AdminAccess.subAdmin a = User._id user ->
  User.role user = User.sub_admin ->
  isValidObjectId id = true ->
  LeadDoc.findById id leads = Some lead ->
  LeadDoc.landingPage lead = AdminAccess.landingPage a ->
  is_Some (LandingPage.findById (LeadDoc.landingPage lead) pages) ->
  exists access',
    AdminRoutes.revokeAccess access me now (AdminAccess._id a)
    = Ok (mkReply 200 true (Some "Access revoked successfully") None
            (Some (AdminRoutes.revoke me now a)), access')
    /\ getLead isValidObjectId pages leads access user id
       = Ok (mkReply 200 true None None (Some (populate pages lead)))
    /\ getLead isValidObjectId pages leads access' user id
       = Ok (failure 403 "Not authorized to access this lead").
Proof.
  intros [Hids Hpairs] Hin Hact Hsub Hrole Hid Hlead Hpg Hpage.
  exists (AdminAccess.save (AdminRoutes.revoke me now a) access).
  split_and!.
  - unfold AdminRoutes.revokeAccess. unfold_monad.
    rewrite findById_found by done.
    rewrite bool_decide_eq_false_2 by (by rewrite Hact). reflexivity.
  - rewrite (getLead_sub_admin _ _ _ _ _ lead) by done.
    rewrite bool_decide_eq_true_2; [done|].
    unfold SpecMore.scope_of, AdminAccess.find_active. rewrite Hpg.
    apply list_elem_of_In, in_map, filter_In.
    split; [by apply list_elem_of_In|].
    by rewrite !bool_decide_eq_true_2.
  - rewrite (getLead_sub_admin _ _ _ _ _ lead) by done.
    rewrite bool_decide_eq_false_2; [done|].
    unfold SpecMore.scope_of.
    rewrite find_active_save_revoked
      by (intros b Hb E; by apply (unique_id_in_coll access)).
    intros (b & Hb & [Hbin%filter_In Hne]%filter_In)%list_elem_of_In%in_map_iff.
    destruct Hbin as [Hbin Hb2%andb_true_iff].
    destruct Hb2 as [Hbs%bool_decide_eq_true _].
    assert (b = a) as ->.
    { apply (unique_pair access); [done|done|by apply list_elem_of_In|].
      unfold Spec.pair_of. congruence. }
    by rewrite Nat.eqb_refl in Hne.
Qed.

(** With every lead on an existing page, the read of a lead does not
    throw. *)
Lemma getLead_no_throw pages leads access user id :
  LeadSpec.refs_ok leads pages ->
  isValidObjectId id = true ->
  exists r, getLead isValidObjectId pages leads access user id = Ok r.
Proof.
  intros Hrefs Hid. unfold getLead, check_access, cast_id, populate.
  rewrite Hid. unfold_monad.
  destruct (LeadDoc.findById id leads) as [lead|] eqn:Hlead.
  - apply lead_findById_id in Hlead as [_ Hin].
    unfold LeadSpec.refs_ok in Hrefs. rewrite Forall_forall in Hrefs.
    destruct (Hrefs _ Hin) as [p Hp].
    case_bool_decide; simpl; [|by eexists].
    rewrite Hp. destruct (hasAccess _ _ _); simpl; by eexists.
  - case_bool_decide; simpl; by eexists.
Qed.

End LeadItemFacts.

(* ===================================================================== *)
(** * 17. Further properties: deleting pages and sub-admins, and what
      ingestion stores                                                    *)
(* ===================================================================== *)

Section DeleteFacts.
Import Js DeleteRoutes.

Variable isValidObjectId : string -> bool.

Lemma page_delete_other id other pages :
  other <> id ->
  LandingPage.findById other (findByIdAndDelete id pages)
  = LandingPage.findById other pages.
Proof.
  intros Hne. unfold LandingPage.findById.
  induction pages as [|p pages IH]; simpl; [done|].
  destruct (String.eqb_spec (LandingPage._id p) id) as [E|E]; simpl.
  - destruct (String.eqb_spec (LandingPage._id p) other); [congruence|done].
  - by rewrite IH.
Qed.

Lemma page_delete_length id pages p :
  LandingPage.findById id pages = Some p ->
  length pages = S (length (findByIdAndDelete id pages)).
Proof.
  unfold LandingPage.findById.
  induction pages as [|x pages IH]; simpl; [done|].
  destruct (String.eqb (LandingPage._id x) id); simpl; [done|].
  intros H. by rewrite (IH H).
Qed.

Lemma countDocuments_page_0 id leads :
  LeadDoc.countDocuments_page id leads = 0%nat ->
  Forall (fun d => LeadDoc.landingPage d <> id) leads.
Proof.
  unfold LeadDoc.countDocuments_page.
  induction leads as [|d leads IH]; simpl; [done|].
  destruct (String.eqb_spec (LeadDoc.landingPage d) id); simpl; [done|].
  intros H. constructor; [done|]. by apply IH.
Qed.

(** X11.  A landing page that a lead refers to is never deleted: the delete
    routes answer 400 with the number of leads and change nothing.  So
    deleting pages keeps every lead on an existing page, and the read of
    a lead cannot fail on a page that is gone. *)
Theorem deleteLandingPage_keeps_leads_readable pages leads id reply pages' :
  LeadSpec.refs_ok leads pages ->
  deleteLandingPage isValidObjectId pages leads id = Ok (reply, pages') ->
  LeadSpec.refs_ok leads pages'
  /\ (success reply = false -> pages' = pages)
  /\ (success reply = true ->
        LeadDoc.countDocuments_page id leads = 0%nat
        /\ length pages = S (length pages'))
  /\ (0 < LeadDoc.countDocuments_page id leads ->
        reply = failure 400
                  ("Cannot delete landing page. There are "
                   +:+ pretty (LeadDoc.countDocuments_page id leads)
                   +:+ " leads associated with it."))%nat
  /\ forall access user lid,
       isValidObjectId lid = true ->
       exists r,
         LeadItem.getLead isValidObjectId pages' leads access user lid = Ok r.
Proof.
  intros Hrefs. unfold deleteLandingPage, cast_id. unfold_monad.
  destruct (isValidObjectId id); simpl; [|done].
  assert (forall pages0, LeadSpec.refs_ok leads pages0 ->
    forall access user lid, isValidObjectId lid = true ->
    exists r, LeadItem.getLead isValidObjectId pages0 leads access user lid
              = Ok r) as Hread
    by (intros; by apply getLead_no_throw).
  destruct (LandingPage.findById id pages) as [p|] eqn:Hp; simpl.
  - destruct (Nat.ltb_spec 0 (LeadDoc.countDocuments_page id leads)) as [Hc|Hc];
      simpl; intros [= <- <-].
    + split_and!; try done. by apply Hread.
    + assert (LeadDoc.countDocuments_page id leads = 0%nat) as H0 by lia.
      assert (LeadSpec.refs_ok leads (findByIdAndDelete id pages)) as Hrefs'.
      { unfold LeadSpec.refs_ok in *. apply countDocuments_page_0 in H0.
        rewrite Forall_forall in *. intros d Hd.
        rewrite page_delete_other by (by apply H0). by apply Hrefs. }
      split_and!; try done.
      * intros _. split; [done|]. by eapply page_delete_length.
      * lia.
      * by apply Hread.
  - intros [= <- <-]. split_and!; try done.
    + intros Hc. exfalso.
      unfold LeadSpec.refs_ok in Hrefs. rewrite Forall_forall in Hrefs.
      unfold LeadDoc.countDocuments_page in Hc.
      destruct (List.filter _ leads) as [|d l] eqn:Ef; simpl in Hc; [lia|].
      assert (In d (List.filter
                      (fun d => String.eqb (LeadDoc.landingPage d) id) leads))
        as [Hd Hd2]%filter_In by (rewrite Ef; by left).
      apply String.eqb_eq in Hd2. apply list_elem_of_In in Hd.
      destruct (Hrefs _ Hd) as [p' Hp']. congruence.
    + by apply Hread.
Qed.

Lemma deleteUser_other id other users :
  other <> id ->
  User.findById other (deleteUser id users) = User.findById other users.
Proof.
  intros Hne. unfold User.findById.
  induction users as [|u users IH]; simpl; [done|].
  destruct (String.eqb_spec (User._id u) id) as [E|E]; simpl.
  - destruct (String.eqb_spec (User._id u) other); [congruence|done].
  - by rewrite IH.
Qed.

Lemma countDocuments_in_0 ps leads :
  LeadDoc.countDocuments_in ps leads = 0%nat <->
  forall d p, d ∈ leads -> p ∈ ps -> LeadDoc.landingPage d <> p.
Proof.
  unfold LeadDoc.countDocuments_in.
  induction leads as [|d leads IH]; simpl.
  - split; [|done]. by intros _ d p ?%elem_of_nil.
  - destruct (existsb (String.eqb (LeadDoc.landingPage d)) ps) eqn:Ex; simpl.
    + split; [done|]. intros H. exfalso.
      apply existsb_exists in Ex as (p & Hp & E%String.eqb_eq).
      apply (H d p); [apply list_elem_of_here|by apply list_elem_of_In|done].
    + rewrite IH. split.
      * intros H d' p [->|Hd]%elem_of_cons Hp; [|by apply H].
        intros E. assert (existsb (String.eqb (LeadDoc.landingPage d)) ps = true)
          as Ht; [|congruence].
        apply existsb_exists. exists p. split; [by apply list_elem_of_In|].
        by apply String.eqb_eq.
      * intros H d' p Hd Hp. apply H; [by apply list_elem_of_further|done].
Qed.

(** X12.  Deleting a sub-admin is refused (400, nothing changes) as long as a
    lead exists on a page of any of their access records, revoked ones
    included.  When it succeeds it deletes the user and every access
    record of that sub-admin, and no record of anybody else; the
    collection keeps its one-record-per-pair shape. *)
Theorem deleteSubAdmin_removes_access users access leads id reply users'
    access' :
  Spec.well_formed access ->
  deleteSubAdmin isValidObjectId users access leads id
  = Ok (reply, users', access') ->
  (success reply = false /\ users' = users /\ access' = access)
  \/ (success reply = true /\ status reply = 200%nat
      /\ (forall a, a ∈ access' <-> a ∈ access /\ AdminAccess.subAdmin a <> id)
      /\ Spec.well_formed access'
      /\ (forall a d, a ∈ access -> AdminAccess.subAdmin a = id ->
                      d ∈ leads ->
                      LeadDoc.landingPage d <> AdminAccess.landingPage a)
      /\ (forall other, other <> id ->
            User.findById other users' = User.findById other users)
      /\ length users = S (length users')).
Proof.
  intros [Hids Hpairs]. unfold deleteSubAdmin, cast_id. unfold_monad.
  destruct (isValidObjectId id); simpl; [|done].
  destruct (User.findById id users) as [u|] eqn:Hu; simpl;
    [|intros [= <- <- <-]; by left].
  case_bool_decide as Hrole; simpl; [intros [= <- <- <-]; by left|].
  destruct (Nat.ltb_spec 0
              (LeadDoc.countDocuments_in (distinct_pages id access) leads))
    as [Hc|Hc]; simpl; intros [= <- <- <-]; [by left|].
  right. assert (LeadDoc.countDocuments_in (distinct_pages id access) leads
                 = 0%nat) as H0 by lia.
  assert (forall a, a ∈ deleteMany id access
                    <-> a ∈ access /\ AdminAccess.subAdmin a <> id) as Hmem.
  { intros a. unfold deleteMany.
    rewrite !list_elem_of_In, filter_In, negb_true_iff,
      bool_decide_eq_false. done. }
  split_and!; try done.
  - unfold deleteMany. split.
    + clear -Hids. induction access as [|a access IH]; simpl; [constructor|].
      simpl in Hids. apply NoDup_cons in Hids as [Ha Hids].
      destruct (negb _); simpl; [|by apply IH].
      apply NoDup_cons. split; [|by apply IH].
      intros (b & Eb & [Hb _]%filter_In)%list_elem_of_In%in_map_iff.
      apply Ha. rewrite <- Eb. by apply list_elem_of_In, in_map.
    + clear -Hpairs. induction access as [|a access IH]; simpl; [constructor|].
      simpl in Hpairs. apply NoDup_cons in Hpairs as [Ha Hpairs].
      destruct (negb _); simpl; [|by apply IH].
      apply NoDup_cons. split; [|by apply IH].
      intros (b & Eb & [Hb _]%filter_In)%list_elem_of_In%in_map_iff.
      apply Ha. rewrite <- Eb. by apply list_elem_of_In, in_map.
  - intros a d Ha Hs Hd. apply (proj1 (countDocuments_in_0 _ _) H0); [done|].
    unfold distinct_pages. apply elem_of_remove_dups.
    apply list_elem_of_In, in_map, filter_In.
    split; [by apply list_elem_of_In|]. by apply bool_decide_eq_true.
  - intros other Hne. by apply deleteUser_other.
  - clear -Hu. unfold User.findById in Hu.
    induction users as [|x users IH]; simpl in *; [done|].
    destruct (String.eqb (User._id x) id); simpl; [done|].
    by rewrite (IH Hu).
Qed.

End DeleteFacts.

Section IngestionMore.
Import Js LeadRoutes.

(** X13.  A lead that ingestion creates refers to the landing page the request
    named, which exists and is active at that time; it starts with status
    new and source landing_page and records the request's address and
    user agent.  Adding it to leads that all refer to existing pages keeps
    that so. *)
Theorem ingested_lead_refers_to_active_page pages pid req reply lead :
  createLead (LandingPage.findById pid pages) req = Ok reply ->
  data reply = Some lead ->
  (exists page,
     LandingPage.findById pid pages = Some page
     /\ LandingPage.is_active page = true)
  /\ Lead.landingPage lead = pid
  /\ Lead.status lead = Lead.new
  /\ Lead.source lead = "landing_page"
  /\ Lead.ipAddress lead = ip req
  /\ Lead.userAgent lead = userAgent req
  /\ forall leads newId,
       LeadSpec.refs_ok leads pages ->
       LeadSpec.refs_ok (leads ++ [LeadDoc.mk newId lead]) pages.
Proof.
  intros H Hdata.
  destruct (LandingPage.findById pid pages) as [page|] eqn:Hp;
    [|by destruct (createLead_created _ _ _ _ H Hdata) as (? & ? & ? & _)].
  destruct (created_lead_inv _ _ _ _ H Hdata)
    as (leadData & leadData0 & Hact & Hfix & _ & _ & Hc).
  destruct Hfix as (Hlp & Hip & Hua & _).
  assert (LandingPage._id page = pid) as Hid
    by (apply find_some in Hp as [_ E]; by apply String.eqb_eq in E).
  assert (Lead.landingPage lead = pid
          /\ Lead.status lead = Lead.new
          /\ Lead.source lead = "landing_page"
          /\ Lead.ipAddress lead = ip req
          /\ Lead.userAgent lead = userAgent req) as (H1 & H2 & H3 & H4 & H5).
  { unfold Lead.create in Hc. unfold_monad.
    repeat (case_match; simplify_eq; simpl in *; try done). }
  split_and!; try done; [by exists page|].
  intros leads newId Hrefs. unfold LeadSpec.refs_ok.
  apply Forall_app. split; [done|]. constructor; [|constructor].
  unfold LeadDoc.landingPage. simpl. rewrite H1, Hp. by eexists.
Qed.

End IngestionMore.

(* ===================================================================== *)
(** * 18. Further properties: the lead statistics                         *)
(* ===================================================================== *)

Section StatsFacts.
Import Js LeadStats LeadSpec.

Variable aggregate : MatchQuery -> Res (list Stat).

Lemma status_key_total st : status_key st <> "totalLeads".
Proof. by destruct st. Qed.

Lemma status_key_inj st st' : status_key st = status_key st' -> st = st'.
Proof. by destruct st, st'. Qed.

Lemma status_name_eqb st st' :
  String.eqb (status_name st') (status_name st) = bool_decide (st' = st).
Proof. by destruct st, st'. Qed.

Lemma find_group_None st stat (rest : list Stat) :
  _id stat = VStr (status_name st) ->
  _id stat ∉ List.map _id rest ->
  List.find (fun s => id_is (status_name st) (_id s)) rest = None.
Proof.
  intros Hid Hnot. induction rest as [|s rest IH]; simpl; [done|].
  destruct (id_is (status_name st) (_id s)) eqn:E.
  - exfalso. apply Hnot. simpl. apply elem_of_cons. left.
    destruct (_id s); simpl in E; try done.
    apply String.eqb_eq in E. by rewrite Hid, E.
  - apply IH. intros H. apply Hnot. simpl. apply elem_of_cons. by right.
Qed.

(** The loop over the groups, from any starting object. *)
Lemma forEach_groups stats acc t :
  acc !! "totalLeads" = Some t ->
  Forall (fun s => group_id_ok (_id s)) stats ->
  NoDup (List.map _id stats) ->
  exists r,
    forEach stats acc = Ok r
    /\ r !! "totalLeads" = Some (t + total_count stats)%Z
    /\ forall st,
         r !! status_key st
         = match List.find (fun s => id_is (status_name st) (_id s)) stats with
           | Some s => Some (count s)
           | None => acc !! status_key st
           end.
Proof.
  intros Hacc Hok. revert acc t Hacc.
  induction Hok as [|stat rest Hid _ IH]; intros acc t Hacc Hnd; simpl.
  - exists acc. split_and!; [done| |done]. rewrite Hacc. f_equal. lia.
  - apply NoDup_cons in Hnd as [Hnot Hnd].
    pose proof (fun st H => find_group_None st stat rest H Hnot) as Hnone.
    unfold tally. unfold_monad.
    rewrite (lookup_total_correct _ _ _ Hacc).
    destruct Hid as [Hid|[st0 Hid]]; rewrite Hid.
    + simpl. destruct (IH (<["totalLeads" := (t + count stat)%Z]> acc)
                          (t + count stat)%Z) as (r & Hr & Ht & Hk);
        [apply lookup_insert_eq|done|].
      exists r. split_and!; [done| |].
      * rewrite Ht. f_equal. lia.
      * intros st. rewrite Hk.
        destruct (List.find _ rest); [done|].
        rewrite lookup_insert_ne; [done|].
        intros E. by apply (status_key_total st).
    + assert (truthy (Some (VStr (status_name st0))) = true) as ->
        by by destruct st0.
      simpl.
      destruct (IH (<[status_name st0 +:+ "Leads" := count stat]>
                    (<["totalLeads" := (t + count stat)%Z]> acc))
                   (t + count stat)%Z) as (r & Hr & Ht & Hk); [|done|].
      { rewrite lookup_insert_ne by apply status_key_total.
        apply lookup_insert_eq. }
      exists r. split_and!; [done| |].
      * rewrite Ht. f_equal. lia.
      * intros st. rewrite Hk, status_name_eqb.
        case_bool_decide as E.
        -- subst st0. rewrite (Hnone st Hid). apply lookup_insert_eq.
        -- destruct (List.find _ rest); [done|].
           rewrite lookup_insert_ne
             by (intros E'; apply E; by apply status_key_inj).
           rewrite lookup_insert_ne; [done|].
           intros E'. by apply (status_key_total st).
Qed.

(** With distinct group ids, the groups' counts add up to the five
    buckets and the groups without a status. *)
Lemma total_count_buckets stats :
  Forall (fun s => group_id_ok (_id s)) stats ->
  NoDup (List.map _id stats) ->
  total_count stats
  = (bucket Lead.new stats + bucket Lead.contacted stats
     + bucket Lead.qualified stats + bucket Lead.converted stats
     + bucket Lead.lost stats + unlabelled stats)%Z.
Proof.
  intros Hok. induction Hok as [|stat rest Hid _ IH]; intros Hnd; [done|].
  apply NoDup_cons in Hnd as [Hnot Hnd]. specialize (IH Hnd).
  unfold bucket, unlabelled in *. simpl. destruct Hid as [Hid|[st0 Hid]].
  - rewrite Hid. simpl in *. lia.
  - pose proof (find_group_None st0 stat rest Hid Hnot) as Hnone.
    rewrite Hid. clear Hid Hnot Hnd.
    destruct st0; simpl in *; rewrite Hnone in IH; lia.
Qed.

(** X14.  When the groups have distinct ids that are status names (or null,
    for leads without a status), the statistics answer 200 with
    totalLeads the sum of all groups, each status counter the count of
    its group (0 without one), and totalLeads the sum of the five
    counters plus the leads without a status.  The aggregation is
    restricted to the sub-admin's granted pages, to nothing for other
    roles. *)
Theorem overview_counts_by_status access user query stats :
  (User.role user = User.sub_admin -> SpecMore.scope_of access user <> []) ->
  aggregate (match_query (stats_scope access user) query) = Ok stats ->
  Forall (fun s => group_id_ok (_id s)) stats ->
  NoDup (List.map _id stats) ->
  exists data,
    overview aggregate access user query
    = mkRun [match_query (stats_scope access user) query]
            (Ok (mkReply 200 true None None (Some data)))
    /\ data !! "totalLeads" = Some (total_count stats)
    /\ (forall st, data !! status_key st = Some (bucket st stats))
    /\ total_count stats
       = (bucket Lead.new stats + bucket Lead.contacted stats
          + bucket Lead.qualified stats + bucket Lead.converted stats
          + bucket Lead.lost stats + unlabelled stats)%Z.
Proof.
  intros Hscope Hagg Hok Hnd.
  destruct (forEach_groups stats zero 0%Z eq_refl Hok Hnd)
    as (r & Hr & Ht & Hk).
  exists r. split_and!.
  - unfold overview, stats_scope in *. case_bool_decide as Hrole.
    + specialize (Hscope Hrole). unfold SpecMore.scope_of in *.
      destruct (List.map _ _) eqn:E; [done|]. simpl.
      unfold run_stats. rewrite Hagg. unfold_monad. by rewrite Hr.
    + unfold run_stats. rewrite Hagg. unfold_monad. by rewrite Hr.
  - by rewrite Ht.
  - intros st. rewrite Hk. unfold bucket.
    destruct (List.find _ stats); [done|]. by destruct st.
  - by apply total_count_buckets.
Qed.

End StatsFacts.

(* ===================================================================== *)
(** * 19. Single leads, delete routes and statistics on the sample data   *)
(* ===================================================================== *)

Lemma lead_access_follows_scope_witness :
  LeadItem.getLead SampleLeads.isValidObjectId SampleLeads.pages
    SampleLeads.leads [Sample.active_access] Sample.sub_user SampleLeads.leadId
  = Js.Ok (mkReply 200 true None None
             (Some (LeadItem.populate SampleLeads.pages SampleLeads.lead1)))
  /\ LeadItem.updateStatus SampleLeads.isValidObjectId SampleLeads.castStatus
       SampleLeads.pages SampleLeads.leads [Sample.revoked_access]
       Sample.sub_user SampleLeads.leadId []
       (SampleLeads.status_body "contacted")
     = Js.Ok (failure 403 "Not authorized to update this lead",
              SampleLeads.leads).
Proof.
  split.
  - apply (lead_access_follows_scope SampleLeads.isValidObjectId
             SampleLeads.castStatus SampleLeads.pages SampleLeads.leads
             [Sample.active_access] Sample.sub_user SampleLeads.leadId
             SampleLeads.lead1);
      try (vm_compute; reflexivity).
    + vm_compute. by eexists.
    + vm_compute. apply list_elem_of_here.
  - apply (lead_access_follows_scope SampleLeads.isValidObjectId
             SampleLeads.castStatus SampleLeads.pages SampleLeads.leads
             [Sample.revoked_access] Sample.sub_user SampleLeads.leadId
             SampleLeads.lead1);
      try (vm_compute; reflexivity).
    + vm_compute. by eexists.
    + vm_compute. apply not_elem_of_nil.
Defined.

Lemma updateStatus_changes_one_status_witness :
  exists st before old after,
    SampleLeads.castStatus (SampleLeads.status_body "contacted" !! "status")
    = Js.Ok st
    /\ SampleLeads.leads = before ++ old :: after
    /\ [SampleLeads.lead1;
        LeadDoc.set_status Lead.contacted SampleLeads.lead2]
       = before ++ LeadDoc.set_status st old :: after
    /\ LeadDoc._id old = SampleLeads.lead2Id.
Proof.
  destruct (updateStatus_changes_one_status SampleLeads.isValidObjectId
              SampleLeads.castStatus SampleLeads.pages SampleLeads.leads
              [Sample.active_access] Sample.sub_user SampleLeads.lead2Id []
              (SampleLeads.status_body "contacted")
              (mkReply 200 true (Some "Lead status updated successfully") None
                 (Some (LeadItem.populate SampleLeads.pages
                          (LeadDoc.set_status Lead.contacted
                             SampleLeads.lead2))))
              [SampleLeads.lead1;
               LeadDoc.set_status Lead.contacted SampleLeads.lead2])
    as [[Hf _]|(st & before & old & after & _ & _ & _ & H1 & H2 & H3 & H4 & _)].
  - vm_compute. reflexivity.
  - discriminate Hf.
  - by exists st, before, old, after.
Defined.

Lemma deleteLead_removes_one_witness :
  LeadItem.deleteLead SampleLeads.isValidObjectId [SampleLeads.lead2]
    SampleLeads.leadId
  = Js.Ok (failure 404 "Lead not found", [SampleLeads.lead2])
  /\ LeadItem.deleteLead SampleLeads.isValidObjectId SampleLeads.leads
       SampleLeads.leadId
     = Js.Ok (mkReply 200 true (Some "Lead deleted successfully") None None,
              [SampleLeads.lead2]).
Proof.
  destruct (deleteLead_removes_one SampleLeads.isValidObjectId
              SampleLeads.leads SampleLeads.leadId
              (mkReply 200 true (Some "Lead deleted successfully") None None)
              [SampleLeads.lead2])
    as [(Hf & _)|(before & d & after & _ & _ & _ & _ & _ & _ & Hagain)].
  - apply (bool_decide_unpack _). vm_compute. reflexivity.
  - vm_compute. reflexivity.
  - discriminate Hf.
  - split; [exact Hagain|]. vm_compute. reflexivity.
Defined.

Lemma revoke_then_lead_refused_witness :
  exists access',
    AdminRoutes.revokeAccess [Sample.active_access] Sample.superAdminId 4000 1
    = Js.Ok (mkReply 200 true (Some "Access revoked successfully") None
               (Some (AdminRoutes.revoke Sample.superAdminId 4000
                        Sample.active_access)), access')
    /\ LeadItem.getLead SampleLeads.isValidObjectId SampleLeads.pages
         SampleLeads.leads [Sample.active_access] Sample.sub_user
         SampleLeads.leadId
       = Js.Ok (mkReply 200 true None None
                  (Some (LeadItem.populate SampleLeads.pages
                           SampleLeads.lead1)))
    /\ LeadItem.getLead SampleLeads.isValidObjectId SampleLeads.pages
         SampleLeads.leads access' Sample.sub_user SampleLeads.leadId
       = Js.Ok (failure 403 "Not authorized to access this lead").
Proof.
  apply (revoke_then_lead_refused SampleLeads.isValidObjectId
           SampleLeads.pages SampleLeads.leads [Sample.active_access]
           Sample.sub_user SampleLeads.leadId SampleLeads.lead1
           Sample.active_access Sample.superAdminId 4000);
    try (vm_compute; reflexivity).
  - split; apply (bool_decide_unpack _); vm_compute; reflexivity.
  - apply list_elem_of_here.
  - vm_compute. by eexists.
Defined.

Lemma deleteLandingPage_keeps_leads_readable_witness :
  LeadSpec.refs_ok SampleLeads.leads [Sample.pageX]
  /\ DeleteRoutes.deleteLandingPage SampleLeads.isValidObjectId
       SampleLeads.pages SampleLeads.leads Sample.pageId
     = Js.Ok (failure 400
                "Cannot delete landing page. There are 2 leads associated with it.",
              SampleLeads.pages).
Proof.
  split.
  - apply (deleteLandingPage_keeps_leads_readable SampleLeads.isValidObjectId
             SampleLeads.pages SampleLeads.leads SampleMore.other_page
             (mkReply 200 true (Some "Landing page deleted successfully")
                None None)
             [Sample.pageX]).
    + repeat constructor; vm_compute; by eexists.
    + vm_compute. reflexivity.
  - destruct (deleteLandingPage_keeps_leads_readable
                SampleLeads.isValidObjectId
                SampleLeads.pages SampleLeads.leads Sample.pageId
                (failure 400
                   "Cannot delete landing page. There are 2 leads associated with it.")
                SampleLeads.pages) as (_ & Hsame & _).
    + repeat constructor; vm_compute; by eexists.
    + vm_compute. reflexivity.
    + vm_compute. reflexivity.
Defined.

Lemma deleteSubAdmin_removes_access_witness :
  (forall a, a ∈ [] <->
             a ∈ [Sample.revoked_access]
             /\ AdminAccess.subAdmin a <> Sample.subAdminId)
  /\ length Sample.users = 2%nat.
Proof.
  destruct (deleteSubAdmin_removes_access SampleLeads.isValidObjectId
              Sample.users [Sample.revoked_access] [] Sample.subAdminId
              (mkReply 200 true (Some "Sub admin deleted successfully")
                 None None)
              [Sample.pending_user] [])
    as [(Hf & _)|(_ & _ & Hmem & _ & _ & _ & Hlen)].
  - split; apply (bool_decide_unpack _); vm_compute; reflexivity.
  - vm_compute. reflexivity.
  - discriminate Hf.
  - split; [exact Hmem|exact Hlen].
Defined.

Lemma ingested_lead_refers_to_active_page_witness :
  (exists page,
     LandingPage.findById Sample.pageId SampleLeads.pages = Some page
     /\ LandingPage.is_active page = true)
  /\ Lead.landingPage (Sample.lead_with (Some "555-0100") None
                         {[ "budget" := Js.VStr "10k_25k" ]})
     = Sample.pageId.
Proof.
  destruct (ingested_lead_refers_to_active_page SampleLeads.pages
              Sample.pageId Sample.req_phone
              (mkReply 201 true (Some "Lead created successfully") None
                 (Some (Sample.lead_with (Some "555-0100") None
                          {[ "budget" := Js.VStr "10k_25k" ]}))))
    with (lead := Sample.lead_with (Some "555-0100") None
                    {[ "budget" := Js.VStr "10k_25k" ]})
    as (Hpage & Hlp & _).
  - vm_compute. reflexivity.
  - reflexivity.
  - split; [exact Hpage|exact Hlp].
Defined.

Lemma overview_counts_by_status_witness :
  exists data,
    LeadStats.overview SampleLeads.aggregate23 [Sample.active_access]
      Sample.sub_user Sample.query_all_filters
    = LeadStats.mkRun
        [LeadStats.match_query
           (LeadSpec.stats_scope [Sample.active_access] Sample.sub_user)
           Sample.query_all_filters]
        (Js.Ok (mkReply 200 true None None (Some data)))
    /\ data !! "totalLeads" = Some 23%Z
    /\ data !! "newLeads" = Some 12%Z
    /\ data !! "qualifiedLeads" = Some 0%Z.
Proof.
  destruct (overview_counts_by_status SampleLeads.aggregate23
              [Sample.active_access] Sample.sub_user Sample.query_all_filters
              SampleLeads.stats23)
    as (data & Hrun & Htotal & Hkey & _).
  - intros _. vm_compute. discriminate.
  - reflexivity.
  - apply Forall_cons; split; [right; by exists Lead.contacted|].
    apply Forall_cons; split; [by left|].
    apply Forall_cons; split; [right; by exists Lead.new|].
    apply Forall_cons; split; [right; by exists Lead.lost|].
    constructor.
  - simpl.
    repeat (apply NoDup_cons; split;
            [intros H;
             repeat (apply elem_of_cons in H as [H|H]; [discriminate H|]);
             by apply elem_of_nil in H|]).
    apply NoDup_nil_2.
  - exists data. split_and!; [exact Hrun|exact Htotal|..].
    + exact (Hkey Lead.new).
    + exact (Hkey Lead.qualified).
Defined.

(* ===================================================================== *)
(** * 20. Further properties: requests for access                         *)
(* ===================================================================== *)

Section RequestFacts.
Import Js AccessRequestRoutes RequestSpec.

Implicit Types (requests : list AccessRequest.t) (r : AccessRequest.t)
  (access : list AdminAccess.t).

Lemma count_open_map (f : AccessRequest.t -> AccessRequest.t) s p requests :
  (forall x, x ∈ requests ->
             AccessRequest.is_open s p (f x) = true ->
             AccessRequest.is_open s p x = true) ->
  (count_open s p (List.map f requests) <= count_open s p requests)%nat.
Proof.
  unfold count_open.
  induction requests as [|x requests IH]; simpl; intros Hf; [done|].
  assert (length (List.filter (AccessRequest.is_open s p)
                    (List.map f requests))
          <= length (List.filter (AccessRequest.is_open s p) requests))%nat
    as IH' by (apply IH; intros y Hy; apply Hf; by apply list_elem_of_further).
  destruct (AccessRequest.is_open s p (f x)) eqn:E.
  - rewrite (Hf x (list_elem_of_here _ _) E). simpl. lia.
  - destruct (AccessRequest.is_open s p x); simpl; lia.
Qed.

Lemma count_open_delete s p id requests :
  (count_open s p (AccessRequest.findByIdAndDelete id requests)
   <= count_open s p requests)%nat.
Proof.
  unfold count_open.
  induction requests as [|x requests IH]; simpl; [done|].
  destruct (Nat.eqb (AccessRequest._id x) id); simpl.
  - destruct (AccessRequest.is_open s p x); simpl; lia.
  - destruct (AccessRequest.is_open s p x); simpl; lia.
Qed.

Lemma findOne_open_None s p requests :
  AccessRequest.findOne_open s p requests = None ->
  count_open s p requests = 0%nat.
Proof.
  unfold AccessRequest.findOne_open, count_open.
  induction requests as [|x requests IH]; simpl; [done|].
  destruct (AccessRequest.is_open s p x); [done|]. exact IH.
Qed.

Lemma is_open_pair s p r :
  AccessRequest.is_open s p r = true ->
  AccessRequest.subAdmin r = s /\ AccessRequest.landingPage r = p.
Proof.
  unfold AccessRequest.is_open. rewrite !andb_true_iff, !bool_decide_eq_true.
  by intros [[? ?] _].
Qed.

Lemma request_findById_Some id requests r :
  AccessRequest.findById id requests = Some r ->
  r ∈ requests /\ AccessRequest._id r = id.
Proof.
  intros [Hin E]%find_some. split; [by apply list_elem_of_In|].
  by apply Nat.eqb_eq in E.
Qed.

Lemma request_unique_id requests r x :
  NoDup (List.map AccessRequest._id requests) ->
  r ∈ requests -> x ∈ requests ->
  AccessRequest._id x = AccessRequest._id r -> x = r.
Proof.
  intros Hnd Hr Hx E.
  apply list_elem_of_lookup in Hr as [i Hi].
  apply list_elem_of_lookup in Hx as [j Hj].
  assert (j = i) as ->; [|congruence].
  eapply NoDup_lookup; [exact Hnd|..].
  - rewrite list_lookup_fmap, Hj. done.
  - rewrite list_lookup_fmap, Hi. simpl. congruence.
Qed.

Lemma request_save_ids r' requests :
  List.map AccessRequest._id (AccessRequest.save r' requests)
  = List.map AccessRequest._id requests.
Proof.
  unfold AccessRequest.save. rewrite List.map_map. apply List.map_ext.
  intros x.
  destruct (Nat.eqb_spec (AccessRequest._id x) (AccessRequest._id r')); done.
Qed.

Lemma save_keeps_one_open requests r r' :
  one_open requests ->
  (forall s p, AccessRequest.is_open s p r' = true ->
               AccessRequest.is_open s p r = true) ->
  AccessRequest._id r' = AccessRequest._id r ->
  r ∈ requests ->
  one_open (AccessRequest.save r' requests).
Proof.
  intros [Hnd Hone] Hopen Hid Hin. split.
  - by rewrite request_save_ids.
  - intros s p. unfold AccessRequest.save.
    etransitivity; [apply count_open_map|apply Hone].
    intros x Hx.
    destruct (Nat.eqb_spec (AccessRequest._id x) (AccessRequest._id r'))
      as [E|E]; [|done].
    intros Hr'. apply Hopen in Hr'.
    assert (x = r) as -> by (apply (request_unique_id requests); congruence).
    done.
Qed.

Lemma request_fresh_id_new requests :
  AccessRequest.fresh_id requests ∉ List.map AccessRequest._id requests.
Proof.
  unfold AccessRequest.fresh_id. intros Hin%list_elem_of_In.
  pose proof (proj1 (List.Forall_forall _ _)
                (proj1 (list_max_le _ _) (le_n _)) _ Hin) as Hle.
  simpl in Hle. lia.
Qed.

Lemma delete_ids_sublist id requests :
  sublist (List.map AccessRequest._id
             (AccessRequest.findByIdAndDelete id requests))
          (List.map AccessRequest._id requests).
Proof.
  induction requests as [|x requests IH]; simpl; [done|].
  destruct (Nat.eqb (AccessRequest._id x) id); simpl.
  - by apply sublist_cons.
  - by apply sublist_skip.
Qed.

(** X15.  Every route keeps the requests in shape: distinct ids, and at most
    one pending or approved request per sub-admin and page.  For the
    approve route this holds also when it throws. *)
Theorem request_routes_keep_one_open pages requests access user me now id
    errors body message reason :
  one_open requests ->
  (forall reply requests',
     createRequest pages requests user errors body message
     = Ok (reply, requests') -> one_open requests')
  /\ one_open (AccessRequestRoutes.requests
                 (approveRequest pages requests access me now id errors body))
  /\ (forall reply requests',
        rejectRequest requests me now id errors reason = Ok (reply, requests')
        -> one_open requests')
  /\ (forall reply requests',
        deleteRequest requests user id = Ok (reply, requests')
        -> one_open requests').
Proof.
  intros Hone. split_and!.
  - intros reply requests'. unfold createRequest. unfold_monad.
    destruct (0 <? length errors)%nat; simpl; [by intros [= <- <-]|].
    destruct (AdminRoutes.as_id _) as [p|]; simpl; [|done].
    destruct (LandingPage.findById p pages) as [pg|]; simpl;
      [|by intros [= <- <-]].
    destruct (LandingPage.is_active pg); simpl; [|by intros [= <- <-]].
    destruct (AccessRequest.findOne_open _ _ _) eqn:Ef; simpl;
      intros [= <- <-]; [done|].
    apply findOne_open_None in Ef. destruct Hone as [Hnd Hone]. split.
    + rewrite List.map_app. simpl. apply NoDup_app. split_and!; [done| |].
      * intros x Hx ->%list_elem_of_singleton.
        by apply request_fresh_id_new in Hx.
      * apply NoDup_singleton.
    + intros s' p'. unfold count_open in *.
      rewrite List.filter_app, length_app. simpl.
      destruct (AccessRequest.is_open s' p' _) eqn:E; simpl;
        [|specialize (Hone s' p'); lia].
      apply is_open_pair in E as [<- <-]. simpl. rewrite Ef. simpl. lia.
  - unfold approveRequest.
    destruct (0 <? length errors)%nat; simpl; [done|].
    destruct (AccessRequest.findById id requests) as [r|] eqn:Er; simpl;
      [|done].
    apply request_findById_Some in Er as [Hin Hid].
    case_bool_decide as Hst; simpl; [done|].
    destruct (AdminRoutes.as_id _) as [p|]; simpl; [|done].
    destruct (LandingPage.findById p pages); simpl; [|done].
    assert (one_open (AccessRequest.save (approve me now r) requests)) as H.
    { apply (save_keeps_one_open requests r); try done.
      intros s p'. unfold AccessRequest.is_open. simpl.
      assert (AccessRequest.status r = AccessRequest.pending) as ->
        by (by destruct (AccessRequest.status r)).
      rewrite !andb_true_iff. intros [? _]. split; [done|].
      by rewrite bool_decide_eq_true_2. }
    by destruct (AdminAccess.create _ _ _ _ _) as [[? ?]|].
  - intros reply requests'. unfold rejectRequest. unfold_monad.
    destruct (0 <? length errors)%nat; simpl; [by intros [= <- <-]|].
    destruct (AccessRequest.findById id requests) as [r|] eqn:Er; simpl;
      [|by intros [= <- <-]].
    apply request_findById_Some in Er as [Hin Hid].
    case_bool_decide as Hst; simpl; intros [= <- <-]; [done|].
    apply (save_keeps_one_open requests r); try done.
    intros s p. unfold AccessRequest.is_open. simpl.
    change (bool_decide (AccessRequest.rejected = AccessRequest.pending)
            || bool_decide (AccessRequest.rejected = AccessRequest.approved))
      with false.
    by rewrite andb_false_r.
  - intros reply requests'. unfold deleteRequest. unfold_monad.
    destruct (AccessRequest.findById id requests) as [r|]; simpl;
      [|by intros [= <- <-]].
    destruct (_ && _); simpl; intros [= <- <-]; [done|].
    destruct Hone as [Hnd Hone]. split.
    + eapply sublist_NoDup; [exact Hnd|apply delete_ids_sublist].
    + intros s p. etransitivity; [apply count_open_delete|apply Hone].
Qed.

Lemma two_open_requests s p requests x y :
  x ∈ requests -> y ∈ requests -> x <> y ->
  AccessRequest.is_open s p x = true -> AccessRequest.is_open s p y = true ->
  (2 <= count_open s p requests)%nat.
Proof.
  unfold count_open. intros Hx Hy Hne Ox Oy.
  induction requests as [|z requests IH]; [by apply elem_of_nil in Hx|].
  assert (forall w, w ∈ requests -> AccessRequest.is_open s p w = true ->
                    (1 <= length (List.filter (AccessRequest.is_open s p)
                                    requests))%nat) as Hone.
  { intros w Hw Ow. apply list_elem_of_In in Hw.
    pose proof (proj2 (filter_In (AccessRequest.is_open s p) w requests)
                  (conj Hw Ow)) as Hf.
    destruct (List.filter _ requests); [done|]. simpl. lia. }
  simpl. apply elem_of_cons in Hx as [->|Hx], Hy as [->|Hy]; try done.
  - rewrite Ox. simpl. specialize (Hone y Hy Oy). lia.
  - rewrite Oy. simpl. specialize (Hone x Hx Ox). lia.
  - specialize (IH Hx Hy). destruct (AccessRequest.is_open s p z); simpl; lia.
Qed.

(** After a pending request was saved as approved, it is the request
    the duplicate check of the create route finds. *)
Lemma findOne_open_saved requests r me now :
  one_open requests -> r ∈ requests ->
  AccessRequest.status r = AccessRequest.pending ->
  AccessRequest.findOne_open (AccessRequest.subAdmin r)
    (AccessRequest.landingPage r)
    (AccessRequest.save (approve me now r) requests)
  = Some (approve me now r).
Proof.
  intros [Hnd Hone] Hin Hst.
  set (s := AccessRequest.subAdmin r). set (p := AccessRequest.landingPage r).
  assert (AccessRequest.is_open s p r = true) as Or.
  { unfold AccessRequest.is_open, s, p. rewrite Hst.
    rewrite !bool_decide_eq_true_2 by done. reflexivity. }
  assert (AccessRequest.is_open s p (approve me now r) = true) as Or'.
  { unfold AccessRequest.is_open, s, p. simpl.
    rewrite !bool_decide_eq_true_2 by done. reflexivity. }
  unfold AccessRequest.findOne_open, AccessRequest.save.
  destruct (List.find _ _) as [y|] eqn:Ef.
  - apply find_some in Ef as [(x & Hy & Hx)%in_map_iff Oy].
    apply list_elem_of_In in Hx.
    destruct (Nat.eqb_spec (AccessRequest._id x)
                (AccessRequest._id (approve me now r))) as [E|E];
      [by rewrite Hy|].
    subst y. exfalso.
    assert (x <> r) as Hne by (intros ->; by apply E).
    pose proof (two_open_requests s p requests x r Hx Hin Hne Oy Or).
    specialize (Hone s p). lia.
  - exfalso. pose proof (find_none _ _ Ef (approve me now r)) as Hn.
    rewrite Or' in Hn. assert (false = true); [symmetry|done]. apply Hn.
    apply in_map_iff. exists r. split; [|by apply list_elem_of_In].
    simpl. by rewrite Nat.eqb_refl.
Qed.

Lemma request_findById_saved requests r r' :
  NoDup (List.map AccessRequest._id requests) -> r ∈ requests ->
  AccessRequest._id r' = AccessRequest._id r ->
  AccessRequest.findById (AccessRequest._id r)
    (AccessRequest.save r' requests) = Some r'.
Proof.
  intros _ Hin Hid. unfold AccessRequest.findById, AccessRequest.save.
  rewrite Hid.
  induction requests as [|x requests IH]; [by apply elem_of_nil in Hin|].
  simpl.
  destruct (Nat.eqb_spec (AccessRequest._id x) (AccessRequest._id r)) as [E|E].
  - by rewrite Hid, Nat.eqb_refl.
  - apply Nat.eqb_neq in E. rewrite E.
    apply elem_of_cons in Hin as [->|Hin]; [by rewrite Nat.eqb_refl in E|].
    by apply IH.
Qed.

(** X16.  Approving a pending request grants the page named in the body of
    the approve call, to the sub-admin of the request: the handler never
    compares that page with the page the request was made for.  When the
    pair has no access record yet, the request is saved as approved, one
    active record is inserted and the page enters the sub-admin's
    scope. *)
Theorem approve_grants_page_of_body pages requests access me now id body r p :
  Spec.well_formed access ->
  AccessRequest.findById id requests = Some r ->
  AccessRequest.status r = AccessRequest.pending ->
  body !! "landingPageId" = Some (VStr p) ->
  is_Some (LandingPage.findById p pages) ->
  AdminAccess.findOne (AccessRequest.subAdmin r) p access = None ->
  let out := approveRequest pages requests access me now id [] body in
  answer out
  = Ok (mkReply 200 true (Some "Access request approved successfully") None
          (Some (approve me now r)))
  /\ AccessRequestRoutes.requests out
     = AccessRequest.save (approve me now r) requests
  /\ AccessRequestRoutes.access out
     = access ++ [AdminAccess.mk (AdminAccess.fresh_id access)
                    (AccessRequest.subAdmin r) p me AdminAccess.active now
                    None None]
  /\ Spec.well_formed (AccessRequestRoutes.access out)
  /\ forall user, User._id user = AccessRequest.subAdmin r ->
                  p ∈ SpecMore.scope_of (AccessRequestRoutes.access out) user.
Proof.
  intros Hwf Hr Hst Hbody [pg Hpg] Hnone out.
  assert (out = mkOutcome
            (Ok (mkReply 200 true
                   (Some "Access request approved successfully") None
                   (Some (approve me now r))))
            (AccessRequest.save (approve me now r) requests)
            (access ++ [AdminAccess.mk (AdminAccess.fresh_id access)
                          (AccessRequest.subAdmin r) p me AdminAccess.active
                          now None None])) as ->.
  { unfold out, approveRequest. simpl. rewrite Hr, Hst, Hbody. simpl.
    rewrite Hpg. unfold AdminAccess.create.
    apply findOne_None in Hnone as [-> _]. reflexivity. }
  simpl. split_and!; try done.
  - eapply (create_well_formed (AccessRequest.subAdmin r) p me now access);
      [done|].
    unfold AdminAccess.create. apply findOne_None in Hnone as [-> _].
    reflexivity.
  - intros user Hu. unfold SpecMore.scope_of, AdminAccess.find_active.
    apply list_elem_of_In, in_map_iff. eexists. split; [|apply filter_In; split].
    2:{ apply in_or_app. right. by left. }
    + done.
    + simpl. by rewrite Hu, !bool_decide_eq_true_2.
Qed.

(** X17.  The approve route is not atomic.  When the pair already has an
    access record (a revoked one, say), the request is saved as approved
    first and the insert of the access record then fails on the unique
    index: the route throws, the access records are unchanged, and the
    request stays approved.  A new request of the sub-admin for that page
    is then refused with "You already have access to this landing page". *)
Theorem approve_is_not_atomic pages requests access me now id body r p a :
  one_open requests ->
  AccessRequest.findById id requests = Some r ->
  AccessRequest.status r = AccessRequest.pending ->
  body !! "landingPageId" = Some (VStr p) ->
  is_Some (LandingPage.findById p pages) ->
  AdminAccess.findOne (AccessRequest.subAdmin r) p access = Some a ->
  let out := approveRequest pages requests access me now id [] body in
  answer out = Throw DuplicateKeyError
  /\ AccessRequestRoutes.access out = access
  /\ AccessRequestRoutes.requests out
     = AccessRequest.save (approve me now r) requests
  /\ AccessRequest.findById id (AccessRequestRoutes.requests out)
     = Some (approve me now r)
  /\ forall user message pg,
       User._id user = AccessRequest.subAdmin r ->
       AccessRequest.landingPage r = p ->
       LandingPage.findById p pages = Some pg ->
       LandingPage.is_active pg = true ->
       createRequest pages (AccessRequestRoutes.requests out) user [] body
         message
       = Ok (failure 400 "You already have access to this landing page",
             AccessRequestRoutes.requests out).
Proof.
  intros Hone Hr Hst Hbody [pg Hpg] Hsome out.
  assert (out = mkOutcome (Throw DuplicateKeyError)
                  (AccessRequest.save (approve me now r) requests) access)
    as ->.
  { unfold out, approveRequest. simpl. rewrite Hr, Hst, Hbody. simpl.
    rewrite Hpg. unfold AdminAccess.create.
    assert (existsb (AdminAccess.same_pair (AccessRequest.subAdmin r) p)
                    access = true) as ->; [|done].
    apply find_some in Hsome as [Hin Hp]. apply existsb_exists. by exists a. }
  apply request_findById_Some in Hr as [Hin Hid]. simpl.
  split_and!; try done.
  - rewrite <- Hid. apply request_findById_saved; [apply Hone|done|done].
  - intros user message pg' Hu Hp Hpg' Hact.
    unfold createRequest. unfold_monad. simpl. rewrite Hbody. simpl.
    rewrite Hpg', Hact. simpl. rewrite Hu, <- Hp.
    by rewrite findOne_open_saved.
Qed.


End RequestFacts.

Lemma request_routes_keep_one_open_witness :
  RequestSpec.one_open
    (AccessRequestRoutes.requests
       (AccessRequestRoutes.approveRequest [Sample.pageX]
          [SampleRequests.request1] [] Sample.superAdminId 5000 1 []
          SampleRequests.approve_body)).
Proof.
  apply (request_routes_keep_one_open [Sample.pageX] [SampleRequests.request1]
           [] Sample.sub_user Sample.superAdminId 5000 1 []
           SampleRequests.approve_body None "").
  split.
  - apply (bool_decide_unpack _). vm_compute. reflexivity.
  - intros s p. unfold RequestSpec.count_open. simpl.
    destruct (AccessRequest.is_open s p _); simpl; lia.
Defined.

Lemma approve_grants_page_of_body_witness :
  AccessRequestRoutes.access
    (AccessRequestRoutes.approveRequest SampleLeads.pages
       [SampleRequests.request1] [] Sample.superAdminId 5000 1 []
       {[ "landingPageId" := Js.VStr SampleMore.other_page ]})
  = [AdminAccess.mk 1 Sample.subAdminId SampleMore.other_page
       Sample.superAdminId AdminAccess.active 5000 None None]
  /\ AccessRequest.landingPage SampleRequests.request1 = Sample.pageId.
Proof.
  destruct (approve_grants_page_of_body SampleLeads.pages
              [SampleRequests.request1] [] Sample.superAdminId 5000 1
              {[ "landingPageId" := Js.VStr SampleMore.other_page ]}
              SampleRequests.request1 SampleMore.other_page)
    as (_ & _ & Hacc & _); try (vm_compute; reflexivity).
  - split; apply (bool_decide_unpack _); vm_compute; reflexivity.
  - vm_compute. by eexists.
  - split; [exact Hacc|reflexivity].
Defined.

Lemma approve_is_not_atomic_witness :
  AccessRequestRoutes.answer
    (AccessRequestRoutes.approveRequest [Sample.pageX]
       [SampleRequests.request1] [Sample.revoked_access] Sample.superAdminId
       5000 1 [] SampleRequests.approve_body)
  = Js.Throw Js.DuplicateKeyError
  /\ AccessRequest.findById 1
       (AccessRequestRoutes.requests
          (AccessRequestRoutes.approveRequest [Sample.pageX]
             [SampleRequests.request1] [Sample.revoked_access]
             Sample.superAdminId 5000 1 [] SampleRequests.approve_body))
     = Some (AccessRequestRoutes.approve Sample.superAdminId 5000
               SampleRequests.request1)
  /\ SpecMore.scope_of
       (AccessRequestRoutes.access
          (AccessRequestRoutes.approveRequest [Sample.pageX]
             [SampleRequests.request1] [Sample.revoked_access]
             Sample.superAdminId 5000 1 [] SampleRequests.approve_body))
       Sample.sub_user
     = [].
Proof.
  destruct (approve_is_not_atomic [Sample.pageX] [SampleRequests.request1]
              [Sample.revoked_access] Sample.superAdminId 5000 1
              SampleRequests.approve_body SampleRequests.request1
              Sample.pageId Sample.revoked_access)
    as (Hthrow & Hacc & _ & Hfind & _); try (vm_compute; reflexivity).
  - split.
    + apply (bool_decide_unpack _). vm_compute. reflexivity.
    + intros s p. unfold RequestSpec.count_open. simpl.
      destruct (AccessRequest.is_open s p _); simpl; lia.
  - vm_compute. by eexists.
  - split_and!; [exact Hthrow|exact Hfind|]. rewrite Hacc. reflexivity.
Defined.


(* ===================================================================== *)
(** * 21. Further properties: account approval and login                  *)
(* ===================================================================== *)

Section ApprovalFacts.
Import Js UserApproval.

Variable isValidObjectId : string -> bool.
Variable isEmail : option Val -> bool.
Variable normalizeEmail : option Val -> string.
Variable matchPassword : User.t -> Val -> Res bool.
Variable getSignedJwtToken : User.t -> string.

Implicit Types (accounts : list Account.t) (a : Account.t).

Lemma account_findById_Some id accounts a :
  Account.findById id accounts = Some a ->
  a ∈ accounts /\ Account._id a = id.
Proof.
  intros [Hin E]%find_some. split; [by apply list_elem_of_In|].
  by apply String.eqb_eq in E.
Qed.

Lemma account_unique_id accounts a b :
  NoDup (List.map Account._id accounts) ->
  a ∈ accounts -> b ∈ accounts -> Account._id b = Account._id a -> b = a.
Proof.
  intros Hnd Ha Hb E.
  apply list_elem_of_lookup in Ha as [i Hi].
  apply list_elem_of_lookup in Hb as [j Hj].
  assert (j = i) as ->; [|congruence].
  eapply NoDup_lookup; [exact Hnd|..].
  - rewrite list_lookup_fmap, Hj. done.
  - rewrite list_lookup_fmap, Hi. simpl. congruence.
Qed.

Lemma account_save_ids a' accounts :
  List.map Account._id (Account.save a' accounts)
  = List.map Account._id accounts.
Proof.
  unfold Account.save. rewrite List.map_map. apply List.map_ext.
  intros x. destruct (String.eqb_spec (Account._id x) (Account._id a')); done.
Qed.

Lemma account_save_elem a a' accounts :
  a ∈ accounts -> Account._id a' = Account._id a ->
  a' ∈ Account.save a' accounts.
Proof.
  intros Hin Hid. unfold Account.save.
  apply list_elem_of_In, in_map_iff. exists a.
  rewrite <- Hid, String.eqb_refl. split; [done|]. by apply list_elem_of_In.
Qed.

Lemma account_findById_found accounts a :
  NoDup (List.map Account._id accounts) -> a ∈ accounts ->
  Account.findById (Account._id a) accounts = Some a.
Proof.
  intros Hnd Hin. unfold Account.findById.
  destruct (List.find _ accounts) as [b|] eqn:Ef.
  - apply find_some in Ef as [Hb E]. apply String.eqb_eq in E.
    f_equal. apply (account_unique_id accounts); [done|done| |done].
    by apply list_elem_of_In.
  - pose proof (find_none _ _ Ef a) as Hn. simpl in Hn.
    rewrite String.eqb_refl in Hn. assert (true = false); [|done].
    apply Hn. by apply list_elem_of_In.
Qed.

(** The lookup by email finds the saved version of the account it found
    before. *)
Lemma findOne_email_saved e accounts a a' :
  (forall b, b ∈ accounts -> Account._id b = Account._id a -> b = a) ->
  User.findOne_email e (List.map Account.user accounts)
  = Some (Account.user a) ->
  Account._id a' = Account._id a ->
  User.email (Account.user a') = User.email (Account.user a) ->
  User.findOne_email e (List.map Account.user (Account.save a' accounts))
  = Some (Account.user a').
Proof.
  unfold User.findOne_email, Account.save. intros Huniq Hfind Hid Hem.
  assert (User.email (Account.user a) = e) as He
    by (apply find_some in Hfind as [_ E]; by apply String.eqb_eq in E).
  rewrite Hid. induction accounts as [|b accounts IH]; simpl in *; [done|].
  destruct (String.eqb_spec (User.email (Account.user b)) e) as [E|E].
  - simplify_eq.
    assert (b = a) as ->.
    { apply Huniq; [apply list_elem_of_here|].
      unfold Account._id. by rewrite Hfind. }
    rewrite String.eqb_refl. simpl. by rewrite Hem, String.eqb_refl.
  - destruct (String.eqb_spec (Account._id b) (Account._id a)) as [Eb|Eb].
    + exfalso. apply E. rewrite (Huniq b (list_elem_of_here _ _) Eb). done.
    + simpl. apply String.eqb_neq in E. rewrite E.
      apply IH; [|done]. intros c Hc. apply Huniq. by apply list_elem_of_further.
Qed.

(** X19.  Approval is what unlocks the login of a sub-admin, and rejection
    locks it again.  For a sub-admin account that is not approved and
    whose credentials are right: login answers 403; approve-user answers
    200; login then answers 200 with a token; reject-user answers 200 (an
    approved account can be rejected); login answers 403 again.  Both
    decisions record the deciding admin in approvedBy and approvedAt. *)
Theorem approval_unlocks_login accounts me now me2 now2 id a body :
  let password := default VUndefined (body !! "password") in
  let a1 := decide_on User.approved me now a in
  let a2 := decide_on User.rejected me2 now2 a1 in
  let login accounts :=
    AuthRoutes.login isEmail normalizeEmail matchPassword getSignedJwtToken
      (List.map Account.user accounts) body in
  isValidObjectId id = true ->
  NoDup (List.map Account._id accounts) ->
  Account.findById id accounts = Some a ->
  User.role (Account.user a) = User.sub_admin ->
  User.status (Account.user a) <> User.approved ->
  AuthRoutes.validation_errors isEmail body = [] ->
  User.findOne_email (normalizeEmail (body !! "email"))
    (List.map Account.user accounts) = Some (Account.user a) ->
  matchPassword (Account.user a) password = Ok true ->
  matchPassword (Account.user a1) password = Ok true ->
  matchPassword (Account.user a2) password = Ok true ->
  login accounts
  = Ok (failure 403 "Your account is pending approval or has been rejected")
  /\ approveUser isValidObjectId accounts me now id
     = Ok (mkReply 200 true (Some "User approved successfully") None (Some a1),
           Account.save a1 accounts)
  /\ (exists view,
        login (Account.save a1 accounts)
        = Ok (mkReply 200 true (Some "Login successful") None
                (Some (AuthRoutes.mkLoginData
                         (getSignedJwtToken (Account.user a1)) view)))
        /\ AuthRoutes.status view = User.approved)
  /\ rejectUser isValidObjectId (Account.save a1 accounts) me2 now2 id []
     = Ok (mkReply 200 true (Some "User rejected successfully") None (Some a2),
           Account.save a2 (Account.save a1 accounts))
  /\ login (Account.save a2 (Account.save a1 accounts))
     = Ok (failure 403 "Your account is pending approval or has been rejected")
  /\ Account.approvedBy a2 = Some me2.
Proof.
  intros password a1 a2 login Hid Hnd Hfind Hrole Hst Hval Hem Hm Hm1 Hm2.
  apply account_findById_Some in Hfind as [Hin Hida].
  assert (forall b, b ∈ accounts -> Account._id b = Account._id a -> b = a)
    as Huniq by (intros b Hb E; by apply (account_unique_id accounts)).
  assert (a1 ∈ Account.save a1 accounts) as Hin1
    by by apply (account_save_elem a).
  assert (NoDup (List.map Account._id (Account.save a1 accounts))) as Hnd1
    by by rewrite account_save_ids.
  assert (User.findOne_email (normalizeEmail (body !! "email"))
            (List.map Account.user (Account.save a1 accounts))
          = Some (Account.user a1)) as Hem1
    by by apply (findOne_email_saved _ accounts a a1).
  assert (User.findOne_email (normalizeEmail (body !! "email"))
            (List.map Account.user
               (Account.save a2 (Account.save a1 accounts)))
          = Some (Account.user a2)) as Hem2.
  { apply (findOne_email_saved _ _ a1 a2); try done.
    intros b Hb E. by apply (account_unique_id (Account.save a1 accounts)). }
  split_and!.
  - unfold login, AuthRoutes.login. rewrite Hval. unfold_monad. simpl.
    rewrite Hem. fold password. rewrite Hm. simpl.
    rewrite !bool_decide_eq_true_2 by done. reflexivity.
  - unfold approveUser, cast_id. rewrite Hid. unfold_monad.
    rewrite <- Hida, account_findById_found by done.
    rewrite bool_decide_eq_false_2 by (by intros ?).
    rewrite bool_decide_eq_false_2 by done. reflexivity.
  - eexists. split.
    + unfold login, AuthRoutes.login. rewrite Hval. unfold_monad. simpl.
      rewrite Hem1. fold password. rewrite Hm1. simpl.
      rewrite Hrole. simpl. reflexivity.
    + reflexivity.
  - unfold rejectUser, cast_id. rewrite Hid. unfold_monad. simpl.
    replace id with (Account._id a1) by done.
    rewrite account_findById_found by done. simpl.
    rewrite bool_decide_eq_false_2 by (by intros ?). reflexivity.
  - unfold login, AuthRoutes.login. rewrite Hval. unfold_monad. simpl.
    rewrite Hem2. fold password. rewrite Hm2. simpl.
    rewrite Hrole. reflexivity.
  - reflexivity.
Qed.

End ApprovalFacts.

Lemma approval_unlocks_login_witness :
  AuthRoutes.login Sample.isEmail Sample.normalizeEmail Sample.matchPassword
    Sample.getSignedJwtToken
    (List.map Account.user SampleAccounts.accounts)
    (Sample.credentials "pat@example.com" "secret2")
  = Js.Ok (failure 403 "Your account is pending approval or has been rejected")
  /\ exists view,
       AuthRoutes.login Sample.isEmail Sample.normalizeEmail
         Sample.matchPassword Sample.getSignedJwtToken
         (List.map Account.user
            (Account.save
               (UserApproval.decide_on User.approved Sample.superAdminId 6000
                  (Account.mk Sample.pending_user None None))
               SampleAccounts.accounts))
         (Sample.credentials "pat@example.com" "secret2")
       = Js.Ok (mkReply 200 true (Some "Login successful") None
                  (Some (AuthRoutes.mkLoginData
                           (Sample.getSignedJwtToken
                              (Account.user
                                 (UserApproval.decide_on User.approved
                                    Sample.superAdminId 6000
                                    (Account.mk Sample.pending_user None None))))
                           view)))
       /\ AuthRoutes.status view = User.approved.
Proof.
  destruct (approval_unlocks_login SampleLeads.isValidObjectId Sample.isEmail
              Sample.normalizeEmail Sample.matchPassword
              Sample.getSignedJwtToken SampleAccounts.accounts
              Sample.superAdminId 6000 Sample.superAdminId 7000
              SampleAccounts.pendingId
              (Account.mk Sample.pending_user None None)
              (Sample.credentials "pat@example.com" "secret2"))
    as (Hbefore & _ & Hafter & _); try (vm_compute; reflexivity).
  - apply (bool_decide_unpack _). vm_compute. reflexivity.
  - discriminate.
  - split; [exact Hbefore|exact Hafter].
Defined.

(* ===================================================================== *)
(** * 22. Further properties: creating and renaming landing pages, and
      the page links of a list                                            *)
(* ===================================================================== *)

Section PageFacts.
Import Js LandingPageCrud PageSpec.

Variable isValidObjectId : string -> bool.
Variable findByIdAndUpdate :
  ObjectId -> Patch -> list PageDoc.t -> Res (option PageDoc.t * list PageDoc.t).

Implicit Types (pages : list PageDoc.t).

Lemma find_name_or_url_None name url pages :
  List.find (fun d => String.eqb (PageDoc.name d) name
                      || String.eqb (PageDoc.url d) url) pages = None ->
  (name ∉ List.map PageDoc.name pages)
  /\ (url ∉ List.map PageDoc.url pages).
Proof.
  intros Hf. split.
  - intros (d & E & Hd)%list_elem_of_In%in_map_iff.
    pose proof (find_none _ _ Hf d Hd) as Hn. simpl in Hn.
    apply orb_false_iff in Hn as [Hn _]. apply String.eqb_neq in Hn. done.
  - intros (d & E & Hd)%list_elem_of_In%in_map_iff.
    pose proof (find_none _ _ Hf d Hd) as Hn. simpl in Hn.
    apply orb_false_iff in Hn as [_ Hn]. apply String.eqb_neq in Hn. done.
Qed.

(** X20.  Creating a landing page keeps ids, names and urls distinct.  With a
    trimmed name, the request is refused with 400 exactly when a page
    has that name or that url; otherwise one page is appended: active,
    without custom form fields, with the default fields of the schema
    (first name, last name and email), created by the caller. *)
Theorem createLandingPage_keeps_unique pages me newId errors name url
    description reply pages' :
  unique_pages pages ->
  newId ∉ List.map PageDoc._id pages ->
  trim name = name ->
  createLandingPage pages me newId errors name url description
  = Ok (reply, pages') ->
  unique_pages pages'
  /\ (errors = [] ->
      (exists d, d ∈ pages /\ (PageDoc.name d = name \/ PageDoc.url d = url)) ->
      reply = failure 400 "Landing page with this name or URL already exists"
      /\ pages' = pages)
  /\ (errors = [] ->
      ~ (exists d, d ∈ pages /\ (PageDoc.name d = name \/ PageDoc.url d = url)) ->
      exists doc,
        pages' = pages ++ [doc]
        /\ reply = mkReply 201 true (Some "Landing page created successfully")
                     None (Some doc)
        /\ PageDoc.page doc
           = LandingPage.mk newId name url LandingPage.active []
               DefaultFields.default
        /\ PageDoc.createdBy doc = me).
Proof.
  intros (Hids & Hnames & Hurls) Hnew Htrim.
  unfold createLandingPage. unfold_monad.
  destruct errors as [|e errors]; simpl.
  2:{ intros [= <- <-]. by split_and!. }
  destruct (List.find _ pages) as [d|] eqn:Ef; simpl.
  - intros [= <- <-]. split_and!; [done|done|].
    intros _ Hno. exfalso. apply Hno.
    apply find_some in Ef as [Hd Ed]. exists d.
    split; [by apply list_elem_of_In|].
    apply orb_true_iff in Ed as [Ed|Ed]; apply String.eqb_eq in Ed; auto.
  - assert (existsb (fun d => String.eqb (PageDoc.name d) name
                              || String.eqb (PageDoc.url d) url) pages
            = false) as Hex.
    { apply not_true_is_false. intros (d & Hd & Ed)%existsb_exists.
      pose proof (find_none _ _ Ef d Hd) as Hn. simpl in Hn. congruence. }
    apply find_name_or_url_None in Ef as [Hn Hu].
    unfold PageDoc.create. rewrite Htrim, Hex.
    destruct (String.eqb name ""); simpl; [done|].
    destruct (String.eqb url ""); simpl; [done|].
    intros [= <- <-]. split_and!.
    + split_and!; rewrite List.map_app; simpl; apply NoDup_app;
        (split_and!; [done| |apply NoDup_singleton]);
        intros x Hx ->%list_elem_of_singleton; done.
    + intros _ (d & Hd & [E|E]).
      * exfalso. apply Hn. rewrite <- E.
        by apply list_elem_of_In, in_map, list_elem_of_In.
      * exfalso. apply Hu. rewrite <- E.
        by apply list_elem_of_In, in_map, list_elem_of_In.
    + intros _ _. eexists. by split_and!.
Qed.

(** X21.  The duplicate check of the update route is a conjunction: when both
    a name and a url are given, it answers 400 only if one other page
    has that name and that url.  A name taken by one page and a url taken
    by another pass the check, and the update goes to the storage, whose
    unique indexes decide (a duplicate-key error, not the 400 answer). *)
Theorem update_duplicate_check_is_conjunctive pages id name url description
    status :
  isValidObjectId id = true ->
  is_Some (PageDoc.findById id pages) ->
  (given name || given url) = true ->
  let duplicate d :=
    PageDoc._id d <> id
    /\ (given name = true -> Some (PageDoc.name d) = name)
    /\ (given url = true -> Some (PageDoc.url d) = url) in
  ((exists d, d ∈ pages /\ duplicate d) ->
     updateLandingPage isValidObjectId findByIdAndUpdate pages id [] name url
       description status
     = Ok (failure 400 "Landing page with this name or URL already exists",
           pages))
  /\ (~ (exists d, d ∈ pages /\ duplicate d) ->
       updateLandingPage isValidObjectId findByIdAndUpdate pages id [] name
         url description status
       = match findByIdAndUpdate id (mkPatch name url description status)
                 pages with
         | Ok (landingPage, pages') =>
             Ok (mkReply 200 true (Some "Landing page updated successfully")
                   None (Some landingPage), pages')
         | Throw e => Throw e
         end).
Proof.
  intros Hid [p Hp] Hgiven duplicate.
  assert (forall d, duplicateQuery id name url d = true <-> duplicate d)
    as Hdup.
  { intros d. unfold duplicateQuery, duplicate.
    rewrite !andb_true_iff, negb_true_iff, String.eqb_neq.
    destruct (given name), (given url); rewrite ?bool_decide_eq_true;
      (split; [intros [[? ?] ?]|intros (? & Hn & Hu)]; split_and!;
       try done; auto). }
  unfold updateLandingPage, cast_id. rewrite Hid. unfold_monad. simpl.
  rewrite Hp, Hgiven. simpl. split.
  - intros (d & Hd & Hdd).
    destruct (List.find _ pages) as [d'|] eqn:Ef; [done|].
    exfalso. pose proof (find_none _ _ Ef d) as Hn.
    apply Hdup in Hdd. rewrite Hdd in Hn.
    assert (true = false); [|done]. apply Hn. by apply list_elem_of_In.
  - intros Hno. destruct (List.find _ pages) as [d'|] eqn:Ef.
    + exfalso. apply Hno. apply find_some in Ef as [Hd Ed].
      exists d'. split; [by apply list_elem_of_In|]. by apply Hdup.
    + simpl. by destruct (findByIdAndUpdate _ _ _) as [[? ?]|].
Qed.

End PageFacts.

Section PaginationFacts.
Import LeadList.

(** X22.  The page links of a list answer are consistent: from a page with a
    [next] link, the [prev] link of the next page leads back; from a
    page with a [prev] link, the previous page has a [next] link back
    exactly when it is not beyond the last record.  (Page and limit at
    least 1.) *)
Theorem pagination_links_round_trip (p L : Z) (N : nat) :
  (1 <= p)%Z -> (1 <= L)%Z ->
  (forall r, next (paginate p L N) = Some r ->
             r = mkPageRef (p + 1) L
             /\ prev (paginate (page r) (limit r) N) = Some (mkPageRef p L))
  /\ (forall r, prev (paginate p L N) = Some r ->
                r = mkPageRef (p - 1) L
                /\ (next (paginate (page r) (limit r) N) = Some (mkPageRef p L)
                    <-> ((p - 1) * L < Z.of_nat N)%Z)).
Proof.
  intros Hp HL. unfold paginate. simpl. split; intros r.
  - destruct (Z.ltb_spec ((p - 1) * L + L) (Z.of_nat N)); [|done].
    intros [= <-]. simpl. split; [done|].
    destruct (Z.ltb_spec 0 ((p + 1 - 1) * L)) as [_|Hn]; [|nia].
    do 2 f_equal. lia.
  - destruct (Z.ltb_spec 0 ((p - 1) * L)); [|done].
    intros [= <-]. simpl. split; [done|].
    destruct (Z.ltb_spec ((p - 1 - 1) * L + L) (Z.of_nat N)) as [Hlt|Hge].
    + split; [nia|]. intros _. do 2 f_equal. lia.
    + split; [done|nia].
Qed.

End PaginationFacts.

Lemma createLandingPage_keeps_unique_witness :
  PageSpec.unique_pages
    (SamplePages.docs
     ++ [PageDoc.mk (LandingPage.mk SamplePages.fourthId "W" "https://w.com"
                       LandingPage.active [] DefaultFields.default)
           (Some "fourth") Sample.superAdminId]).
Proof.
  destruct (createLandingPage_keeps_unique SamplePages.docs
              Sample.superAdminId SamplePages.fourthId [] "W" "https://w.com"
              (Some " fourth ")
              (mkReply 201 true (Some "Landing page created successfully") None
                 (Some (PageDoc.mk
                          (LandingPage.mk SamplePages.fourthId "W"
                             "https://w.com" LandingPage.active []
                             DefaultFields.default)
                          (Some "fourth") Sample.superAdminId)))
              (SamplePages.docs
               ++ [PageDoc.mk
                     (LandingPage.mk SamplePages.fourthId "W" "https://w.com"
                        LandingPage.active [] DefaultFields.default)
                     (Some "fourth") Sample.superAdminId]))
    as (Hunique & _).
  - split_and!; apply (bool_decide_unpack _); vm_compute; reflexivity.
  - apply (bool_decide_unpack _). vm_compute. reflexivity.
  - reflexivity.
  - vm_compute. reflexivity.
  - exact Hunique.
Defined.

Lemma update_duplicate_check_is_conjunctive_witness :
  LandingPageCrud.updateLandingPage SampleLeads.isValidObjectId
    SamplePages.findByIdAndUpdate SamplePages.docs SamplePages.thirdId []
    (Some "X") (Some "https://y.com") None None
  = Js.Throw Js.DuplicateKeyError.
Proof.
  destruct (update_duplicate_check_is_conjunctive SampleLeads.isValidObjectId
              SamplePages.findByIdAndUpdate SamplePages.docs
              SamplePages.thirdId (Some "X") (Some "https://y.com") None None)
    as [_ Hpass].
  - vm_compute. reflexivity.
  - vm_compute. by eexists.
  - vm_compute. reflexivity.
  - rewrite Hpass; [vm_compute; reflexivity|].
    intros (d & Hd & Hid & Hn & Hu).
    specialize (Hn eq_refl). specialize (Hu eq_refl).
    repeat (apply elem_of_cons in Hd as [->|Hd]; [by vm_compute in Hn, Hu|]).
    by apply elem_of_nil in Hd.
Defined.

Lemma pagination_links_round_trip_witness :
  LeadList.prev (LeadList.paginate 3 5 23)
  = Some (LeadList.mkPageRef 2 5).
Proof.
  destruct (pagination_links_round_trip 2 5 23) as [Hnext _]; [lia|lia|].
  destruct (Hnext (LeadList.mkPageRef 3 5)) as [_ Hback]; [reflexivity|].
  exact Hback.
Defined.

(* ===================================================================== *)
(** * 23. Further properties: configuring the form of a page              *)
(* ===================================================================== *)

Section FormFieldsFacts.
Import Js FormFieldsRoute FormSpec.

Variable isValidObjectId : string -> bool.
Variable findByIdAndUpdate :
  ObjectId -> list Val -> list (string * Val) -> list LandingPage.t ->
  Res (option LandingPage.t * list LandingPage.t).

Lemma complete_checks field :
  complete field ->
  incomplete field = Ok false /\ exists b, order_undefined field = Ok b.
Proof.
  intros (props & -> & Hn & Hl & Ht).
  unfold incomplete, order_undefined, prop. unfold_monad.
  destruct (own props "name"); [|done]. simpl in *. rewrite Hn. simpl.
  destruct (own props "label"); [|done]. simpl in *. rewrite Hl. simpl.
  destruct (own props "type"); [|done]. simpl in *. rewrite Ht. simpl.
  split; [done|]. by eexists.
Qed.

Lemma own_assign_eq props k v : own (assign props k v) k = Some v.
Proof.
  unfold own. induction props as [|[k' v'] props IH]; simpl.
  - by rewrite String.eqb_refl.
  - destruct (String.eqb_spec k' k) as [E|E]; simpl.
    + by rewrite String.eqb_refl.
    + apply String.eqb_neq in E. by rewrite E.
Qed.

Lemma own_assign_ne props k v k0 :
  k0 <> k -> own (assign props k v) k0 = own props k0.
Proof.
  intros Hne. unfold own. induction props as [|[k' v'] props IH]; simpl.
  - apply String.eqb_neq in Hne. rewrite String.eqb_sym in Hne.
    by rewrite Hne.
  - destruct (String.eqb_spec k' k) as [E|E]; simpl.
    + subst k'. assert (String.eqb k k0 = false) as ->; [|done].
      apply String.eqb_neq. congruence.
    + destruct (String.eqb k' k0); [done|]. exact IH.
Qed.

Lemma with_order_complete j field : complete field -> complete (with_order j field).
Proof.
  intros (props & -> & Hn & Hl & Ht). unfold with_order, order_undefined, prop.
  unfold_monad. destruct (default VUndefined (own props "order")) eqn:E;
    simpl; try by exists props.
  eexists. split; [done|]. by rewrite !own_assign_ne.
Qed.

Lemma with_order_idemp j field :
  complete field -> with_order j (with_order j field) = with_order j field.
Proof.
  intros (props & -> & _). unfold with_order at 2.
  unfold order_undefined, prop. unfold_monad.
  destruct (default VUndefined (own props "order")) eqn:E; simpl;
    try (unfold with_order, order_undefined, prop; unfold_monad;
         by rewrite E).
  unfold with_order, order_undefined, prop. unfold_monad.
  rewrite own_assign_eq, E. reflexivity.
Qed.

Lemma check_fields_complete {R} (stop : string -> R) k fields :
  Forall complete fields ->
  check_fields stop k fields = Next (imap (fun j => with_order (k + j)) fields).
Proof.
  intros Hall. revert k. induction Hall as [|f fields Hf _ IH]; intros k;
    [done|].
  destruct (complete_checks f Hf) as [Hi [b Hb]].
  simpl. unfold_monad. rewrite Hi. simpl.
  unfold with_order. rewrite Nat.add_0_r, Hb. simpl.
  rewrite IH. simpl. do 2 f_equal.
  apply imap_ext. intros j x _. unfold with_order. simpl.
  by replace (S (k + j)) with (k + S j)%nat by lia.
Qed.

Lemma check_fields_offender {R} (stop : string -> R) k fields i field :
  fields !! i = Some field ->
  lacking field ->
  (forall j f, (j < i)%nat -> fields !! j = Some f -> complete f) ->
  check_fields stop k fields
  = Return (stop ("Form field at index " +:+ pretty (k + i)%nat
                  +:+ " is missing required properties (name, label, type)")).
Proof.
  revert k i. induction fields as [|f fields IH]; intros k i Hi Hl Hbefore;
    [done|].
  destruct i as [|i]; simpl in *.
  - simplify_eq. unfold lacking in Hl. unfold_monad. rewrite Hl. simpl.
    by rewrite Nat.add_0_r.
  - destruct (complete_checks f (Hbefore 0%nat f ltac:(lia) eq_refl))
      as [Hc [b Hb]].
    unfold_monad. rewrite Hc, Hb. simpl.
    rewrite (IH (S k) i Hi Hl); [|intros j f' Hj Hf'; apply (Hbefore (S j));
                                   [lia|done]].
    simpl. by replace (S (k + i)) with (k + S i)%nat by lia.
Qed.

Lemma check_defaults_valid {R} (stop : string -> R) keys :
  Forall (fun k => LeadRoutes.includes validDefaultFields k = true) keys ->
  check_defaults stop keys = Next tt.
Proof.
  induction 1 as [|k keys Hk _ IH]; cbn [check_defaults]; [done|].
  by rewrite Hk.
Qed.

Lemma check_defaults_offender {R} (stop : string -> R) before k after :
  Forall (fun k => LeadRoutes.includes validDefaultFields k = true) before ->
  LeadRoutes.includes validDefaultFields k = false ->
  check_defaults stop (before ++ k :: after)
  = Return (stop ("Invalid default field: " +:+ k)).
Proof.
  induction 1 as [|k' keys Hk _ IH]; cbn [check_defaults app]; intros Hbad.
  - by rewrite Hbad.
  - rewrite Hk. cbn [negb]. by apply IH.
Qed.

(** X23.  A form configuration is rejected at its first offender, and nothing
    is written: the first element of formFields that lacks a truthy
    name, label or type is named by its index; with all elements
    complete, the first key of includeDefaultFields outside the six
    default fields is named. *)
Theorem form_config_rejected_at_first_offender pages id formFields
    includeDefaultFields :
  isValidObjectId id = true ->
  is_Some (LandingPage.findById id pages) ->
  (forall i field,
     formFields !! i = Some field ->
     lacking field ->
     (forall j f, (j < i)%nat -> formFields !! j = Some f -> complete f) ->
     updateFormFields isValidObjectId findByIdAndUpdate pages id []
       formFields includeDefaultFields
     = Ok (failure 400
             ("Form field at index " +:+ pretty i
              +:+ " is missing required properties (name, label, type)"),
           pages))
  /\ (forall before k after,
        Forall complete formFields ->
        List.map fst includeDefaultFields = before ++ k :: after ->
        Forall (fun k => k ∈ validDefaultFields) before ->
        k ∉ validDefaultFields ->
        updateFormFields isValidObjectId findByIdAndUpdate pages id []
          formFields includeDefaultFields
        = Ok (failure 400 ("Invalid default field: " +:+ k), pages)).
Proof.
  intros Hid [p Hp]. split.
  - intros i field Hi Hl Hbefore.
    unfold updateFormFields, cast_id. rewrite Hid. unfold_monad. simpl.
    rewrite Hp.
    by rewrite (check_fields_offender _ 0 formFields i field).
  - intros before k after Hall Hkeys Hvalid Hbad.
    unfold updateFormFields, cast_id. rewrite Hid. unfold_monad. simpl.
    rewrite Hp. rewrite check_fields_complete by done. rewrite Hkeys.
    rewrite check_defaults_offender; [done| |].
    + eapply Forall_impl; [exact Hvalid|]. intros x Hx. simpl in Hx.
      unfold LeadRoutes.includes. apply existsb_exists. exists x.
      split; [by apply list_elem_of_In|]. by apply String.eqb_eq.
    + apply not_true_is_false.
      intros (x & Hx & E%String.eqb_eq)%existsb_exists.
      apply Hbad. apply list_elem_of_In. by subst x.
Qed.

(** X24.  A form configuration whose elements all carry a truthy name, label
    and type, and whose default-field keys are among the six, goes to
    the storage with the same elements in the same order, each with its
    own [order] if it has one and its index otherwise, and otherwise
    unchanged.  Submitting what was stored again changes nothing. *)
Theorem form_fields_get_their_index_as_order pages id formFields
    includeDefaultFields :
  isValidObjectId id = true ->
  is_Some (LandingPage.findById id pages) ->
  Forall complete formFields ->
  Forall (fun kv => fst kv ∈ validDefaultFields) includeDefaultFields ->
  exists stored,
    updateFormFields isValidObjectId findByIdAndUpdate pages id []
      formFields includeDefaultFields
    = match findByIdAndUpdate id stored includeDefaultFields pages with
      | Ok (landingPage, pages') =>
          Ok (mkReply 200 true
                (Some "Landing page form fields updated successfully") None
                (Some landingPage), pages')
      | Throw e => Throw e
      end
    /\ length stored = length formFields
    /\ (forall j props,
          formFields !! j = Some (VObj props) ->
          exists props',
            stored !! j = Some (VObj props')
            /\ own props' "order"
               = match own props "order" with
                 | Some VUndefined | None => Some (VNum (Z.of_nat j))
                 | Some v => Some v
                 end
            /\ forall k, k <> "order" -> own props' k = own props k)
    /\ Forall complete stored
    /\ updateFormFields isValidObjectId findByIdAndUpdate pages id []
         stored includeDefaultFields
       = updateFormFields isValidObjectId findByIdAndUpdate pages id []
           formFields includeDefaultFields.
Proof.
  intros Hid [p Hp] Hall Hkeys.
  set (stored := imap (fun j => with_order (0 + j)) formFields).
  assert (Forall complete stored) as Hstored.
  { apply Forall_lookup. intros j f' Hj. unfold stored in Hj.
    rewrite list_lookup_imap in Hj.
    destruct (formFields !! j) as [f|] eqn:Ef; simpl in Hj; [|done].
    simplify_eq. apply with_order_complete.
    by apply (Forall_lookup_1 _ _ _ _ Hall Ef). }
  assert (imap (fun j => with_order (0 + j)) stored = stored) as Hidem.
  { unfold stored. apply list_eq. intros j. rewrite !list_lookup_imap.
    destruct (formFields !! j) as [f|] eqn:Ef; simpl; [|done]. f_equal.
    apply with_order_idemp. by apply (Forall_lookup_1 _ _ _ _ Hall Ef). }
  assert (Forall (fun k => LeadRoutes.includes validDefaultFields k = true)
                 (List.map fst includeDefaultFields)) as Hkeys'.
  { apply Forall_forall. intros k (kv & <- & Hkv)%list_elem_of_In%in_map_iff.
    rewrite Forall_forall in Hkeys.
    specialize (Hkeys kv (proj2 (list_elem_of_In _ _) Hkv)).
    unfold LeadRoutes.includes. apply existsb_exists. exists (fst kv).
    split; [by apply list_elem_of_In|]. by apply String.eqb_eq. }
  assert (forall fields, Forall complete fields ->
            updateFormFields isValidObjectId findByIdAndUpdate pages id []
              fields includeDefaultFields
            = match findByIdAndUpdate id
                      (imap (fun j => with_order (0 + j)) fields)
                      includeDefaultFields pages with
              | Ok (landingPage, pages') =>
                  Ok (mkReply 200 true
                        (Some "Landing page form fields updated successfully")
                        None (Some landingPage), pages')
              | Throw e => Throw e
              end) as Hrun.
  { intros fields Hf. unfold updateFormFields, cast_id. rewrite Hid.
    unfold_monad. simpl. rewrite Hp.
    rewrite check_fields_complete by done.
    rewrite check_defaults_valid by done.
    by destruct (findByIdAndUpdate _ _ _ _) as [[? ?]|]. }
  exists stored. split_and!.
  - by apply Hrun.
  - unfold stored. by rewrite length_imap.
  - intros j props Hj. unfold stored. rewrite list_lookup_imap, Hj. simpl.
    unfold with_order, order_undefined, prop. unfold_monad.
    destruct (own props "order") as [v|] eqn:Eo; simpl.
    + destruct v; simpl; try (exists props; by rewrite Eo).
      eexists. split_and!; [done|apply own_assign_eq|].
      intros k Hk. by apply own_assign_ne.
    + eexists. split_and!; [done|apply own_assign_eq|].
      intros k Hk. by apply own_assign_ne.
  - done.
  - rewrite (Hrun stored Hstored), (Hrun formFields Hall). by rewrite Hidem.
Qed.

End FormFieldsFacts.

Lemma form_config_rejected_at_first_offender_witness :
  FormFieldsRoute.updateFormFields SampleLeads.isValidObjectId
    SampleForm.findByIdAndUpdate SampleLeads.pages Sample.pageId []
    [SampleForm.budget; SampleForm.unlabelled; Js.VStr "x"]
    SampleForm.defaults
  = Js.Ok (failure 400
             "Form field at index 1 is missing required properties (name, label, type)",
           SampleLeads.pages)
  /\ FormFieldsRoute.updateFormFields SampleLeads.isValidObjectId
       SampleForm.findByIdAndUpdate SampleLeads.pages Sample.pageId []
       [SampleForm.budget]
       [("firstName", Js.VBool true); ("address", Js.VBool true)]
     = Js.Ok (failure 400 "Invalid default field: address", SampleLeads.pages).
Proof.
  split.
  - destruct (form_config_rejected_at_first_offender
                SampleLeads.isValidObjectId SampleForm.findByIdAndUpdate
                SampleLeads.pages Sample.pageId
                [SampleForm.budget; SampleForm.unlabelled; Js.VStr "x"]
                SampleForm.defaults) as [Hfield _].
    + vm_compute. reflexivity.
    + vm_compute. by eexists.
    + apply (Hfield 1%nat SampleForm.unlabelled); [reflexivity|reflexivity|].
      intros j f Hj Hf. destruct j as [|j]; [|lia]. simpl in Hf.
      simplify_eq. eexists. split; [reflexivity|]. by split_and!.
  - destruct (form_config_rejected_at_first_offender
                SampleLeads.isValidObjectId SampleForm.findByIdAndUpdate
                SampleLeads.pages Sample.pageId [SampleForm.budget]
                [("firstName", Js.VBool true); ("address", Js.VBool true)])
      as [_ Hkey].
    + vm_compute. reflexivity.
    + vm_compute. by eexists.
    + apply (Hkey ["firstName"] "address" []).
      * constructor; [|constructor]. eexists. split; [reflexivity|].
        by split_and!.
      * reflexivity.
      * constructor; [|constructor]. apply (bool_decide_unpack _).
        vm_compute. reflexivity.
      * apply (bool_decide_unpack _). vm_compute. reflexivity.
Defined.

Lemma form_fields_get_their_index_as_order_witness :
  exists stored,
    length stored = 2%nat
    /\ (exists props',
          stored !! 0%nat = Some (Js.VObj props')
          /\ FormFieldsRoute.own props' "order" = Some (Js.VNum 0))
    /\ (exists props',
          stored !! 1%nat = Some (Js.VObj props')
          /\ FormFieldsRoute.own props' "order" = Some (Js.VNum 7)).
Proof.
  destruct (form_fields_get_their_index_as_order SampleLeads.isValidObjectId
              SampleForm.findByIdAndUpdate SampleLeads.pages Sample.pageId
              [SampleForm.budget; SampleForm.timeline] SampleForm.defaults)
    as (stored & _ & Hlen & Hfields & _).
  - vm_compute. reflexivity.
  - vm_compute. by eexists.
  - constructor; [|constructor; [|constructor]];
      (eexists; split; [reflexivity|]; by split_and!).
  - constructor; [|constructor; [|constructor]];
      apply (bool_decide_unpack _); vm_compute; reflexivity.
  - exists stored. split_and!; [exact Hlen|..].
    + destruct (Hfields 0%nat _ eq_refl) as (props' & H1 & H2 & _).
      by exists props'.
    + destruct (Hfields 1%nat _ eq_refl) as (props' & H1 & H2 & _).
      by exists props'.
Defined.

(* ===================================================================== *)
(** * 24. Further properties: reassigning the landing page of a
      sub-admin                                                           *)
(* ===================================================================== *)

Section ReassignFacts.
Import Js SubAdminUpdate.

Variable isValidObjectId : string -> bool.
Variable findByIdAndUpdate :
  ObjectId -> Patch -> list User.t -> Res (option User.t * list User.t).

Implicit Types (access : list AdminAccess.t) (a : AdminAccess.t).

Lemma deleteMany_active_elem s access a :
  a ∈ deleteMany_active s access
  <-> a ∈ access
      /\ ~ (AdminAccess.subAdmin a = s
            /\ AdminAccess.status a = AdminAccess.active).
Proof.
  unfold deleteMany_active.
  rewrite !list_elem_of_In, filter_In, negb_true_iff, andb_false_iff,
    !bool_decide_eq_false.
  split; intros [Hin H]; (split; [done|]).
  - intros [? ?]. by destruct H.
  - destruct (decide (AdminAccess.subAdmin a = s)); [|by left].
    right. intros ?. by apply H.
Qed.

Lemma find_active_deleteMany s access :
  AdminAccess.find_active s (deleteMany_active s access) = [].
Proof.
  unfold AdminAccess.find_active, deleteMany_active.
  induction access as [|a access IH]; simpl; [done|].
  destruct (bool_decide (AdminAccess.subAdmin a = s)
            && bool_decide (AdminAccess.status a = AdminAccess.active))
    eqn:E; simpl; [done|]. by rewrite E.
Qed.

Lemma find_active_deleteMany_other s s' access :
  s' <> s ->
  AdminAccess.find_active s' (deleteMany_active s access)
  = AdminAccess.find_active s' access.
Proof.
  intros Hne. unfold AdminAccess.find_active, deleteMany_active.
  induction access as [|a access IH]; simpl; [done|].
  destruct (decide (AdminAccess.subAdmin a = s)) as [E|E].
  - rewrite (bool_decide_eq_true_2 _ E).
    rewrite (bool_decide_eq_false_2 (AdminAccess.subAdmin a = s'))
      by congruence.
    simpl. destruct (bool_decide (AdminAccess.status a = AdminAccess.active));
      simpl; [done|].
    rewrite (bool_decide_eq_false_2 (AdminAccess.subAdmin a = s'))
      by congruence.
    done.
  - rewrite (bool_decide_eq_false_2 _ E). simpl. by rewrite IH.
Qed.

Lemma deleteMany_active_well_formed s access :
  Spec.well_formed access -> Spec.well_formed (deleteMany_active s access).
Proof.
  intros [Hids Hpairs]. unfold deleteMany_active. split.
  - clear Hpairs. induction access as [|a access IH]; simpl; [constructor|].
    simpl in Hids. apply NoDup_cons in Hids as [Ha Hids].
    destruct (negb _); simpl; [|by apply IH].
    apply NoDup_cons. split; [|by apply IH].
    intros (b & Eb & [Hb _]%filter_In)%list_elem_of_In%in_map_iff.
    apply Ha. rewrite <- Eb. by apply list_elem_of_In, in_map.
  - clear Hids. induction access as [|a access IH]; simpl; [constructor|].
    simpl in Hpairs. apply NoDup_cons in Hpairs as [Ha Hpairs].
    destruct (negb _); simpl; [|by apply IH].
    apply NoDup_cons. split; [|by apply IH].
    intros (b & Eb & [Hb _]%filter_In)%list_elem_of_In%in_map_iff.
    apply Ha. rewrite <- Eb. by apply list_elem_of_In, in_map.
Qed.

(** The handler up to the landing page assignment, for a request that
    passes the checks and whose user update succeeds. *)
Lemma updateSubAdmin_assign users pages access me now id body current ph
    updated users' :
  id <> "" -> id <> "undefined" ->
  isValidObjectId id = true ->
  User.findById id users = Some current ->
  User.role current = User.sub_admin ->
  phone_to_set (phone body) = Ok ph ->
  findByIdAndUpdate id (patch_of body ph current me now) users
  = Ok (updated, users') ->
  updateSubAdmin isValidObjectId findByIdAndUpdate users pages access me now
    id [] body
  = assign pages updated users' access id me now (landingPageId body).
Proof.
  intros H1 H2 Hid Hu Hrole Hph Hupd. unfold updateSubAdmin, cast_id.
  apply String.eqb_neq in H1, H2. rewrite H1, H2, Hid. simpl.
  rewrite Hu. rewrite bool_decide_eq_false_2 by (by intros ?).
  by rewrite Hph, Hupd.
Qed.

(** X25.  Assigning a landing page replaces the active access of the
    sub-admin: every active record of the sub-admin is deleted and one
    active record for the new page is inserted, so that the lead list of
    the sub-admin is scoped to that page alone; the records of other
    sub-admins, and the collection's shape, are kept. *)
Theorem reassign_replaces_active_access users pages access me now id body
    current ph updated users' p pg :
  id <> "" -> id <> "undefined" ->
  isValidObjectId id = true ->
  User.findById id users = Some current ->
  User.role current = User.sub_admin ->
  phone_to_set (phone body) = Ok ph ->
  findByIdAndUpdate id (patch_of body ph current me now) users
  = Ok (Some updated, users') ->
  landingPageId body = Some (VStr p) -> p <> "" ->
  LandingPage.findById p pages = Some pg ->
  LandingPage.is_active pg = true ->
  Spec.well_formed access ->
  (forall a, a ∈ access -> AdminAccess.subAdmin a = id ->
             AdminAccess.landingPage a = p ->
             AdminAccess.status a = AdminAccess.active) ->
  let out := updateSubAdmin isValidObjectId findByIdAndUpdate users pages
               access me now id [] body in
  let new := AdminAccess.mk
               (AdminAccess.fresh_id (deleteMany_active id access)) id p me
               AdminAccess.active now None None in
  SubAdminUpdate.access out = deleteMany_active id access ++ [new]
  /\ AdminAccess.find_active id (SubAdminUpdate.access out) = [new]
  /\ answer out
     = Ok (mkReply 200 true (Some "Sub admin updated successfully") None
             (Some (mkData updated [new] (Some pg))))
  /\ SubAdminUpdate.users out = users'
  /\ Spec.well_formed (SubAdminUpdate.access out)
  /\ (forall s', s' <> id ->
        AdminAccess.find_active s' (SubAdminUpdate.access out)
        = AdminAccess.find_active s' access).
Proof.
  intros H1 H2 Hid Hu Hrole Hph Hupd Hlp Hp Hpg Hact Hwf Hexisting out new.
  assert (existsb (AdminAccess.same_pair id p) (deleteMany_active id access)
          = false) as Hnone.
  { apply not_true_is_false. intros (a & Ha & Hpair)%existsb_exists.
    apply list_elem_of_In, deleteMany_active_elem in Ha as [Ha Hnot].
    apply same_pair_iff in Hpair. injection Hpair as Hs Hp'.
    apply Hnot. split; [done|]. by apply Hexisting. }
  assert (AdminAccess.find_active id (deleteMany_active id access ++ [new])
          = [new]) as Hfind.
  { unfold AdminAccess.find_active. rewrite List.filter_app.
    fold (AdminAccess.find_active id (deleteMany_active id access)).
    rewrite find_active_deleteMany. simpl.
    by rewrite !bool_decide_eq_true_2. }
  assert (out = mkOutcome
            (Ok (mkReply 200 true (Some "Sub admin updated successfully") None
                   (Some (mkData updated [new] (Some pg)))))
            users' (deleteMany_active id access ++ [new])) as ->.
  { unfold out. rewrite (updateSubAdmin_assign _ _ _ _ _ _ _ current ph
                           (Some updated) users') by done.
    unfold assign. rewrite Hlp. simpl.
    assert (negb (String.eqb p "") = true) as ->
      by (by apply negb_true_iff, String.eqb_neq).
    assert (match p with "" => true | _ => false end = false) as ->
      by (by destruct p).
    simpl. rewrite Hpg, Hact. unfold AdminAccess.create. rewrite Hnone.
    unfold finish. fold new. rewrite Hfind. simpl. by rewrite Hpg. }
  simpl. split_and!; try done.
  - eapply (create_well_formed id p me now (deleteMany_active id access));
      [by apply deleteMany_active_well_formed|].
    unfold AdminAccess.create. by rewrite Hnone.
  - intros s' Hne. unfold AdminAccess.find_active. rewrite List.filter_app.
    simpl. rewrite (bool_decide_eq_false_2 (id = s')) by congruence. simpl.
    rewrite app_nil_r. by apply find_active_deleteMany_other.
Qed.

(** X26.  A refused reassignment is not free of effects.  When the page named
    is missing or inactive the answer is 400 "Invalid landing page", and
    when the pair has a record that is not active (a revoked one, say)
    the insert fails on the unique index and the route throws; in both
    cases the user was already updated and every active access record of
    the sub-admin was already deleted, so the sub-admin is left without
    access. *)
Theorem refused_reassignment_removes_access users pages access me now id body
    current ph updated users' p :
  id <> "" -> id <> "undefined" ->
  isValidObjectId id = true ->
  User.findById id users = Some current ->
  User.role current = User.sub_admin ->
  phone_to_set (phone body) = Ok ph ->
  findByIdAndUpdate id (patch_of body ph current me now) users
  = Ok (updated, users') ->
  landingPageId body = Some (VStr p) -> p <> "" ->
  let out := updateSubAdmin isValidObjectId findByIdAndUpdate users pages
               access me now id [] body in
  let effects :=
    SubAdminUpdate.access out = deleteMany_active id access
    /\ AdminAccess.find_active id (SubAdminUpdate.access out) = []
    /\ SubAdminUpdate.users out = users' in
  (match LandingPage.findById p pages with
   | Some pg => LandingPage.is_active pg = false
   | None => True
   end ->
   answer out = Ok (failure 400 "Invalid landing page") /\ effects)
  /\ ((exists pg a,
         LandingPage.findById p pages = Some pg
         /\ LandingPage.is_active pg = true
         /\ a ∈ access /\ AdminAccess.subAdmin a = id
         /\ AdminAccess.landingPage a = p
         /\ AdminAccess.status a <> AdminAccess.active) ->
      answer out = Throw DuplicateKeyError /\ effects).
Proof.
  intros H1 H2 Hid Hu Hrole Hph Hupd Hlp Hp out effects.
  assert (out = assign pages updated users' access id me now (Some (VStr p)))
    as Hout.
  { unfold out. rewrite <- Hlp.
    by apply (updateSubAdmin_assign _ _ _ _ _ _ _ current ph). }
  unfold effects. rewrite Hout. clear out effects Hout. unfold assign. simpl.
  assert (negb (String.eqb p "") = true) as ->
    by (by apply negb_true_iff, String.eqb_neq).
  assert (match p with "" => true | _ => false end = false) as ->
    by (by destruct p).
  simpl. split.
  - destruct (LandingPage.findById p pages) as [pg|]; [intros ->|intros _];
      simpl; by rewrite find_active_deleteMany.
  - intros (pg & a & -> & -> & Ha & Hs & Hpa & Hst).
    unfold AdminAccess.create.
    assert (existsb (AdminAccess.same_pair id p) (deleteMany_active id access)
            = true) as ->.
    { apply existsb_exists. exists a. split.
      - apply list_elem_of_In, deleteMany_active_elem. split; [done|].
        by intros [_ ?].
      - apply same_pair_iff. unfold Spec.pair_of. by rewrite Hs, Hpa. }
    simpl. by rewrite find_active_deleteMany.
Qed.

End ReassignFacts.

Lemma reassign_replaces_active_access_witness :
  AdminAccess.find_active Sample.subAdminId
    (SubAdminUpdate.access
       (SubAdminUpdate.updateSubAdmin SampleLeads.isValidObjectId
          SampleUpdate.findByIdAndUpdate Sample.users SampleLeads.pages
          [Sample.active_access] Sample.superAdminId 8000 Sample.subAdminId []
          (SampleUpdate.assign_body SampleMore.other_page)))
  = [AdminAccess.mk 1 Sample.subAdminId SampleMore.other_page
       Sample.superAdminId AdminAccess.active 8000 None None].
Proof.
  destruct (reassign_replaces_active_access SampleLeads.isValidObjectId
              SampleUpdate.findByIdAndUpdate Sample.users SampleLeads.pages
              [Sample.active_access] Sample.superAdminId 8000
              Sample.subAdminId
              (SampleUpdate.assign_body SampleMore.other_page)
              Sample.sub_user None Sample.sub_user Sample.users
              SampleMore.other_page SampleLeads.pageY)
    as (_ & Hfind & _);
    [done|done|vm_compute; reflexivity|vm_compute; reflexivity
    |reflexivity|reflexivity|vm_compute; reflexivity|reflexivity|done
    |vm_compute; reflexivity|reflexivity
    |split; apply (bool_decide_unpack _); vm_compute; reflexivity
    |intros a Ha%list_elem_of_singleton _ Hp; subst a; done
    |exact Hfind].
Defined.

Lemma refused_reassignment_removes_access_witness :
  SubAdminUpdate.answer
    (SubAdminUpdate.updateSubAdmin SampleLeads.isValidObjectId
       SampleUpdate.findByIdAndUpdate Sample.users SampleLeads.pages
       [Sample.active_access] Sample.superAdminId 8000 Sample.subAdminId []
       (SampleUpdate.assign_body SampleUpdate.unknown_page))
  = Js.Ok (failure 400 "Invalid landing page")
  /\ AdminAccess.find_active Sample.subAdminId
       (SubAdminUpdate.access
          (SubAdminUpdate.updateSubAdmin SampleLeads.isValidObjectId
             SampleUpdate.findByIdAndUpdate Sample.users SampleLeads.pages
             [Sample.active_access] Sample.superAdminId 8000
             Sample.subAdminId []
             (SampleUpdate.assign_body SampleUpdate.unknown_page)))
     = [].
Proof.
  destruct (refused_reassignment_removes_access SampleLeads.isValidObjectId
              SampleUpdate.findByIdAndUpdate Sample.users SampleLeads.pages
              [Sample.active_access] Sample.superAdminId 8000
              Sample.subAdminId
              (SampleUpdate.assign_body SampleUpdate.unknown_page)
              Sample.sub_user None (Some Sample.sub_user) Sample.users
              SampleUpdate.unknown_page)
    as [Hrefused _];
    [done|done|vm_compute; reflexivity|vm_compute; reflexivity
    |reflexivity|reflexivity|vm_compute; reflexivity|reflexivity|done|].
  destruct Hrefused as (Hanswer & _ & Hfind & _); [done|].
  split; [exact Hanswer|exact Hfind].
Defined.

(* ===================================================================== *)
(** * 25. Further properties: what ingestion refuses                      *)
(* ===================================================================== *)

Section IngestionRejections.
Import Js LeadRoutes.

Lemma optional_steps_no_Return page formData leadData r :
  (d4 ← step_phone formData leadData;
   d5 ← step_company page formData d4;
   d6 ← step_message page formData d5;
   step_dynamic page (map_to_list formData) d6) <> Return r.
Proof.
  unfold step_phone, step_company, step_message. unfold_monad. intros H.
  repeat (case_match; simplify_eq; simpl in *; try done);
    by eapply step_dynamic_no_Return.
Qed.

Lemma step_firstName_cases page formData leadData :
  match step_firstName page formData leadData with
  | Next _ => enabled page DefaultFields.firstName = true ->
              name_invalid (formData !! "firstName") = Ok false
  | Return r =>
      r = failure 400 "First name is required and must be at least 2 characters"
      /\ enabled page DefaultFields.firstName = true
      /\ name_invalid (formData !! "firstName") = Ok true
  | Raise _ => True
  end.
Proof.
  unfold step_firstName. unfold_monad.
  destruct (enabled page DefaultFields.firstName); [|done].
  destruct (name_invalid (formData !! "firstName")) as [[]|]; simpl;
    [done| |done].
  by destruct (call_trim (formData !! "firstName")).
Qed.

Lemma step_lastName_cases page formData leadData :
  match step_lastName page formData leadData with
  | Next _ => enabled page DefaultFields.lastName = true ->
              name_invalid (formData !! "lastName") = Ok false
  | Return r =>
      r = failure 400 "Last name is required and must be at least 2 characters"
      /\ enabled page DefaultFields.lastName = true
      /\ name_invalid (formData !! "lastName") = Ok true
  | Raise _ => True
  end.
Proof.
  unfold step_lastName. unfold_monad.
  destruct (enabled page DefaultFields.lastName); [|done].
  destruct (name_invalid (formData !! "lastName")) as [[]|]; simpl;
    [done| |done].
  by destruct (call_trim (formData !! "lastName")).
Qed.

Lemma step_email_cases page formData leadData :
  match step_email page formData leadData with
  | Next _ => True
  | Return r =>
      r = failure 400 "Valid email is required"
      /\ enabled page DefaultFields.email = true
      /\ email_invalid (formData !! "email") = Ok true
  | Raise _ => True
  end.
Proof.
  unfold step_email. unfold_monad.
  destruct (enabled page DefaultFields.email); [|done].
  destruct (email_invalid (formData !! "email")) as [[]|]; simpl;
    [done| |done].
  by destruct (call_toLowerCase (formData !! "email")).
Qed.

(** X27.  Ingestion refuses a submission for four reasons only, tested in
    this order: the landing page is missing or inactive; the first name,
    the last name, or the email fails its check on a page that enables
    that field.  The answer is 400 with the message of the first check
    that fails; no custom field, required or not, ever makes ingestion
    refuse. *)
Theorem ingestion_refuses_for_four_reasons landingPage req reply :
  createLead landingPage req = Ok reply ->
  success reply = false ->
  let formData := delete "landingPageId" (body req) in
  (reply = failure 400 "Invalid landing page"
   /\ match landingPage with
      | Some page => LandingPage.is_active page = false
      | None => True
      end)
  \/ (exists page,
        landingPage = Some page /\ LandingPage.is_active page = true
        /\ ((reply = failure 400
                       "First name is required and must be at least 2 characters"
             /\ enabled page DefaultFields.firstName = true
             /\ name_invalid (formData !! "firstName") = Ok true)
            \/ (reply = failure 400
                          "Last name is required and must be at least 2 characters"
                /\ enabled page DefaultFields.lastName = true
                /\ name_invalid (formData !! "lastName") = Ok true
                /\ (enabled page DefaultFields.firstName = true ->
                    name_invalid (formData !! "firstName") = Ok false))
            \/ (reply = failure 400 "Valid email is required"
                /\ enabled page DefaultFields.email = true
                /\ email_invalid (formData !! "email") = Ok true
                /\ (enabled page DefaultFields.firstName = true ->
                    name_invalid (formData !! "firstName") = Ok false)
                /\ (enabled page DefaultFields.lastName = true ->
                    name_invalid (formData !! "lastName") = Ok false)))).
Proof.
  intros H Hfail formData. unfold createLead in H.
  destruct landingPage as [page|]; [|unfold_monad; simplify_eq; by left].
  destruct (LandingPage.is_active page) eqn:Hact;
    [|unfold_monad; simplify_eq; by left].
  right. exists page. split; [done|]. split; [done|].
  assert (build_leadData page req = Return reply) as Hb.
  { unfold_monad. destruct (build_leadData page req) as [d|r|]; simpl in H;
      [|by simplify_eq|done].
    destruct (Lead.create d); simpl in H; [|done]. by simplify_eq. }
  clear H. unfold build_leadData in Hb. fold formData in Hb.
  pose proof (step_firstName_cases page formData (initial_leadData page req))
    as H1.
  unfold mbind at 1, Step_bind at 1 in Hb.
  destruct (step_firstName page formData _) as [d1|r1|]; [|left|done].
  2:{ destruct H1 as (-> & ? & ?). by simplify_eq. }
  pose proof (step_lastName_cases page formData d1) as H2.
  unfold mbind at 1, Step_bind at 1 in Hb.
  destruct (step_lastName page formData d1) as [d2|r2|]; [|right; left|done].
  2:{ destruct H2 as (-> & ? & ?). by simplify_eq. }
  pose proof (step_email_cases page formData d2) as H3.
  unfold mbind at 1, Step_bind at 1 in Hb.
  destruct (step_email page formData d2) as [d3|r3|];
    [|right; right|done].
  2:{ destruct H3 as (-> & ? & ?). by simplify_eq. }
  by apply optional_steps_no_Return in Hb.
Qed.

End IngestionRejections.

Lemma ingestion_refuses_for_four_reasons_witness :
  LeadRoutes.name_invalid
    (delete "landingPageId" (LeadRoutes.body Sample.req_scenario)
     !! "firstName")
  = Js.Ok true.
Proof.
  destruct (ingestion_refuses_for_four_reasons (Some Sample.pageX)
              Sample.req_scenario
              (failure 400
                 "First name is required and must be at least 2 characters"))
    as [[Hinv _]|(page & _ & _ & [(_ & _ & Hname)|[(Hlast & _)|(Hem & _)]])].
  - vm_compute. reflexivity.
  - reflexivity.
  - discriminate Hinv.
  - exact Hname.
  - discriminate Hlast.
  - discriminate Hem.
Defined.

(* ===================================================================== *)
(** * 26. Further properties: the two lead lists of a sub-admin           *)
(* ===================================================================== *)

Section SiblingFacts.
Import Js SiblingSpec.

Variable countDocuments : LeadList.LeadQuery -> Res nat.
Variable find : LeadList.LeadQuery -> Z -> Z -> Res (list Lead.t).

(** X28.  The sub-admin's own lead list (GET /api/sub-admin/leads) cannot be
    taken out of its scope: every call it makes on the Lead collection
    filters on the pages of the sub-admin's active access records,
    whatever the query says; a [landingPage] parameter is not read. *)
Theorem own_list_never_leaves_scope
    (find' : LeadList.LeadQuery -> SubAdminLeads.Num -> SubAdminLeads.Num ->
             Res (list Lead.t)) access user query :
  forall op,
    op ∈ SubAdminLeads.leadOps
           (SubAdminLeads.getLeads countDocuments find' access user query) ->
    LeadList.qLandingPage (op_query op)
    = Some (LeadList.PageIn (SpecMore.scope_of access user))
    /\ SpecMore.scope_of access user <> [].
Proof.
  intros op. unfold SubAdminLeads.getLeads, SpecMore.scope_of.
  destruct (List.map _ _) as [|p ps] eqn:E; simpl;
    [by intros ?%elem_of_nil|].
  repeat case_match; simpl; intros Hop;
    repeat (apply elem_of_cons in Hop as [->|Hop]; [done|]);
    by apply elem_of_nil in Hop.
Qed.

Lemma page_of_agrees (query : gmap string Val) (d p : Z) (key : string) :
  d <> 0%Z ->
  query !! key <> Some VUndefined ->
  parseInt10 (Some (SubAdminLeads.or_default (query !! key) d)) = Ok (Some p) ->
  p <> 0%Z ->
  parseInt10 (Some (VNum d)) = Ok (Some d) ->
  (n ← parseInt10 (query !! key); mret (num_or n d)) = Ok p.
Proof.
  intros Hd Hu Hparse Hp Hdflt. unfold_monad.
  destruct (query !! key) as [v|] eqn:E; simpl in *.
  - destruct v; try done; rewrite Hparse; simpl;
      apply Z.eqb_neq in Hp; by rewrite Hp.
  - rewrite Hdflt in Hparse. by simplify_eq.
Qed.

(** X29.  The two lead lists agree where they overlap.  For a sub-admin with
    access and a query without [landingPage], whose [page] and [limit]
    are absent or parse to numbers other than 0, the own list makes the
    same calls on the Lead collection as GET /api/leads and gives the
    same answer. *)
Theorem lead_lists_agree access user query p L :
  User.role user = User.sub_admin ->
  SpecMore.scope_of access user <> [] ->
  truthy (query !! "landingPage") = false ->
  query !! "page" <> Some VUndefined ->
  query !! "limit" <> Some VUndefined ->
  parseInt10 (Some (SubAdminLeads.or_default (query !! "page") 1))
  = Ok (Some p) ->
  parseInt10 (Some (SubAdminLeads.or_default (query !! "limit") 10))
  = Ok (Some L) ->
  p <> 0%Z -> L <> 0%Z ->
  let mine := SubAdminLeads.getLeads countDocuments (as_sibling_find find)
                access user query in
  let general := LeadList.getLeads countDocuments find access user query in
  SubAdminLeads.leadOps mine
  = List.map as_sibling_op (LeadList.leadOps general)
  /\ SubAdminLeads.result mine = as_sibling_result (LeadList.result general).
Proof.
  intros Hrole Hscope Hlp Hup Hul Hp HL Hp0 HL0 mine general.
  unfold mine, general. rewrite getLeads_sub_admin by done.
  unfold SubAdminLeads.getLeads. unfold SpecMore.scope_of in *.
  destruct (List.map _ _) as [|x xs] eqn:E; [done|].
  cbn [length Nat.eqb]. rewrite Hp, HL.
  unfold LeadList.run_query, LeadList.page_of, LeadList.limit_of.
  rewrite (page_of_agrees query 1 p "page") by done.
  rewrite (page_of_agrees query 10 L "limit") by done.
  assert (SubAdminLeads.build_query (x :: xs) query
          = LeadList.build_query (Some (LeadList.PageIn (x :: xs))) query)
    as ->.
  { unfold SubAdminLeads.build_query, LeadList.build_query, LeadList.if_given.
    by rewrite Hlp. }
  destruct (countDocuments _) as [total|]; [|done].
  simpl. destruct (find _ _ _) as [leads|]; [|done].
  simpl. split; [done|]. unfold as_sibling_reply. simpl. do 2 f_equal.
  unfold SubAdminLeads.paginate, LeadList.paginate, as_sibling_pagination.
  simpl.
  destruct ((p - 1) * L + L <? Z.of_nat total)%Z, (0 <? (p - 1) * L)%Z;
    reflexivity.
Qed.

End SiblingFacts.

Lemma lead_lists_agree_witness :
  SubAdminLeads.result
    (SubAdminLeads.getLeads Sample.count23
       (SiblingSpec.as_sibling_find Sample.find23) [Sample.active_access]
       Sample.sub_user (Sample.query_page "2" "5"))
  = SiblingSpec.as_sibling_result
      (LeadList.result
         (LeadList.getLeads Sample.count23 Sample.find23
            [Sample.active_access] Sample.sub_user
            (Sample.query_page "2" "5"))).
Proof.
  destruct (lead_lists_agree Sample.count23 Sample.find23
              [Sample.active_access] Sample.sub_user
              (Sample.query_page "2" "5") 2 5) as [_ Hresult];
    [reflexivity|vm_compute; discriminate|reflexivity
    |vm_compute; discriminate|vm_compute; discriminate
    |vm_compute; reflexivity|vm_compute; reflexivity|lia|lia|exact Hresult].
Defined.

Lemma own_list_never_leaves_scope_witness :
  LeadList.qLandingPage
    (SiblingSpec.op_query
       (SubAdminLeads.CountDocuments
          (SubAdminLeads.build_query [Sample.pageId]
             SampleMore.query_other_page)))
  = Some (LeadList.PageIn
            (SpecMore.scope_of [Sample.active_access] Sample.sub_user))
  /\ SpecMore.scope_of [Sample.active_access] Sample.sub_user <> [].
Proof.
  apply (own_list_never_leaves_scope Sample.count23
           (SiblingSpec.as_sibling_find Sample.find23) [Sample.active_access]
           Sample.sub_user SampleMore.query_other_page).
  vm_compute. apply list_elem_of_here.
Defined.
